(** * SAPS: the policy simulation engine

    A shallow embedding of the simulation engine of the South Asian policy
    simulator: [PolicySimulator] (utils/PolicyModels.ts) and
    [RegionalEconomySimulator] (data/RegionalMatrix.ts), with the properties
    of the engine stated and proved over it.

    Numbers.  A JavaScript [number] is modelled as an exact rational ([Q]):
    every arithmetic expression of the source is kept as written, with exact
    arithmetic in place of IEEE-754 rounding, and [NaN] and the infinities
    are outside the model.  Equality of numbers is [Qeq] ([==]).  Where the
    rounding of a sum decides a statement, the lines concerned are read on
    binary64 floats ([Binary64]).

    Objects.  An interface is a record; an object used as a dictionary
    ([policyChanges], [allDecisions], [spilloversByCountry]) is a [gmap]
    keyed by strings; an object whose keys are walked in order
    ([eventEffects], [allCountries]) is the list of its entries.

    Randomness.  [Math.random()] is an explicit input: a single draw for
    [applyPolicyEffects], a stream of draws with a cursor for
    [generateRegionalEvents].  [Array.prototype.sort] with the random
    comparator is a parameter of [generateRegionalEvents]. *)

From Stdlib Require Import QArith Lqa Lia List String Bool Permutation.
From Stdlib Require PrimFloat.
From stdpp Require Import base gmap strings list.
Import ListNotations.

Open Scope Q_scope.
Open Scope string_scope.

(** ** JavaScript numbers *)

Module JS.

(** [x < y] and [x > y] on numbers. *)
Definition lt (x y : Q) : bool := negb (Qle_bool y x).
Definition gt (x y : Q) : bool := lt y x.

(** A number is falsy exactly when it is zero ([NaN] is not modelled). *)
Definition truthy (x : Q) : bool := negb (Qeq_bool x 0).

(** [x || d] on numbers. *)
Definition or_else (x d : Q) : Q := if truthy x then x else d.

(** [o || d] where [o] may be [undefined]. *)
Definition opt_or_else (o : option Q) (d : Q) : Q :=
  match o with
  | Some x => or_else x d
  | None => d
  end.

(** [if (o)] where [o] may be [undefined]. *)
Definition opt_truthy (o : option Q) : bool :=
  match o with
  | Some x => truthy x
  | None => false
  end.

Definition Math_max (a b : Q) : Q := if Qle_bool a b then b else a.
Definition Math_min (a b : Q) : Q := if Qle_bool a b then a else b.
Definition Math_abs (a : Q) : Q := if Qle_bool 0 a then a else - a.

End JS.

Notation "x '<||>' d" := (JS.or_else x d) (at level 45, left associativity).
Notation "s '|>' f" := (f s) (at level 49, left associativity, only parsing).

(** ** JavaScript strings, objects and exceptions *)

Module JSString.

(** [c] in lower case; the letters are those of ASCII (the product names
    and keywords of the sources are ASCII). *)
Definition lowerChar (c : Ascii.ascii) : Ascii.ascii :=
  let n := Ascii.N_of_ascii c in
  if (65 <=? n)%N && (n <=? 90)%N then Ascii.ascii_of_N (n + 32) else c.

(** [s.toLowerCase()] *)
Fixpoint toLowerCase (s : string) : string :=
  match s with
  | EmptyString => EmptyString
  | String c rest => String (lowerChar c) (toLowerCase rest)
  end.

(** [s.includes(sub)] *)
Fixpoint includes (s sub : string) : bool :=
  String.prefix sub s
  || match s with
     | EmptyString => false
     | String _ rest => includes rest sub
     end.

End JSString.

(** An object whose keys are walked: its entries, in key order.  The keys of
    the sources are words, so the order is the order of insertion. *)
Module JSObject.

Definition t (A : Type) : Type := list (string * A).

(** [obj[key]] *)
Definition get {A : Type} (obj : t A) (key : string) : option A :=
  snd <$> List.find (fun entry => String.eqb (fst entry) key) obj.

(** [key in obj] *)
Definition has {A : Type} (obj : t A) (key : string) : bool :=
  existsb (fun entry => String.eqb (fst entry) key) obj.

(** [obj[key] = v]: a key the object has keeps its place, a new key goes
    last. *)
Fixpoint set {A : Type} (obj : t A) (key : string) (v : A) : t A :=
  match obj with
  | [] => [(key, v)]
  | (k, x) :: rest =>
      if String.eqb k key then (k, v) :: rest else (k, x) :: set rest key v
  end.

(** [Object.keys(obj)] *)
Definition keys {A : Type} (obj : t A) : list string := List.map fst obj.

(** [Object.values(obj)] *)
Definition values {A : Type} (obj : t A) : list A := List.map snd obj.

End JSObject.

(** [[...new Set(l)]]: the elements of [l] without repetition, each at the
    place of its first occurrence. *)
Definition SetFrom (l : list string) : list string :=
  fold_left (fun set x => if existsb (String.eqb x) set then set else (set ++ [x])%list)
    l [].

(** What a call that can throw comes to. *)
Inductive Completion (A : Type) : Type :=
  | Return (a : A)
  | Throw (message : string).

Arguments Return {A} a.
Arguments Throw {A} message.

(** Run [k] on what [c] returns; a throw goes through. *)
Definition andThen {A B : Type} (c : Completion A) (k : A -> Completion B)
    : Completion B :=
  match c with
  | Return a => k a
  | Throw message => Throw message
  end.

(** ** Data model (types/GameTypes) *)

(** Modelled from the spec: the interfaces of types/GameTypes.ts
    ([CountryStats], [PolicyDecision], [PolicySpillover],
    [TradeRelationship], [RegionalEvent]), which are not among the sources.
    Their fields are those of the data model of the specification and of the
    object literals that the sources build. *)

(** The numeric fields of [CountryStats] that every state carries. *)
Inductive Field : Set :=
  | year | gdp_growth | unemployment | literacy_rate | life_expectancy
  | poverty_rate | co2_emissions | population | infant_mortality
  | health_expenditure | education_spending | infrastructure_investment
  | agriculture_spending | manufacturing_spending | services_spending
  | energy_spending | technology_spending | tourism_spending
  | environment_spending | trade_liberalization | tariff_rate
  | agriculture_gdp_percent | manufacturing_gdp_percent
  | services_gdp_percent.

Definition Field_ix (f : Field) : nat :=
  match f with
  | year => 0 | gdp_growth => 1 | unemployment => 2 | literacy_rate => 3
  | life_expectancy => 4 | poverty_rate => 5 | co2_emissions => 6
  | population => 7 | infant_mortality => 8 | health_expenditure => 9
  | education_spending => 10 | infrastructure_investment => 11
  | agriculture_spending => 12 | manufacturing_spending => 13
  | services_spending => 14 | energy_spending => 15
  | technology_spending => 16 | tourism_spending => 17
  | environment_spending => 18 | trade_liberalization => 19
  | tariff_rate => 20 | agriculture_gdp_percent => 21
  | manufacturing_gdp_percent => 22 | services_gdp_percent => 23
  end%nat.

Definition Field_eqb (f g : Field) : bool := Nat.eqb (Field_ix f) (Field_ix g).

(** The property names of the numeric fields, as the object carries them. *)
Definition field_names : list (string * Field) :=
  [ ("year", year); ("gdp_growth", gdp_growth);
    ("unemployment", unemployment); ("literacy_rate", literacy_rate);
    ("life_expectancy", life_expectancy); ("poverty_rate", poverty_rate);
    ("co2_emissions", co2_emissions); ("population", population);
    ("infant_mortality", infant_mortality);
    ("health_expenditure", health_expenditure);
    ("education_spending", education_spending);
    ("infrastructure_investment", infrastructure_investment);
    ("agriculture_spending", agriculture_spending);
    ("manufacturing_spending", manufacturing_spending);
    ("services_spending", services_spending);
    ("energy_spending", energy_spending);
    ("technology_spending", technology_spending);
    ("tourism_spending", tourism_spending);
    ("environment_spending", environment_spending);
    ("trade_liberalization", trade_liberalization);
    ("tariff_rate", tariff_rate);
    ("agriculture_gdp_percent", agriculture_gdp_percent);
    ("manufacturing_gdp_percent", manufacturing_gdp_percent);
    ("services_gdp_percent", services_gdp_percent) ].

Definition field_of_key (key : string) : option Field :=
  snd <$> List.find (fun p => String.eqb (fst p) key) field_names.

(** Modelled from the spec: [CountryStats] is the country name, one number
    per required field, and the two derived KPIs, which the initial state
    does not carry. *)
Record CountryStats : Type := mkStats {
  country : string;
  num : Field -> Q;
  tariffRevenue : option Q;
  consumerWelfare : option Q
}.

Notation "s '.[' f ']'" := (num s f) (at level 1, left associativity, format "s .[ f ]").

(** [newStats.f = g(newStats.f)] *)
Definition upd (f : Field) (g : Q -> Q) (s : CountryStats) : CountryStats :=
  {| country := country s;
     num := fun h => if Field_eqb h f then g (num s f) else num s h;
     tariffRevenue := tariffRevenue s;
     consumerWelfare := consumerWelfare s |}.

(** [newStats.f = v], [newStats.f += d], [newStats.f -= d], [newStats.f *= k] *)
Definition assign (f : Field) (v : Q) : CountryStats -> CountryStats := upd f (fun _ => v).
Definition add_to (f : Field) (d : Q) : CountryStats -> CountryStats := upd f (fun x => x + d).
Definition sub_from (f : Field) (d : Q) : CountryStats -> CountryStats := upd f (fun x => x - d).
Definition mul_by (f : Field) (k : Q) : CountryStats -> CountryStats := upd f (fun x => x * k).

Definition set_tariffRevenue (v : option Q) (s : CountryStats) : CountryStats :=
  {| country := country s; num := num s;
     tariffRevenue := v; consumerWelfare := consumerWelfare s |}.

Definition set_consumerWelfare (v : option Q) (s : CountryStats) : CountryStats :=
  {| country := country s; num := num s;
     tariffRevenue := tariffRevenue s; consumerWelfare := v |}.

(** Read a named field through a chain of updates. *)
Ltac read_fields :=
  cbn [num upd assign add_to sub_from mul_by set_tariffRevenue
       set_consumerWelfare Field_eqb Field_ix Nat.eqb].

Module PolicyDecision.
Record t : Type := mk { id : string; value : Q; min : Q; max : Q }.
End PolicyDecision.

Inductive PolicyType : Set :=
  | trade_gdp | infrastructure | environment | manufacturing | technology | energy.

Inductive Magnitude : Set := low | medium | high.

Inductive Timeframe : Set := immediate | short_term | medium_term | long_term.

Module PolicySpillover.
Record t : Type := mk {
  sourceCountry : string;
  targetCountry : string;
  policyType : PolicyType;
  effect : Q;
  description : string;
  magnitude : Magnitude;
  timeframe : Timeframe;
  sector : option string
}.
End PolicySpillover.

Module TradeRelationship.
Record t : Type := mk {
  from : string;
  to : string;
  tradeVolume : Q;
  tariffRate : Q;
  cooperation : Q
}.
End TradeRelationship.

Module RegionalEvent.
Record t : Type := mk {
  id : string;
  name : string;
  description : string;
  year : Z;
  effects : list (string * Q);
  targetCountries : list string
}.
End RegionalEvent.

(** An entry of the event catalog of [generateRegionalEvents]; [targets],
    [region_wide] and [unique] are optional properties of the literal
    ([undefined], hence falsy, where the literal omits them). *)
Module PoolEvent.
Record t : Type := mk {
  id : string;
  name : string;
  probability : Q;
  targets : list string;
  region_wide : bool;
  description : string;
  effects : list (string * Q);
  unique : bool
}.
End PoolEvent.

Inductive EffectType : Set :=
  | effect_trade | effect_investment | effect_technology | effect_environment.

(** The objects that [calculateDetailedSpillovers] pushes.  [tradeProducts]
    and [sector] are absent from the general spillovers. *)
Module DetailedSpillover.
Record t : Type := mk {
  id : string;
  sourceCountry : string;
  targetCountry : string;
  policyCategory : string;
  effectType : EffectType;
  magnitude : Q;
  description : string;
  tradeProducts : option (list string);
  timeframe : Timeframe;
  confidence : Q;
  sector : option string
}.
End DetailedSpillover.

(** ** TradeProductsLoader (data/TradeProductsLoader.ts) *)

Module TradeProductsLoader.

(** [TradeProductsData]: for each country, for each partner, the product
    names. *)
Module TradeProductsData.
Record t : Type := mk {
  imports : JSObject.t (JSObject.t (list string));
  exports : JSObject.t (JSObject.t (list string))
}.
End TradeProductsData.

(** What [getMainTradeProducts] returns. *)
Module MainTradeProducts.
Record t : Type := mk {
  imports : list string;
  exports : list string;
  total : list string
}.
End MainTradeProducts.

(** The module variable [tradeProductsData]: [None] is [null]. *)
Definition State : Type := option TradeProductsData.t.

(** What [fetch] answered: [response.ok] and the parsed body. *)
Record Response : Type := mkResponse {
  ok : bool;
  json : TradeProductsData.t
}.

(** [loadTradeProductsData()], given the answer that [fetch] would give;
    returns the module variable after the call. *)
Definition loadTradeProductsData (response : Response) (tradeProductsData : State)
    : Completion State :=
  match tradeProductsData with
  | Some _ => Return tradeProductsData
  | None =>
      if negb (ok response) then Throw "Failed to load BilateralTradeProducts.json"
      else Return (Some (json response))
  end.

Definition getBilateralTradeProducts (tradeProductsData : State)
    : Completion TradeProductsData.t :=
  match tradeProductsData with
  | None => Throw "Trade products data not loaded. Call loadTradeProductsData() first."
  | Some data => Return data
  end.

(** [table[a]?.[b] || []] *)
Definition productsOf (table : JSObject.t (JSObject.t (list string)))
    (a b : string) : list string :=
  match JSObject.get table a with
  | Some partners => default [] (JSObject.get partners b)
  | None => []
  end.

Definition getImportProducts (tradeProductsData : State) (importer exporter : string)
    : Completion (list string) :=
  andThen (getBilateralTradeProducts tradeProductsData) (fun data =>
    Return (productsOf (TradeProductsData.imports data) importer exporter)).

Definition getExportProducts (tradeProductsData : State) (exporter importer : string)
    : Completion (list string) :=
  andThen (getBilateralTradeProducts tradeProductsData) (fun data =>
    Return (productsOf (TradeProductsData.exports data) exporter importer)).

Definition getAllTradingPartners (tradeProductsData : State) (country : string)
    : Completion (list string) :=
  andThen (getBilateralTradeProducts tradeProductsData) (fun data =>
    let importPartners :=
      match JSObject.get (TradeProductsData.imports data) country with
      | Some partners => JSObject.keys partners
      | None => []
      end in
    let exportPartners :=
      match JSObject.get (TradeProductsData.exports data) country with
      | Some partners => JSObject.keys partners
      | None => []
      end in
    Return (SetFrom (importPartners ++ exportPartners))).

Definition getTradeIntensity (tradeProductsData : State) (country1 country2 : string)
    : Completion Q :=
  andThen (getImportProducts tradeProductsData country1 country2) (fun imports =>
  andThen (getExportProducts tradeProductsData country1 country2) (fun exports =>
    let totalProducts := (length imports + length exports)%nat in
    Return (JS.Math_min 100 (inject_Z (Z.of_nat totalProducts) * 5)))).

Definition getMainTradeProducts (tradeProductsData : State) (country1 country2 : string)
    : Completion MainTradeProducts.t :=
  andThen (getImportProducts tradeProductsData country1 country2) (fun imports =>
  andThen (getExportProducts tradeProductsData country1 country2) (fun exports =>
    let total := SetFrom (imports ++ exports) in
    Return (MainTradeProducts.mk imports exports total))).

End TradeProductsLoader.

(** ** RegionalEconomySimulator (data/RegionalMatrix.ts) *)

Module RegionalEconomySimulator.

Definition energyTradePairs : list (string * string) :=
  [ ("India", "Bhutan"); ("India", "Nepal");
    ("Pakistan", "Afghanistan"); ("India", "Bangladesh") ].

Definition hasEnergyTrade (country1 country2 : string) : bool :=
  existsb (fun pair =>
    (String.eqb (fst pair) country1 && String.eqb (snd pair) country2)
    || (String.eqb (fst pair) country2 && String.eqb (snd pair) country1))
    energyTradePairs.

(** [if (policyChanges.key) { ... push(k(policyChanges.key)) }] *)
Definition whenTruthy {A : Type} (o : option Q) (k : Q -> A) : list A :=
  match o with
  | Some v => if JS.truthy v then [k v] else []
  | None => []
  end.

(** The three-way magnitude bucket on a value [x] ([x] is the effect itself
    for the GDP spillover and its absolute value for the others). *)
Definition bucket (x hi mid : Q) : Magnitude :=
  if JS.gt x hi then high else if JS.gt x mid then medium else low.

(** The body of [tradingPartners.forEach]: the spillovers pushed for one
    trade edge, in push order. *)
Definition edgeSpillovers (sourceCountry : string)
    (policyChanges : gmap string Q) (trade : TradeRelationship.t)
    : list PolicySpillover.t :=
  let targetCountry :=
    if String.eqb (TradeRelationship.from trade) sourceCountry
    then TradeRelationship.to trade else TradeRelationship.from trade in
  let tradeIntensity := TradeRelationship.tradeVolume trade / 100 in
  let cooperationFactor := TradeRelationship.cooperation trade / 100 in
  (* GDP Growth spillovers *)
  whenTruthy (policyChanges !! "gdp_growth") (fun gdp_growth =>
    let spilloverEffect := gdp_growth * tradeIntensity * cooperationFactor * 0.25 in
    PolicySpillover.mk sourceCountry targetCountry trade_gdp spilloverEffect
      ("Trade spillover from " ++ sourceCountry ++ "'s economic growth")
      (bucket spilloverEffect 0.1 0.05) short_term None)
  (* Infrastructure spillovers *)
  ++ whenTruthy (policyChanges !! "infrastructure_investment") (fun infrastructure_investment =>
    let infraSpillover := (infrastructure_investment - 5) * tradeIntensity * 0.12 in
    PolicySpillover.mk sourceCountry targetCountry infrastructure infraSpillover
      ("Cross-border infrastructure benefits from " ++ sourceCountry)
      (bucket (JS.Math_abs infraSpillover) 0.08 0.04) medium_term None)
  (* Environmental spillovers *)
  ++ whenTruthy (policyChanges !! "co2_emissions") (fun co2_emissions =>
    let envSpillover := co2_emissions * 0.08 in
    PolicySpillover.mk sourceCountry targetCountry environment envSpillover
      ("Environmental impact from " ++ sourceCountry ++ "'s emissions")
      (bucket (JS.Math_abs envSpillover) 0.05 0.02) long_term None)
  (* Industry-specific spillovers *)
  ++ whenTruthy (policyChanges !! "manufacturing_investment") (fun manufacturing_investment =>
    let manufacturingSpillover := manufacturing_investment * tradeIntensity * 0.1 in
    PolicySpillover.mk sourceCountry targetCountry manufacturing manufacturingSpillover
      ("Manufacturing competitiveness impact from " ++ sourceCountry)
      (bucket (JS.Math_abs manufacturingSpillover) 0.06 0.03) medium_term
      (Some "manufacturing"))
  (* Technology spillovers *)
  ++ whenTruthy (policyChanges !! "technology_investment") (fun technology_investment =>
    let techSpillover := technology_investment * cooperationFactor * 0.15 in
    PolicySpillover.mk sourceCountry targetCountry technology techSpillover
      ("Technology transfer and innovation spillover from " ++ sourceCountry)
      (bucket (JS.Math_abs techSpillover) 0.08 0.04) long_term
      (Some "technology"))
  (* Energy spillovers *)
  ++ (if hasEnergyTrade sourceCountry targetCountry then
        whenTruthy (policyChanges !! "energy_investment") (fun energy_investment =>
          let energySpillover := energy_investment * 0.2 in
          PolicySpillover.mk sourceCountry targetCountry energy energySpillover
            ("Energy security and pricing impact from " ++ sourceCountry)
            (bucket (JS.Math_abs energySpillover) 0.1 0.05) immediate
            (Some "energy"))
      else []).

(** [tradeMatrix.filter(t => t.from === sourceCountry || t.to === sourceCountry)] *)
Definition tradingPartners (sourceCountry : string)
    (tradeMatrix : list TradeRelationship.t) : list TradeRelationship.t :=
  List.filter (fun t =>
    String.eqb (TradeRelationship.from t) sourceCountry
    || String.eqb (TradeRelationship.to t) sourceCountry) tradeMatrix.

Definition calculateTradeSpillovers (sourceCountry : string)
    (policyChanges : gmap string Q) (tradeMatrix : list TradeRelationship.t)
    : list PolicySpillover.t :=
  flat_map (edgeSpillovers sourceCountry policyChanges)
    (tradingPartners sourceCountry tradeMatrix).

(** *** Regional events *)

Definition eventPool : list PoolEvent.t :=
  [ (* Natural Disasters *)
    PoolEvent.mk "monsoon_floods" "Severe Monsoon Floods" 0.08
      ["Bangladesh"; "India"; "Pakistan"] false
      "Unusually heavy monsoon rains have caused widespread flooding, displacing thousands and damaging crops and infrastructure."
      [("gdp_growth", -0.6); ("poverty_rate", 1.5); ("infrastructure_investment", -1.0)]
      false;
    PoolEvent.mk "cyclone_bay_of_bengal" "Cyclone in Bay of Bengal" 0.06
      ["Bangladesh"; "India"; "Sri Lanka"] false
      "A powerful cyclone makes landfall, devastating coastal communities and disrupting port activities."
      [("gdp_growth", -0.8); ("population", -0.005); ("infrastructure_investment", -1.5)]
      false;
    PoolEvent.mk "drought" "Severe Drought" 0.05
      ["Pakistan"; "India"; "Afghanistan"] false
      "A prolonged drought has led to water shortages and crop failures, impacting food security."
      [("gdp_growth", -0.5); ("agriculture_gdp_percent", -1.0); ("poverty_rate", 1.2)]
      false;
    (* Economic Events *)
    PoolEvent.mk "global_recession" "Global Economic Recession" 0.07
      [] true
      "A global economic downturn reduces demand for exports and slows foreign investment across the region."
      [("gdp_growth", -1.0); ("unemployment", 1.5)]
      false;
    PoolEvent.mk "oil_price_shock" "Oil Price Shock" 0.08
      [] true
      "A sudden surge in global oil prices increases import costs and fuels inflation."
      [("gdp_growth", -0.4); ("co2_emissions", -0.1)]
      false;
    PoolEvent.mk "fdi_boom" "Major Foreign Investment" 0.05
      ["India"; "Bangladesh"] false
      "A major multinational corporation announces significant investment in the tech and manufacturing sectors, boosting employment and growth."
      [("gdp_growth", 0.8); ("unemployment", -0.5); ("technology_spending", 0.5)]
      true;
    (* Political/Social Events *)
    PoolEvent.mk "regional_cooperation_summit" "Successful Regional Summit" 0.15
      [] true
      "A successful regional summit leads to new agreements on trade facilitation and cross-border projects."
      [("trust", 10); ("connectivity", 0.5)]
      false;
    PoolEvent.mk "border_tensions" "Border Tensions Flare Up" 0.08
      ["India"; "Pakistan"] false
      "Renewed tensions along the border lead to trade disruptions and decreased political trust."
      [("trust", -15); ("gdp_growth", -0.3)]
      false;
    PoolEvent.mk "health_breakthrough" "Public Health Breakthrough" 0.04
      ["India"; "Bangladesh"; "Sri Lanka"] false
      "A new vaccine program, shared between nations, dramatically reduces the incidence of a major disease."
      [("life_expectancy", 0.5); ("health_expenditure", 0.2)]
      true;
    PoolEvent.mk "himalayan_earthquake" "Major Himalayan Earthquake" 0.03
      ["Nepal"; "Bhutan"; "India"] false
      "A major earthquake has struck the Himalayan region, causing significant damage to infrastructure and requiring international aid."
      [("gdp_growth", -1.2); ("infrastructure_investment", -2.5); ("poverty_rate", 2.0)]
      true ].

(** The draws of [Math.random()]: a stream, read at a cursor that every
    call advances by one. *)
Definition Draws : Type := nat -> Q.

(** A comparator passed to [Array.prototype.sort]: it may draw. *)
Definition Comparator (A : Type) : Type := A -> A -> nat -> Q * nat.

(** The type of [Array.prototype.sort]: the array and the cursor before,
    the array and the cursor after. *)
Definition Sorter : Type :=
  forall A : Type, Comparator A -> list A -> nat -> list A * nat.

(** [() => 0.5 - Math.random()] *)
Definition randomComparator {A : Type} (random : Draws) : Comparator A :=
  fun _ _ cursor => (0.5 - random cursor, S cursor).

(** [Math.random() > 0.6]: the year has no event check. *)
Definition gateClosed (draw : Q) : bool := JS.gt draw 0.6.

(** The effective probability of a catalog event. *)
Definition eventProbability (cooperationIndex : Q) (event : PoolEvent.t) : Q :=
  let eventProbability := PoolEvent.probability event in
  let eventProbability :=
    if String.eqb (PoolEvent.id event) "regional_cooperation_summit"
    then eventProbability * (cooperationIndex / 50) else eventProbability in
  let eventProbability :=
    if String.eqb (PoolEvent.id event) "border_tensions"
    then eventProbability * ((100 - cooperationIndex) / 50) else eventProbability in
  eventProbability.

(** The [for (const event of potentialEvents)] loop: the first event whose
    draw succeeds, and the cursor after the draws made. *)
Fixpoint firstTriggered (random : Draws) (cooperationIndex : Q)
    (potentialEvents : list PoolEvent.t) (cursor : nat)
    : option PoolEvent.t * nat :=
  match potentialEvents with
  | [] => (None, cursor)
  | event :: rest =>
      if JS.lt (random cursor) (eventProbability cooperationIndex event)
      then (Some event, S cursor)
      else firstTriggered random cooperationIndex rest (S cursor)
  end.

Definition stabilityEvent (roster : list string) (year : Z) : RegionalEvent.t :=
  RegionalEvent.mk "no_major_event" "A Period of Stability"
    "The region experiences a period of relative stability, allowing governments to focus on domestic policy."
    year [("gdp_growth", 0.1)] roster.

Section GenerateRegionalEvents.

(** [SOUTH_ASIAN_COUNTRIES.map(c => c.name)]; the roster of
    data/CountryList is not among the sources. *)
Variable roster : list string.

(** The engine's [Array.prototype.sort]. *)
Variable Array_sort : Sorter.

(** [potentialEvents]: the catalog without the unique events that already
    occurred. *)
Definition potentialEvents (history : list RegionalEvent.t) : list PoolEvent.t :=
  let occurredEventIds : gset string := list_to_set (RegionalEvent.id <$> history) in
  List.filter (fun event =>
    negb (PoolEvent.unique event
          && bool_decide (PoolEvent.id event ∈ occurredEventIds))) eventPool.

(** The event check: everything [generateRegionalEvents] does after the
    gate, reading the draws from [cursor] on. *)
Definition eventCheck (random : Draws) (cursor : nat)
    (year : Z) (cooperationIndex : Q) (history : list RegionalEvent.t)
    : list RegionalEvent.t * nat :=
  let (shuffled, cursor) :=
    Array_sort _ (randomComparator random) (potentialEvents history) cursor in
  match firstTriggered random cooperationIndex shuffled cursor with
  | (Some event, cursor) =>
      ([ RegionalEvent.mk (PoolEvent.id event) (PoolEvent.name event)
           (PoolEvent.description event) year (PoolEvent.effects event)
           (if PoolEvent.region_wide event then roster
            else PoolEvent.targets event) ],
       cursor)
  | (None, cursor) =>
      if Z.eqb (Z.rem year 3) 0
      then ([stabilityEvent roster year], cursor)
      else ([], cursor)
  end.

(** [generateRegionalEvents(year, cooperationIndex, history)] reading the
    draws from [cursor] on; returns the events and the cursor after the
    last draw.  [year] is an integer. *)
Definition generateRegionalEvents (random : Draws) (cursor : nat)
    (year : Z) (cooperationIndex : Q) (history : list RegionalEvent.t)
    : list RegionalEvent.t * nat :=
  if gateClosed (random cursor) then ([], S cursor)
  else eventCheck random (S cursor) year cooperationIndex history.

End GenerateRegionalEvents.

(** A sorter to run the examples and witnesses on: insertion sort, asking
    the comparator once per comparison and placing [x] before [y] when the
    comparator's answer is not positive.  Under a comparator that answers
    at random the order of the result is the engine's own affair, and V8
    orders otherwise; no property below depends on this sorter. *)
Fixpoint insertBy {A : Type} (cmp : Comparator A) (x : A) (sorted : list A)
    (cursor : nat) : list A * nat :=
  match sorted with
  | [] => ([x], cursor)
  | y :: rest =>
      let (c, cursor) := cmp x y cursor in
      if Qle_bool c 0 then (x :: y :: rest, cursor)
      else
        let (rest', cursor) := insertBy cmp x rest cursor in
        (y :: rest', cursor)
  end.

Fixpoint insertionSort (A : Type) (cmp : Comparator A) (l : list A)
    (cursor : nat) : list A * nat :=
  match l with
  | [] => ([], cursor)
  | x :: rest =>
      let (sorted, cursor) := insertionSort A cmp rest cursor in
      insertBy cmp x sorted cursor
  end.

(** *** The trade matrix *)

(** The body of [currentMatrix.map]. *)
Definition updateTrade (policyChanges : gmap string (gmap string Q))
    (trade : TradeRelationship.t) : TradeRelationship.t :=
  let sourceChanges : gmap string Q :=
    default ∅ (policyChanges !! TradeRelationship.from trade) in
  let targetChanges : gmap string Q :=
    default ∅ (policyChanges !! TradeRelationship.to trade) in
  let newTradeVolume := TradeRelationship.tradeVolume trade in
  let newTariffRate := TradeRelationship.tariffRate trade in
  let newCooperation := TradeRelationship.cooperation trade in
  (* Trade policy effects *)
  let '(newTradeVolume, newTariffRate) :=
    if JS.opt_truthy (sourceChanges !! "trade_openness") then
      let openness := default 0 (sourceChanges !! "trade_openness") / 100 in
      (newTradeVolume * (1 + openness * 0.1), newTariffRate * (1 - openness * 0.2))
    else (newTradeVolume, newTariffRate) in
  (* Infrastructure effects on trade *)
  let newTradeVolume :=
    if JS.opt_truthy (sourceChanges !! "infrastructure_investment")
       || JS.opt_truthy (targetChanges !! "infrastructure_investment") then
      let avgInfra :=
        (JS.opt_or_else (sourceChanges !! "infrastructure_investment") 0
         + JS.opt_or_else (targetChanges !! "infrastructure_investment") 0) / 2 in
      newTradeVolume * (1 + (avgInfra - 5) * 0.02)
    else newTradeVolume in
  (* Cooperation effects *)
  let newCooperation :=
    if JS.opt_truthy (sourceChanges !! "cooperation_policy") then
      JS.Math_max 0 (JS.Math_min 100
        (newCooperation + default 0 (sourceChanges !! "cooperation_policy")))
    else newCooperation in
  TradeRelationship.mk (TradeRelationship.from trade) (TradeRelationship.to trade)
    (JS.Math_max 0 newTradeVolume)
    (JS.Math_max 0 (JS.Math_min 50 newTariffRate))
    newCooperation.

Definition updateTradeMatrix (currentMatrix : list TradeRelationship.t)
    (policyChanges : gmap string (gmap string Q)) : list TradeRelationship.t :=
  List.map (updateTrade policyChanges) currentMatrix.

(** *** The initial trade matrix *)

Definition INITIAL_TRADE_MATRIX : list TradeRelationship.t :=
  [ (* India's trade relationships *)
    TradeRelationship.mk "India" "Bangladesh" 8.5 8.5 75;
    TradeRelationship.mk "India" "Pakistan" 2.1 25.0 35;
    TradeRelationship.mk "India" "Sri Lanka" 4.7 12.0 80;
    TradeRelationship.mk "India" "Nepal" 6.8 5.0 85;
    TradeRelationship.mk "India" "Bhutan" 12.5 0.0 95;
    TradeRelationship.mk "India" "Maldives" 4.2 10.0 70;
    TradeRelationship.mk "India" "Afghanistan" 1.5 15.0 45;
    (* Bangladesh trade relationships *)
    TradeRelationship.mk "Bangladesh" "India" 1.2 12.0 75;
    TradeRelationship.mk "Bangladesh" "Pakistan" 0.2 20.0 60;
    TradeRelationship.mk "Bangladesh" "Sri Lanka" 0.05 15.0 65;
    TradeRelationship.mk "Bangladesh" "Nepal" 0.03 18.0 70;
    (* Pakistan trade relationships *)
    TradeRelationship.mk "Pakistan" "India" 0.4 30.0 35;
    TradeRelationship.mk "Pakistan" "Bangladesh" 0.1 18.0 60;
    TradeRelationship.mk "Pakistan" "Sri Lanka" 0.3 12.0 70;
    TradeRelationship.mk "Pakistan" "Afghanistan" 1.8 8.0 80;
    (* Other bilateral relationships *)
    TradeRelationship.mk "Sri Lanka" "India" 1.1 10.0 80;
    TradeRelationship.mk "Sri Lanka" "Pakistan" 0.2 14.0 70;
    TradeRelationship.mk "Nepal" "India" 0.7 3.0 85;
    TradeRelationship.mk "Bhutan" "India" 0.4 0.0 95;
    TradeRelationship.mk "Maldives" "India" 0.02 8.0 70;
    TradeRelationship.mk "Afghanistan" "Pakistan" 0.3 10.0 80;
    TradeRelationship.mk "Afghanistan" "India" 0.1 18.0 45 ].

(** *** Detailed spillovers *)

(** [words.some(w => text.includes(w))] *)
Definition includesAny (text : string) (words : list string) : bool :=
  existsb (JSString.includes text) words.

(** The [else] branch of [generateSpilloverDescription]: the [switch] on
    the category. *)
Definition categoryDescription (sourceCountry targetCountry : string)
    (policyCategory : string) (isPositive : bool) : string :=
  if String.eqb policyCategory "infrastructure" then
    sourceCountry
    ++ "'s investment in infrastructure improves cross-border connectivity, "
    ++ (if isPositive then "lowering trade costs for" else "creating bottlenecks for")
    ++ " " ++ targetCountry ++ "."
  else if String.eqb policyCategory "trade" then
    "Greater trade openness in " ++ sourceCountry ++ " "
    ++ (if isPositive then "increases market access for" else "intensifies competition for")
    ++ " " ++ targetCountry ++ "'s exporters."
  else if String.eqb policyCategory "cooperation" then
    "A shift in " ++ sourceCountry ++ "'s regional cooperation stance "
    ++ (if isPositive then "strengthens" else "weakens")
    ++ " diplomatic and economic ties with " ++ targetCountry ++ "."
  else if String.eqb policyCategory "environment" then
    sourceCountry
    ++ "'s environmental regulations have cross-border effects on shared ecosystems and air quality in "
    ++ targetCountry ++ "."
  else if String.eqb policyCategory "technology" then
    "Investment in technology in " ++ sourceCountry
    ++ " leads to knowledge spillovers, "
    ++ (if isPositive then "boosting innovation capacity in"
        else "widening the technology gap with")
    ++ " " ++ targetCountry ++ "."
  else if String.eqb policyCategory "health" then
    "Public health policies in " ++ sourceCountry
    ++ " can affect cross-border disease transmission and health security for "
    ++ targetCountry ++ "."
  else
    sourceCountry ++ "'s " ++ policyCategory
    ++ " policy has a ripple effect on " ++ targetCountry ++ "'s economy.".

(** The [if (product)] branch of [generateSpilloverDescription]. *)
Definition productDescription (sourceCountry targetCountry : string)
    (product : string) (isPositive : bool) : string :=
  let productLower := JSString.toLowerCase product in
  if includesAny productLower ["textile"; "garment"; "apparel"] then
    sourceCountry ++ "'s manufacturing policies "
    ++ (if isPositive then "boost its textile exports" else "reduce its competitiveness")
    ++ ", affecting " ++ targetCountry ++ "'s key garment industry."
  else if includesAny productLower ["machinery"; "automobiles"; "motorcycles"] then
    "A shift in " ++ sourceCountry
    ++ "'s industrial strategy impacts its machinery trade, "
    ++ (if isPositive then "offering new technology to" else "creating competition for")
    ++ " " ++ targetCountry ++ "."
  else if includesAny productLower ["petroleum"; "energy"; "hydroelectric"] then
    sourceCountry
    ++ "'s energy policy changes affect cross-border power trade, influencing energy security in "
    ++ targetCountry ++ "."
  else if includesAny productLower
            ["food"; "rice"; "agriculture"; "fish"; "fruits"; "vegetable"] then
    "Agricultural policies in " ++ sourceCountry
    ++ " influence food supply chains, impacting food prices and availability in "
    ++ targetCountry ++ "."
  else if JSString.includes productLower "pharmaceutical" then
    "Changes in " ++ sourceCountry
    ++ "'s health and manufacturing sector affect the availability and cost of pharmaceuticals in "
    ++ targetCountry ++ "."
  else
    sourceCountry ++ "'s policy on " ++ product ++ " "
    ++ (if isPositive then "positively" else "negatively")
    ++ " impacts bilateral trade with " ++ targetCountry ++ ".".

(** [generateSpilloverDescription]; [product] is [None] for [undefined], and
    the empty string is falsy like [undefined]. *)
Definition generateSpilloverDescription (sourceCountry targetCountry : string)
    (policyCategory : string) (product : option string) (isPositive : bool)
    : string :=
  match product with
  | Some product =>
      if negb (String.eqb product "")
      then productDescription sourceCountry targetCountry product isPositive
      else categoryDescription sourceCountry targetCountry policyCategory isPositive
  | None => categoryDescription sourceCountry targetCountry policyCategory isPositive
  end.

Definition getEffectType (product : string) : EffectType :=
  let techProducts := ["machinery"; "pharmaceuticals"; "chemicals"; "electronics"] in
  let envProducts := ["petroleum"; "coal"; "natural gas"; "timber"] in
  if includesAny (JSString.toLowerCase product) techProducts then effect_technology
  else if includesAny (JSString.toLowerCase product) envProducts then effect_environment
  else effect_trade.

(** [for (const [key, v] of Object.entries(table)) if (text.includes(key))
    return v; return dflt]: the first key of the table, in declaration
    order, that the text includes. *)
Definition firstIncluded (text : string) (table : list (string * string))
    (dflt : string) : string :=
  match List.find (fun entry => JSString.includes text (fst entry)) table with
  | Some entry => snd entry
  | None => dflt
  end.

Definition productSectorMap : list (string * string) :=
  [ ("textiles", "manufacturing"); ("pharmaceuticals", "health");
    ("machinery", "manufacturing"); ("food", "agriculture");
    ("petroleum", "energy"); ("electricity", "energy");
    ("tea", "agriculture"); ("rice", "agriculture"); ("cotton", "agriculture");
    ("cement", "manufacturing"); ("chemicals", "manufacturing");
    ("fish", "agriculture"); ("timber", "environment"); ("gems", "mining");
    ("handicrafts", "services") ].

Definition getProductSector (product : string) : string :=
  firstIncluded (JSString.toLowerCase product) productSectorMap "trade".

Definition calculateGeneralSpillover (policyType : string) (newValue tradeVolume : Q)
    (sourceCountryStats : CountryStats) : Q :=
  let baseEffect := tradeVolume / 100 in
  if String.eqb policyType "infrastructure" then
    let change := newValue - (sourceCountryStats.[infrastructure_investment] <||> 5.0) in
    baseEffect * change * 0.03
  else if String.eqb policyType "education" then
    let change := newValue - (sourceCountryStats.[education_spending] <||> 4.0) in
    baseEffect * change * 0.015
  else if String.eqb policyType "health" then
    let change := newValue - (sourceCountryStats.[health_expenditure] <||> 3.0) in
    baseEffect * change * 0.01
  else if String.eqb policyType "trade" then
    let change := newValue - (sourceCountryStats.[trade_liberalization] <||> 50) in
    baseEffect * (change / 100) * 0.20
  else if String.eqb policyType "environment" then
    let change := newValue - (sourceCountryStats.[environment_spending] <||> 2.0) in
    baseEffect * change * 0.02
  else 0.

Definition getPolicyEffectType (policyType : string) : EffectType :=
  if String.eqb policyType "trade" || String.eqb policyType "tariff" then effect_trade
  else if String.eqb policyType "infrastructure"
          || String.eqb policyType "foreign_investment" then effect_investment
  else if String.eqb policyType "technology" then effect_technology
  else if String.eqb policyType "environment" then effect_environment
  else effect_trade.

Definition getPolicyTimeframe (policyType : string) : Timeframe :=
  if String.eqb policyType "tariff" || String.eqb policyType "trade" then immediate
  else if String.eqb policyType "infrastructure"
          || String.eqb policyType "health" then medium_term
  else if String.eqb policyType "education"
          || String.eqb policyType "technology" then long_term
  else short_term.

(** The [productPolicyMap] of [isPolicyRelevantToProduct]. *)
Definition productPolicyMap : list (string * list string) :=
  [ ("textile", ["manufacturing"; "trade"; "services"]);
    ("garment", ["manufacturing"; "trade"; "services"]);
    ("apparel", ["manufacturing"; "trade"; "services"]);
    ("pharmaceuticals", ["health"; "manufacturing"; "technology"]);
    ("machinery", ["manufacturing"; "technology"; "infrastructure"]);
    ("automobiles", ["manufacturing"; "technology"; "infrastructure"]);
    ("food", ["agriculture"; "trade"]);
    ("rice", ["agriculture"; "trade"]);
    ("tea", ["agriculture"; "trade"]);
    ("cotton", ["agriculture"; "manufacturing"]);
    ("petroleum", ["energy"; "trade"; "environment"]);
    ("hydroelectric", ["energy"; "infrastructure"; "environment"]);
    ("electricity", ["energy"; "infrastructure"; "environment"]);
    ("cement", ["manufacturing"; "infrastructure"]);
    ("chemicals", ["manufacturing"; "health"]);
    ("fish", ["agriculture"; "trade"]);
    ("timber", ["environment"; "trade"]);
    ("gems", ["trade"; "services"]);
    ("handicrafts", ["services"; "tourism"]);
    ("jute", ["agriculture"; "manufacturing"; "trade"]);
    ("leather", ["manufacturing"; "trade"]);
    ("spices", ["agriculture"; "trade"]);
    ("rubber", ["agriculture"; "manufacturing"]);
    ("coconut", ["agriculture"; "trade"]) ].

Definition isPolicyRelevantToProduct (policyChanges : JSObject.t Q) (product : string)
    : bool :=
  let lowerProduct := JSString.toLowerCase product in
  let relevantPolicies :=
    fold_left (fun relevantPolicies entry =>
        if JSString.includes lowerProduct (fst entry)
        then (relevantPolicies ++ snd entry)%list else relevantPolicies)
      productPolicyMap [] in
  existsb (fun policy => JSObject.has policyChanges policy) relevantPolicies.

(** The [productPolicyMap] of [getPolicyCategory]. *)
Definition productCategoryMap : list (string * string) :=
  [ ("textiles", "manufacturing"); ("pharmaceuticals", "health");
    ("machinery", "manufacturing"); ("food", "agriculture");
    ("rice", "agriculture"); ("tea", "agriculture"); ("cotton", "agriculture");
    ("petroleum", "energy"); ("electricity", "energy");
    ("cement", "manufacturing"); ("chemicals", "manufacturing");
    ("fish", "agriculture"); ("timber", "environment"); ("gems", "services");
    ("handicrafts", "services"); ("jute", "agriculture");
    ("leather", "manufacturing"); ("spices", "agriculture");
    ("rubber", "agriculture"); ("coconut", "agriculture") ].

Definition getPolicyCategory (policyChanges : JSObject.t Q) (product : string) : string :=
  firstIncluded (JSString.toLowerCase product) productCategoryMap "trade".

Definition calculateProductSpillover (policyChanges : JSObject.t Q) (product : string)
    (tradeVolume : Q) (sourceCountryStats : CountryStats) : Q :=
  let baseEffect := tradeVolume / 100 in
  let lowerProduct := JSString.toLowerCase product in
  let manufacturingChange :=
    JS.opt_or_else (JSObject.get policyChanges "manufacturing") 0
    - (sourceCountryStats.[manufacturing_spending] <||> 2.0) in
  let servicesChange :=
    JS.opt_or_else (JSObject.get policyChanges "services") 0
    - (sourceCountryStats.[services_spending] <||> 1.5) in
  let healthChange :=
    JS.opt_or_else (JSObject.get policyChanges "health") 0
    - (sourceCountryStats.[health_expenditure] <||> 3.0) in
  let infraChange :=
    JS.opt_or_else (JSObject.get policyChanges "infrastructure") 0
    - (sourceCountryStats.[infrastructure_investment] <||> 5.0) in
  let techChange :=
    JS.opt_or_else (JSObject.get policyChanges "technology") 0
    - (sourceCountryStats.[technology_spending] <||> 1.0) in
  let agricultureChange :=
    JS.opt_or_else (JSObject.get policyChanges "agriculture") 0
    - (sourceCountryStats.[agriculture_spending] <||> 3.5) in
  let energyChange :=
    JS.opt_or_else (JSObject.get policyChanges "energy") 0
    - (sourceCountryStats.[energy_spending] <||> 4.0) in
  let tourismChange :=
    JS.opt_or_else (JSObject.get policyChanges "tourism") 0
    - (sourceCountryStats.[tourism_spending] <||> 0.8) in
  let tradeChange :=
    JS.opt_or_else (JSObject.get policyChanges "trade") 50
    - (sourceCountryStats.[trade_liberalization] <||> 50) in
  if includesAny lowerProduct ["textile"; "cotton"; "garment"; "apparel"] then
    (manufacturingChange + servicesChange) * baseEffect * 0.15
  else if includesAny lowerProduct ["pharmaceutical"; "chemical"] then
    (healthChange + manufacturingChange) * baseEffect * 0.2
  else if includesAny lowerProduct ["machinery"; "equipment"; "automobiles"; "steel"] then
    (infraChange + techChange) * baseEffect * 0.18
  else if includesAny lowerProduct
            ["food"; "rice"; "tea"; "fish"; "spice"; "fruits"; "vegetable"] then
    agricultureChange * baseEffect * 0.25
  else if includesAny lowerProduct
            ["petroleum"; "hydroelectric"; "electricity"; "gas"; "energy"] then
    energyChange * baseEffect * 0.25
  else if includesAny lowerProduct ["handicraft"; "tourism"; "gem"] then
    (tourismChange + servicesChange) * baseEffect * 0.15
  else if includesAny lowerProduct ["cement"; "construction"] then
    infraChange * baseEffect * 0.2
  else
    (tradeChange / 100) * baseEffect * 0.2.

Definition getSpilloverTimeframe (product : string) : Timeframe :=
  let lowerProduct := JSString.toLowerCase product in
  let immediateProducts := ["petroleum"; "electricity"; "food"; "gas"; "energy"] in
  let shortTermProducts := ["textiles"; "machinery"; "cement"; "rice"; "fish"] in
  let mediumTermProducts := ["pharmaceuticals"; "chemicals"; "equipment"] in
  let longTermProducts := ["technology"; "education"; "infrastructure"] in
  if includesAny lowerProduct immediateProducts then immediate
  else if includesAny lowerProduct shortTermProducts then short_term
  else if includesAny lowerProduct mediumTermProducts then medium_term
  else if includesAny lowerProduct longTermProducts then long_term
  else long_term.

(** The body of [tradeProducts.total.forEach]: what one product pushes. *)
Definition productSpillover (sourceCountry targetCountry : string)
    (policyChanges : JSObject.t Q) (tradeVolume : Q)
    (sourceCountryStats : CountryStats) (product : string)
    : list DetailedSpillover.t :=
  if isPolicyRelevantToProduct policyChanges product then
    let magnitude :=
      calculateProductSpillover policyChanges product tradeVolume sourceCountryStats in
    let policyCategory := getPolicyCategory policyChanges product in
    if JS.gt (JS.Math_abs magnitude) 0.01 then
      [ DetailedSpillover.mk
          (sourceCountry ++ "-" ++ targetCountry ++ "-" ++ product)
          sourceCountry targetCountry policyCategory
          (getEffectType product) magnitude
          (generateSpilloverDescription sourceCountry targetCountry
             policyCategory (Some product) (JS.gt magnitude 0))
          (Some [product]) (getSpilloverTimeframe product) 0.8
          (Some (getProductSector product)) ]
    else []
  else [].

(** The body of [Object.entries(policyChanges).forEach]: what one policy
    change pushes. *)
Definition generalSpillover (sourceCountry targetCountry : string)
    (tradeVolume : Q) (sourceCountryStats : CountryStats) (entry : string * Q)
    : list DetailedSpillover.t :=
  let (policyType, change) := entry in
  if JS.gt (JS.Math_abs change) 0.1 then
    let magnitude :=
      calculateGeneralSpillover policyType change tradeVolume sourceCountryStats in
    if JS.gt (JS.Math_abs magnitude) 0.01 then
      [ DetailedSpillover.mk
          (sourceCountry ++ "-" ++ targetCountry ++ "-" ++ policyType)
          sourceCountry targetCountry policyType
          (getPolicyEffectType policyType) magnitude
          (generateSpilloverDescription sourceCountry targetCountry
             policyType None (JS.gt magnitude 0))
          None (getPolicyTimeframe policyType) 0.7 None ]
    else []
  else [].

(** The body of [tradingPartners.forEach]: what one trade edge pushes, or
    the throw of [getMainTradeProducts]. *)
Definition edgeDetailedSpillovers (tradeProductsData : TradeProductsLoader.State)
    (sourceCountry : string) (policyChanges : JSObject.t Q)
    (sourceCountryStats : CountryStats) (trade : TradeRelationship.t)
    : Completion (list DetailedSpillover.t) :=
  let targetCountry :=
    if String.eqb (TradeRelationship.from trade) sourceCountry
    then TradeRelationship.to trade else TradeRelationship.from trade in
  let tradeVolume := TradeRelationship.tradeVolume trade in
  andThen (TradeProductsLoader.getMainTradeProducts tradeProductsData
             sourceCountry targetCountry) (fun tradeProducts =>
    Return
      (flat_map (productSpillover sourceCountry targetCountry policyChanges
                   tradeVolume sourceCountryStats)
         (TradeProductsLoader.MainTradeProducts.total tradeProducts)
       ++ flat_map (generalSpillover sourceCountry targetCountry tradeVolume
                      sourceCountryStats)
            policyChanges)%list).

(** The [forEach] over the trade edges: the pushes of the edges one after
    the other, up to the first throw. *)
Fixpoint collectDetailed (tradeProductsData : TradeProductsLoader.State)
    (sourceCountry : string) (policyChanges : JSObject.t Q)
    (sourceCountryStats : CountryStats) (edges : list TradeRelationship.t)
    : Completion (list DetailedSpillover.t) :=
  match edges with
  | [] => Return []
  | trade :: rest =>
      andThen (edgeDetailedSpillovers tradeProductsData sourceCountry
                 policyChanges sourceCountryStats trade) (fun pushed =>
      andThen (collectDetailed tradeProductsData sourceCountry policyChanges
                 sourceCountryStats rest) (fun others =>
        Return (pushed ++ others)%list))
  end.

(** [calculateDetailedSpillovers(sourceCountry, policyChanges, tradeMatrix,
    sourceCountryStats)], given the module variable of the loader. *)
Definition calculateDetailedSpillovers (tradeProductsData : TradeProductsLoader.State)
    (sourceCountry : string) (policyChanges : JSObject.t Q)
    (tradeMatrix : list TradeRelationship.t) (sourceCountryStats : CountryStats)
    : Completion (list DetailedSpillover.t) :=
  collectDetailed tradeProductsData sourceCountry policyChanges sourceCountryStats
    (tradingPartners sourceCountry tradeMatrix).

(** *** Tariffs and cooperation *)

(** The object that [calculateTariffEffects] returns.  [gdp_growth] is
    [None] when it is [NaN]: the average volume of no edge is 0/0. *)
Module TariffEffects.
Record t : Type := mk {
  gdp_growth : option Q;
  unemployment : Q;
  poverty_rate : Q
}.
End TariffEffects.

Definition calculateTariffEffects (country : string) (tariffPolicy : Q)
    (tradeMatrix : list TradeRelationship.t) : TariffEffects.t :=
  let countryTrades := tradingPartners country tradeMatrix in
  let avgTradeVolume : option Q :=
    match countryTrades with
    | [] => None
    | _ =>
        Some (fold_left (fun sum t => sum + TradeRelationship.tradeVolume t)
                countryTrades 0
              / inject_Z (Z.of_nat (length countryTrades)))
    end in
  if JS.gt tariffPolicy 50 then
    TariffEffects.mk
      ((fun avgTradeVolume => 0 - (tariffPolicy - 50) * 0.02 * (avgTradeVolume / 100))
         <$> avgTradeVolume)
      (0 + (tariffPolicy - 50) * 0.01)
      0
  else
    TariffEffects.mk
      ((fun avgTradeVolume => 0 + (50 - tariffPolicy) * 0.015 * (avgTradeVolume / 100))
         <$> avgTradeVolume)
      (0 - (50 - tariffPolicy) * 0.008)
      0.

(** The entry that [simulateRegionalCooperation] gives every country. *)
Definition cooperationEntry (cooperationLevel : Q) : JSObject.t Q :=
  if JS.gt cooperationLevel 70 then
    [ ("gdp_growth", 0.3); ("infrastructure_investment", 0.5); ("trade_volume", 0.2) ]
  else if JS.lt cooperationLevel 40 then
    [ ("gdp_growth", -0.2); ("unemployment", 0.3) ]
  else [].

Definition simulateRegionalCooperation {A : Type} (cooperationLevel : Q)
    (allCountries : JSObject.t A) : JSObject.t (JSObject.t Q) :=
  fold_left (fun cooperationEffects country =>
      JSObject.set cooperationEffects country (cooperationEntry cooperationLevel))
    (JSObject.keys allCountries) [].

End RegionalEconomySimulator.

(** ** PolicySimulator (utils/PolicyModels.ts) *)

Module PolicySimulator.

(** [decisions.find(d => d.id === key)?.value] *)
Definition decisionValue (key : string) (decisions : list PolicyDecision.t) : option Q :=
  PolicyDecision.value <$> List.find (fun d => String.eqb (PolicyDecision.id d) key) decisions.

(** [decisions.find(d => d.id === key)?.value || dflt] *)
Definition lever (key : string) (dflt : Q) (decisions : list PolicyDecision.t) : Q :=
  JS.opt_or_else (decisionValue key decisions) dflt.

(** The policy-driven deltas and the derived KPI: the body of
    [applyPolicyEffects] up to the spillover loop.  The constants of the
    body read [currentStats] and [decisions] only and are bound first; the
    updates of [newStats] follow in source order. *)
Definition policyDeltas (currentStats : CountryStats)
    (decisions : list PolicyDecision.t) : CountryStats :=
  let tariffPolicy := lever "tariffs" 15 decisions in
  let ntbPolicy := lever "ntbs" 60 decisions in
  let connectivityPolicy := lever "connectivity" 5.0 decisions in
  let trustPolicy := lever "trust" 50 decisions in
  let agricultureSpending := lever "agriculture" 3.5 decisions in
  let manufacturingSpending := lever "manufacturing" 2.0 decisions in
  let servicesSpending := lever "services" 1.5 decisions in
  let energySpending := lever "energy" 4.0 decisions in
  let technologySpending := lever "technology" 1.0 decisions in
  let educationChange := (currentStats.[education_spending] <||> 4.0) - 4.0 in
  let healthChange := (currentStats.[health_expenditure] <||> 3.0) - 3.0 in
  let infraChange := connectivityPolicy - (currentStats.[infrastructure_investment] <||> 5.0) in
  let agricultureChange := agricultureSpending - (currentStats.[agriculture_spending] <||> 3.5) in
  let agriGdpShare := (currentStats.[agriculture_gdp_percent] <||> 15.0) / 100 in
  let manufacturingChange := manufacturingSpending - (currentStats.[manufacturing_spending] <||> 2.0) in
  let manuGdpShare := (currentStats.[manufacturing_gdp_percent] <||> 20.0) / 100 in
  let servicesChange := servicesSpending - (currentStats.[services_spending] <||> 1.5) in
  let servGdpShare := (currentStats.[services_gdp_percent] <||> 50.0) / 100 in
  let energyChange := energySpending - (currentStats.[energy_spending] <||> 4.0) in
  let technologyChange := technologySpending - (currentStats.[technology_spending] <||> 1.0) in
  let tariffEffect := (tariffPolicy - (currentStats.[tariff_rate] <||> 15)) / 100 in
  let ntbEffect := (ntbPolicy - 60) / 100 in
  let cooperationEffect := (trustPolicy - 50) / 100 in
  let tradeVolumeProxy :=
    100 - (tariffPolicy * 0.5) - (ntbPolicy * 0.3) + (connectivityPolicy * 2) + (trustPolicy * 0.2) in
  currentStats
  (* Education effects *)
  |> add_to literacy_rate (educationChange * 0.25)
  |> add_to gdp_growth (educationChange * 0.03)
  (* Health effects *)
  |> add_to life_expectancy (healthChange * 0.08)
  |> sub_from infant_mortality (healthChange * 0.3)
  |> add_to gdp_growth (healthChange * 0.02)
  (* Infrastructure effects *)
  |> add_to gdp_growth (infraChange * 0.05)
  |> sub_from unemployment (infraChange * 0.1)
  |> sub_from poverty_rate (infraChange * 0.15)
  |> assign infrastructure_investment connectivityPolicy
  (* Industry-specific effects *)
  |> add_to gdp_growth (agricultureChange * 0.2 * agriGdpShare)
  |> sub_from poverty_rate (agricultureChange * 0.5 * agriGdpShare)
  |> add_to gdp_growth (manufacturingChange * 0.3 * manuGdpShare)
  |> sub_from unemployment (manufacturingChange * 0.4 * manuGdpShare)
  |> add_to gdp_growth (servicesChange * 0.2 * servGdpShare)
  |> sub_from unemployment (servicesChange * 0.25 * servGdpShare)
  |> add_to gdp_growth (energyChange * 0.1)
  |> add_to co2_emissions (energyChange * 0.05)
  |> add_to gdp_growth (technologyChange * 0.1)
  |> add_to literacy_rate (technologyChange * 0.1)
  (* Tariff effects *)
  |> sub_from gdp_growth (tariffEffect * 0.12)
  |> add_to unemployment (tariffEffect * 0.09)
  |> add_to poverty_rate (tariffEffect * 0.18)
  (* NTB effects *)
  |> sub_from gdp_growth (ntbEffect * 0.08)
  (* Regional cooperation effects *)
  |> add_to gdp_growth (cooperationEffect * 0.06)
  |> add_to infrastructure_investment (cooperationEffect * 0.3)
  (* KPI *)
  |> set_tariffRevenue (Some ((tariffPolicy / 100) * (tradeVolumeProxy * 0.5))).

(** One iteration of [spilloverEffects.forEach]: the routing [switch]. *)
Definition applySpillover (newStats : CountryStats) (spillover : PolicySpillover.t)
    : CountryStats :=
  let effect := PolicySpillover.effect spillover in
  match PolicySpillover.policyType spillover with
  | trade_gdp =>
      newStats |> add_to gdp_growth effect
  | infrastructure =>
      newStats |> add_to infrastructure_investment effect
               |> add_to gdp_growth (effect * 0.1)
  | environment =>
      newStats |> add_to co2_emissions effect
  | manufacturing =>
      newStats |> add_to gdp_growth (effect * 0.1)
               |> sub_from unemployment (effect * 0.05)
  | technology =>
      newStats |> add_to gdp_growth (effect * 0.15)
               |> add_to literacy_rate (effect * 0.3)
  | energy =>
      newStats |> add_to gdp_growth (effect * 0.08)
  end.

(** One iteration of [Object.keys(eventEffects).forEach]: the delta is added
    when the key names a numeric property the object has; any other key is
    ignored. *)
Definition applyEventEffect (newStats : CountryStats) (entry : string * Q)
    : CountryStats :=
  let (key, delta) := entry in
  match field_of_key key with
  | Some f => newStats |> add_to f delta
  | None =>
      if String.eqb key "tariffRevenue" then
        match tariffRevenue newStats with
        | Some v => newStats |> set_tariffRevenue (Some (v + delta))
        | None => newStats
        end
      else if String.eqb key "consumerWelfare" then
        match consumerWelfare newStats with
        | Some v => newStats |> set_consumerWelfare (Some (v + delta))
        | None => newStats
        end
      else newStats
  end.

(** The state before the random variation and before the bounds. *)
Definition preJitter (currentStats : CountryStats)
    (decisions : list PolicyDecision.t)
    (spilloverEffects : list PolicySpillover.t)
    (eventEffects : list (string * Q)) : CountryStats :=
  fold_left applyEventEffect eventEffects
    (fold_left applySpillover spilloverEffects
       (policyDeltas currentStats decisions)).

(** [(Math.random() - 0.5) * 0.5] *)
Definition randomVariation (random : Q) : Q := (random - 0.5) * 0.5.

(** "Apply bounds" *)
Definition applyBounds (newStats : CountryStats) : CountryStats :=
  newStats
  |> upd literacy_rate (fun x => JS.Math_max 0 (JS.Math_min 100 x))
  |> upd unemployment (fun x => JS.Math_max 0.5 (JS.Math_min 50 x))
  |> upd poverty_rate (fun x => JS.Math_max 0 (JS.Math_min 90 x))
  |> upd life_expectancy (fun x => JS.Math_max 45 (JS.Math_min 90 x))
  |> upd gdp_growth (fun x => JS.Math_max (-10) (JS.Math_min 15 x))
  |> upd co2_emissions (fun x => JS.Math_max 0 x)
  |> upd infant_mortality (fun x => JS.Math_max 1 (JS.Math_min 150 x))
  |> upd population (fun x => JS.Math_max 100000 x).

(** "Persist all policy decisions to stats for next year's delta
    calculation" *)
Definition persistDecisions (decisions : list PolicyDecision.t)
    (newStats : CountryStats) : CountryStats :=
  newStats
  |> assign agriculture_spending (lever "agriculture" 3.5 decisions)
  |> assign manufacturing_spending (lever "manufacturing" 2.0 decisions)
  |> assign services_spending (lever "services" 1.5 decisions)
  |> assign energy_spending (lever "energy" 4.0 decisions)
  |> assign technology_spending (lever "technology" 1.0 decisions)
  |> assign tariff_rate (lever "tariffs" 15 decisions).

(** [applyPolicyEffects(currentStats, decisions, spilloverEffects,
    eventEffects)], with the value of its [Math.random()] call as [random].
    [eventEffects] lists the entries of the object in key order. *)
Definition applyPolicyEffects (currentStats : CountryStats)
    (decisions : list PolicyDecision.t)
    (spilloverEffects : list PolicySpillover.t)
    (eventEffects : list (string * Q))
    (random : Q) : CountryStats :=
  preJitter currentStats decisions spilloverEffects eventEffects
  |> add_to gdp_growth (randomVariation random)
  |> applyBounds
  |> persistDecisions decisions.

(** The ids that the [switch] of [simulateRegionalEffects] recognises; the
    case for an id stores the decision's value under the same name. *)
Definition policyChangeKeys : list string :=
  [ "education"; "health"; "infrastructure"; "environment"; "agriculture";
    "manufacturing"; "services"; "energy"; "technology"; "tourism"; "trade";
    "tariff"; "cooperation" ].

(** One iteration of [decisions.forEach]: "Extract policy changes". *)
Definition extractPolicyChange (policyChanges : gmap string Q)
    (decision : PolicyDecision.t) : gmap string Q :=
  if existsb (String.eqb (PolicyDecision.id decision)) policyChangeKeys
  then <[PolicyDecision.id decision := PolicyDecision.value decision]> policyChanges
  else policyChanges.

Definition extractPolicyChanges (decisions : list PolicyDecision.t) : gmap string Q :=
  fold_left extractPolicyChange decisions ∅.

(** One iteration of [spillovers.forEach]: file the spillover under its
    target country. *)
Definition fileSpillover (spilloversByCountry : gmap string (list PolicySpillover.t))
    (spillover : PolicySpillover.t) : gmap string (list PolicySpillover.t) :=
  let target := PolicySpillover.targetCountry spillover in
  <[target := (default [] (spilloversByCountry !! target) ++ [spillover])%list]>
    spilloversByCountry.

(** [simulateRegionalEffects(allCountries, allDecisions, tradeMatrix)];
    [allCountries] lists the entries of the object in key order. *)
Definition simulateRegionalEffects
    (allCountries : list (string * CountryStats))
    (allDecisions : gmap string (list PolicyDecision.t))
    (tradeMatrix : list TradeRelationship.t)
    : gmap string (list PolicySpillover.t) :=
  fold_left (fun spilloversByCountry sourceCountry =>
      let decisions := default [] (allDecisions !! sourceCountry) in
      let policyChanges := extractPolicyChanges decisions in
      let spillovers :=
        RegionalEconomySimulator.calculateTradeSpillovers
          sourceCountry policyChanges tradeMatrix in
      fold_left fileSpillover spillovers spilloversByCountry)
    (fst <$> allCountries) ∅.

(** The [improvements] object of [calculateScore], as [Object.values] lists
    it. *)
Definition improvements (finalStats initialStats : CountryStats) : list Q :=
  [ (finalStats.[gdp_growth] - initialStats.[gdp_growth]) * 15;
    (finalStats.[literacy_rate] - initialStats.[literacy_rate]) * 3;
    (finalStats.[life_expectancy] - initialStats.[life_expectancy]) * 8;
    (initialStats.[unemployment] - finalStats.[unemployment]) * 5;
    (initialStats.[poverty_rate] - finalStats.[poverty_rate]) * 4;
    (initialStats.[co2_emissions] - finalStats.[co2_emissions]) * 15;
    (initialStats.[infant_mortality] - finalStats.[infant_mortality]) * 2 ].

Definition calculateScore (finalStats initialStats : CountryStats) : Q :=
  let improvements := improvements finalStats initialStats in
  let totalScore := fold_left (fun sum val => sum + val) improvements 0 in
  let balanceBonus := if forallb (fun val => JS.gt val (-50)) improvements then 100 else 0 in
  let extremePenalty := if existsb (fun val => JS.lt val (-100)) improvements then -200 else 0 in
  JS.Math_max 0 (JS.Math_min 1000 (totalScore + 400 + balanceBonus + extremePenalty)).

End PolicySimulator.

(** ** The three-parameter copy of [applyPolicyEffects]

    The repository holds a second copy of the class, whose
    [applyPolicyEffects] takes no event effects and reads the levers
    education, health, infrastructure, environment, trade, tariff and
    cooperation. *)

Module PolicySimulator3.

Import PolicySimulator.

Definition policyDeltas (currentStats : CountryStats)
    (decisions : list PolicyDecision.t) : CountryStats :=
  let educationSpending := lever "education" (currentStats.[education_spending]) decisions in
  let healthSpending := lever "health" (currentStats.[health_expenditure]) decisions in
  let infraSpending := lever "infrastructure" (currentStats.[infrastructure_investment]) decisions in
  let envPolicy := lever "environment" 2.0 decisions in
  let tradePolicy := lever "trade" 50 decisions in
  let tariffPolicy := lever "tariff" 15 decisions in
  let cooperationPolicy := lever "cooperation" 50 decisions in
  let agricultureSpending := lever "agriculture" 3.5 decisions in
  let manufacturingSpending := lever "manufacturing" 2.0 decisions in
  let servicesSpending := lever "services" 1.5 decisions in
  let energySpending := lever "energy" 4.0 decisions in
  let technologySpending := lever "technology" 1.0 decisions in
  let educationChange := educationSpending - (currentStats.[education_spending] <||> 4.0) in
  let healthChange := healthSpending - (currentStats.[health_expenditure] <||> 3.0) in
  let infraChange := infraSpending - (currentStats.[infrastructure_investment] <||> 5.0) in
  let agricultureChange := agricultureSpending - (currentStats.[agriculture_spending] <||> 3.5) in
  let agriGdpShare := (currentStats.[agriculture_gdp_percent] <||> 15.0) / 100 in
  let manufacturingChange := manufacturingSpending - (currentStats.[manufacturing_spending] <||> 2.0) in
  let manuGdpShare := (currentStats.[manufacturing_gdp_percent] <||> 20.0) / 100 in
  let servicesChange := servicesSpending - (currentStats.[services_spending] <||> 1.5) in
  let servGdpShare := (currentStats.[services_gdp_percent] <||> 50.0) / 100 in
  let energyChange := energySpending - (currentStats.[energy_spending] <||> 4.0) in
  let technologyChange := technologySpending - (currentStats.[technology_spending] <||> 1.0) in
  let envChange := envPolicy - (currentStats.[environment_spending] <||> 2.0) in
  let tradeChange := (tradePolicy - (currentStats.[trade_liberalization] <||> 50)) / 100 in
  let tariffEffect := (tariffPolicy - (currentStats.[tariff_rate] <||> 15)) / 100 in
  let cooperationEffect := (cooperationPolicy - 50) / 100 in
  currentStats
  (* Education effects *)
  |> add_to literacy_rate (educationChange * 0.25)
  |> add_to gdp_growth (educationChange * 0.03)
  |> sub_from unemployment (educationChange * 0.05)
  |> assign education_spending educationSpending
  (* Health effects *)
  |> add_to life_expectancy (healthChange * 0.08)
  |> sub_from infant_mortality (healthChange * 0.3)
  |> add_to gdp_growth (healthChange * 0.02)
  |> assign health_expenditure healthSpending
  (* Infrastructure effects *)
  |> add_to gdp_growth (infraChange * 0.05)
  |> sub_from unemployment (infraChange * 0.1)
  |> sub_from poverty_rate (infraChange * 0.15)
  |> assign infrastructure_investment infraSpending
  (* Industry-specific effects *)
  |> add_to gdp_growth (agricultureChange * 0.2 * agriGdpShare)
  |> sub_from poverty_rate (agricultureChange * 0.5 * agriGdpShare)
  |> add_to gdp_growth (manufacturingChange * 0.3 * manuGdpShare)
  |> sub_from unemployment (manufacturingChange * 0.4 * manuGdpShare)
  |> add_to gdp_growth (servicesChange * 0.2 * servGdpShare)
  |> sub_from unemployment (servicesChange * 0.25 * servGdpShare)
  |> add_to gdp_growth (energyChange * 0.1)
  |> add_to co2_emissions (energyChange * 0.05)
  |> add_to gdp_growth (technologyChange * 0.1)
  |> add_to literacy_rate (technologyChange * 0.1)
  (* Environmental effects *)
  |> mul_by co2_emissions (1 - envChange * 0.03)
  |> sub_from gdp_growth (envChange * 0.06)
  (* Trade effects *)
  |> add_to gdp_growth (tradeChange * 0.15)
  |> sub_from unemployment (tradeChange * 0.1)
  (* Tariff effects *)
  |> sub_from gdp_growth (tariffEffect * 0.1)
  |> add_to unemployment (tariffEffect * 0.08)
  |> add_to poverty_rate (tariffEffect * 0.15)
  (* Regional cooperation effects *)
  |> add_to gdp_growth (cooperationEffect * 0.06)
  |> add_to infrastructure_investment (cooperationEffect * 0.3).

Definition persistDecisions (decisions : list PolicyDecision.t)
    (newStats : CountryStats) : CountryStats :=
  newStats
  |> assign agriculture_spending (lever "agriculture" 3.5 decisions)
  |> assign manufacturing_spending (lever "manufacturing" 2.0 decisions)
  |> assign services_spending (lever "services" 1.5 decisions)
  |> assign energy_spending (lever "energy" 4.0 decisions)
  |> assign technology_spending (lever "technology" 1.0 decisions)
  |> assign environment_spending (lever "environment" 2.0 decisions)
  |> assign trade_liberalization (lever "trade" 50 decisions)
  |> assign tariff_rate (lever "tariff" 15 decisions).

Definition applyPolicyEffects (currentStats : CountryStats)
    (decisions : list PolicyDecision.t)
    (spilloverEffects : list PolicySpillover.t)
    (random : Q) : CountryStats :=
  fold_left applySpillover spilloverEffects (policyDeltas currentStats decisions)
  |> add_to gdp_growth (randomVariation random)
  |> applyBounds
  |> persistDecisions decisions.

End PolicySimulator3.

(** ** The orchestrator (App.tsx)

    The steps of [handleNextYear] and of [simulateAIDecisions] that feed the
    engine and use what it returns.  The React state ([gameState],
    [allCountriesDecisions], [decisions]) is read as plain values. *)

Module App.

(** The body of [currentDecisions.map] in [simulateAIDecisions]: the
    adjusted decision of an AI country, with the value of its
    [Math.random()] call as [random]. *)
Definition adjustDecision (countryStats : CountryStats) (random : Q)
    (decision : PolicyDecision.t) : PolicyDecision.t :=
  let adjustment := 0 in
  let adjustment :=
    if JS.lt countryStats.[gdp_growth] 2 then
      let adjustment :=
        if String.eqb (PolicyDecision.id decision) "connectivity" then 0.5
        else adjustment in
      if String.eqb (PolicyDecision.id decision) "tariffs" then -1 else adjustment
    else adjustment in
  let adjustment :=
    if JS.gt countryStats.[unemployment] 8 then
      if String.eqb (PolicyDecision.id decision) "connectivity" then 0.8
      else adjustment
    else adjustment in
  let adjustment := adjustment + (random - 0.5) * 0.2 in
  let newValue :=
    JS.Math_max (PolicyDecision.min decision)
      (JS.Math_min (PolicyDecision.max decision)
         (PolicyDecision.value decision + adjustment)) in
  PolicyDecision.mk (PolicyDecision.id decision) newValue
    (PolicyDecision.min decision) (PolicyDecision.max decision).

(** [currentDecisions.map(...)] with the state of the country; one draw per
    decision.  Without a state, the first decision throws. *)
Fixpoint adjustDecisions (countryStats : option CountryStats)
    (random : RegionalEconomySimulator.Draws) (cursor : nat)
    (currentDecisions : list PolicyDecision.t)
    : Completion (list PolicyDecision.t * nat) :=
  match currentDecisions with
  | [] => Return ([], cursor)
  | decision :: rest =>
      match countryStats with
      | None => Throw "Cannot read properties of undefined (reading 'gdp_growth')"
      | Some stats =>
          andThen (adjustDecisions countryStats random (S cursor) rest)
            (fun '(adjusted, cursor') =>
               Return (adjustDecision stats (random cursor) decision :: adjusted,
                       cursor'))
      end
  end.

Section Orchestrator.

(** [SOUTH_ASIAN_COUNTRIES.map(c => c.name)] and
    [createDefaultPolicyDecisions()]; data/CountryList and
    data/PolicyDecisions are not among the sources. *)
Variable roster : list string.
Variable defaultPolicyDecisions : list PolicyDecision.t.

(** The [forEach] of [simulateAIDecisions] over the countries from
    [countries] on, with [newAIDecisions] filled so far. *)
Fixpoint simulateFrom (countries : list string) (playerCountry : string)
    (states : JSObject.t CountryStats)
    (allCountriesDecisions : JSObject.t (list PolicyDecision.t))
    (decisions : list PolicyDecision.t)
    (random : RegionalEconomySimulator.Draws) (cursor : nat)
    (newAIDecisions : JSObject.t (list PolicyDecision.t))
    : Completion (JSObject.t (list PolicyDecision.t) * nat) :=
  match countries with
  | [] => Return (newAIDecisions, cursor)
  | name :: rest =>
      if negb (String.eqb name playerCountry) then
        let currentDecisions :=
          default defaultPolicyDecisions (JSObject.get allCountriesDecisions name) in
        let countryStats := JSObject.get states name in
        andThen (adjustDecisions countryStats random cursor currentDecisions)
          (fun '(adjustedDecisions, cursor) =>
             simulateFrom rest playerCountry states allCountriesDecisions decisions
               random cursor (JSObject.set newAIDecisions name adjustedDecisions))
      else
        simulateFrom rest playerCountry states allCountriesDecisions decisions
          random cursor (JSObject.set newAIDecisions name decisions)
  end.

(** [simulateAIDecisions()]: the decisions of every country of the roster
    for the year, and the cursor after the draws. *)
Definition simulateAIDecisions (playerCountry : string)
    (states : JSObject.t CountryStats)
    (allCountriesDecisions : JSObject.t (list PolicyDecision.t))
    (decisions : list PolicyDecision.t)
    (random : RegionalEconomySimulator.Draws) (cursor : nat)
    : Completion (JSObject.t (list PolicyDecision.t) * nat) :=
  simulateFrom roster playerCountry states allCountriesDecisions decisions
    random cursor [].

End Orchestrator.

(** Step 2 of [handleNextYear]: the average of the trust decisions.  With
    no country the quotient is 0/0, which is outside the model. *)
Definition avgCooperation (updatedDecisions : JSObject.t (list PolicyDecision.t)) : Q :=
  fold_left (fun sum decisions => sum + PolicySimulator.lever "trust" 50 decisions)
    (JSObject.values updatedDecisions) 0
  / inject_Z (Z.of_nat (length (JSObject.keys updatedDecisions))).

(** Step 5: the decisions of the player as an object, [acc[d.id] = d.value]. *)
Definition playerDecisionsObj (playerDecisionsArr : list PolicyDecision.t)
    : JSObject.t Q :=
  fold_left (fun acc d => JSObject.set acc (PolicyDecision.id d) (PolicyDecision.value d))
    playerDecisionsArr [].

(** Step 6a: the effects of the events that target [countryName], summed
    key by key. *)
Definition countryEventEffects (regionalEvents : list RegionalEvent.t)
    (countryName : string) : JSObject.t Q :=
  fold_left (fun countryEventEffects event =>
      if existsb (String.eqb countryName) (RegionalEvent.targetCountries event) then
        fold_left (fun countryEventEffects entry =>
            JSObject.set countryEventEffects (fst entry)
              (JS.opt_or_else (JSObject.get countryEventEffects (fst entry)) 0
               + snd entry))
          (RegionalEvent.effects event) countryEventEffects
      else countryEventEffects)
    regionalEvents [].

(** Steps 6 and 6b for one country: the next state, stamped with the next
    year; [gameYear] is [gameState.year]. *)
Definition updateCountry (gameYear : Z) (currentStats : CountryStats)
    (updatedDecisions : JSObject.t (list PolicyDecision.t))
    (spilloversByCountry : gmap string (list PolicySpillover.t))
    (regionalEvents : list RegionalEvent.t) (countryName : string) (random : Q)
    : CountryStats :=
  let countryDecisions := default [] (JSObject.get updatedDecisions countryName) in
  let spillovers := default [] (spilloversByCountry !! countryName) in
  let countryEventEffects := countryEventEffects regionalEvents countryName in
  let newStats :=
    PolicySimulator.applyPolicyEffects currentStats countryDecisions
      spillovers countryEventEffects random in
  newStats |> assign year (inject_Z (gameYear + 1)).

(** Step 6: the [forEach] over [Object.keys(gameState.countries)], one draw
    per country. *)
Fixpoint updateCountries (gameYear : Z) (countries : JSObject.t CountryStats)
    (updatedDecisions : JSObject.t (list PolicyDecision.t))
    (spilloversByCountry : gmap string (list PolicySpillover.t))
    (regionalEvents : list RegionalEvent.t)
    (random : RegionalEconomySimulator.Draws) (cursor : nat)
    (newCountries : JSObject.t CountryStats)
    : JSObject.t CountryStats * nat :=
  match countries with
  | [] => (newCountries, cursor)
  | (countryName, currentStats) :: rest =>
      let newStats :=
        updateCountry gameYear currentStats updatedDecisions spilloversByCountry
          regionalEvents countryName (random cursor) in
      updateCountries gameYear rest updatedDecisions spilloversByCountry
        regionalEvents random (S cursor)
        (JSObject.set newCountries countryName newStats)
  end.

(** Step 7, the body of [decisions.forEach]. *)
Definition notePolicyChange (changes : gmap string Q) (decision : PolicyDecision.t)
    : gmap string Q :=
  if String.eqb (PolicyDecision.id decision) "connectivity" then
    <["infrastructure_investment" := PolicyDecision.value decision]> changes
  else if String.eqb (PolicyDecision.id decision) "trust" then
    <["cooperation_policy" := PolicyDecision.value decision - 50]> changes
  else changes.

(** Step 7: the policy changes that [updateTradeMatrix] receives. *)
Definition buildPolicyChanges (updatedDecisions : JSObject.t (list PolicyDecision.t))
    : gmap string (gmap string Q) :=
  fold_left (fun policyChanges entry =>
      <[fst entry := fold_left notePolicyChange (snd entry) ∅]> policyChanges)
    updatedDecisions ∅.

(** Steps 3 and 8 over the years of a game: the [regionalEvents] of the game
    state after [handleNextYear] ran for each year of [years] in turn, from
    the history [history].  A year is given by its number, its cooperation
    average, and the draws of its call with the cursor they start at. *)
Definition regionalEventsAfter (roster : list string)
    (Array_sort : RegionalEconomySimulator.Sorter)
    (years : list (Z * Q * RegionalEconomySimulator.Draws * nat))
    (history : list RegionalEvent.t) : list RegionalEvent.t :=
  fold_left (fun history '(gameYear, avgCooperation, random, cursor) =>
      let regionalEvents :=
        fst (RegionalEconomySimulator.generateRegionalEvents roster Array_sort
               random cursor (gameYear + 1) avgCooperation history) in
      (history ++ regionalEvents)%list)
    years history.

End App.

(** ** Binary64

    The numbers of the engine are IEEE-754 doubles.  Where a statement
    turns on the rounding of a sum, the lines concerned are read here on
    the kernel's binary64 floats, operation by operation as the source has
    them. *)

Module Binary64.

Import PrimFloat.
#[local] Open Scope float_scope.
#[local] Set Warnings "-inexact-float".

(** [x || d]: 0, -0 and [NaN] are falsy. *)
Definition or_else (x d : float) : float :=
  if (x =? 0) || negb (x =? x) then d else x.

(** [newStats.literacy_rate] of [applyPolicyEffects] as it stands before
    the bounds are applied, from the numbers its lines read: the current [literacy_rate],
    [education_spending] and [technology_spending], the technology lever
    [technologySpending], the effects of the inbound technology spillovers
    in their order (no other type writes the field), and the event effect
    keyed [literacy_rate] if there is one. *)
Definition literacy_rate (currentLiteracy education_spending technology_spending
    technologySpending : float) (technologyEffects : list float)
    (literacyEvent : option float) : float :=
  let educationChange := or_else education_spending 4.0 - 4.0 in
  let literacy_rate := currentLiteracy + educationChange * 0.25 in
  let technologyChange := technologySpending - or_else technology_spending 1.0 in
  let literacy_rate := literacy_rate + technologyChange * 0.1 in
  let literacy_rate :=
    fold_left (fun literacy_rate effect => literacy_rate + effect * 0.3)
      technologyEffects literacy_rate in
  match literacyEvent with
  | Some delta => literacy_rate + delta
  | None => literacy_rate
  end.

(** How much higher [literacy_rate] stands before the bounds with one
    technology spillover of effect [effect] than with none, for a state of
    literacy [currentLiteracy] whose education and technology spending are
    at their baselines. *)
Definition literacy_increase (currentLiteracy effect : float) : float :=
  literacy_rate currentLiteracy 4.0 1.0 1.0 [effect] None
  - literacy_rate currentLiteracy 4.0 1.0 1.0 [] None.

End Binary64.

(** * Specification

    The predicates in which the properties of the engine are stated, and
    the concrete inputs on which they are exercised. *)

(** The documented intervals of the bounded outcome fields. *)
Definition within_bounds (s : CountryStats) : Prop :=
  -10 <= s.[gdp_growth] <= 15
  /\ 0.5 <= s.[unemployment] <= 50
  /\ 0 <= s.[literacy_rate] <= 100
  /\ 45 <= s.[life_expectancy] <= 90
  /\ 0 <= s.[poverty_rate] <= 90
  /\ 0 <= s.[co2_emissions]
  /\ 1 <= s.[infant_mortality] <= 150
  /\ 100000 <= s.[population].

(** The keys of [policyChanges] that [calculateTradeSpillovers] tests. *)
Definition spilloverKeys : list string :=
  [ "gdp_growth"; "infrastructure_investment"; "co2_emissions";
    "manufacturing_investment"; "technology_investment"; "energy_investment" ].

(** The spillovers whose formula multiplies by [cooperationFactor]. *)
Definition usesCooperationFactor (s : PolicySpillover.t) : Prop :=
  PolicySpillover.policyType s = trade_gdp
  \/ PolicySpillover.policyType s = technology.

(** The documented ranges of a [TradeRelationship]. *)
Definition edge_in_bounds (t : TradeRelationship.t) : Prop :=
  0 <= TradeRelationship.tradeVolume t <= 100
  /\ 0 <= TradeRelationship.tariffRate t <= 50
  /\ 0 <= TradeRelationship.cooperation t <= 100.

(** What [updateTradeMatrix] maintains: the volume is only floored at 0. *)
Definition edge_in_bounds_uncapped (t : TradeRelationship.t) : Prop :=
  0 <= TradeRelationship.tradeVolume t
  /\ 0 <= TradeRelationship.tariffRate t <= 50
  /\ 0 <= TradeRelationship.cooperation t <= 100.

(** The decision with id [key] that [find] returns: the first one. *)
Definition findDecision (key : string) (decisions : list PolicyDecision.t)
    : option PolicyDecision.t :=
  List.find (fun d => String.eqb (PolicyDecision.id d) key) decisions.

(** The decision list with every decision of id [key] removed. *)
Definition without (key : string) (decisions : list PolicyDecision.t)
    : list PolicyDecision.t :=
  List.filter (fun d => negb (String.eqb (PolicyDecision.id d) key)) decisions.

(** The levers that [applyPolicyEffects] persists as read, with the
    policy-memory field and the default of each. *)
Definition persistedLevers : list (string * Field * Q) :=
  [ ("agriculture", agriculture_spending, 3.5);
    ("manufacturing", manufacturing_spending, 2.0);
    ("services", services_spending, 1.5);
    ("energy", energy_spending, 4.0);
    ("technology", technology_spending, 1.0);
    ("tariffs", tariff_rate, 15) ].

(** Two runs whose field [f] differs by the constant [d]. *)
Definition offset (f : Field) (d : Q) (st st' : CountryStats) : Prop :=
  st'.[f] == st.[f] + d.

(** The policy-memory fields with the id of the decision that drives each. *)
Definition policyMemory : list (string * Field) :=
  [ ("education", education_spending);
    ("health", health_expenditure);
    ("connectivity", infrastructure_investment);
    ("agriculture", agriculture_spending);
    ("manufacturing", manufacturing_spending);
    ("services", services_spending);
    ("energy", energy_spending);
    ("technology", technology_spending);
    ("tariffs", tariff_rate) ].

(** Policy-memory fidelity as the specification words it: every lever whose
    decision is present is persisted with the value supplied. *)
Definition memory_fidelity (st : CountryStats) (ds : list PolicyDecision.t)
    (sp : list PolicySpillover.t) (ev : list (string * Q)) (r : Q) : Prop :=
  forall (key : string) (f : Field) (d : PolicyDecision.t),
    In (key, f) policyMemory ->
    findDecision key ds = Some d ->
    (PolicySimulator.applyPolicyEffects st ds sp ev r).[f] == PolicyDecision.value d.

(** The ids of the catalog events flagged [unique]. *)
Definition uniqueIds : list string :=
  List.map PoolEvent.id (List.filter PoolEvent.unique RegionalEconomySimulator.eventPool).

(** A natural number as a JavaScript number. *)
Definition QofNat (n : nat) : Q := inject_Z (Z.of_nat n).

(** [n] equally likely draws: the midpoints of the [n] equal cells of
    [[0, 1)], the range of [Math.random()]. *)
Definition grid (n : nat) : list Q :=
  List.map (fun i => (2 * QofNat i + 1) / (2 * QofNat n)) (seq 0 n).

(** The share of the [n] draws on which [P] holds. *)
Definition frequency (P : Q -> bool) (n : nat) : Q :=
  QofNat (length (List.filter P (grid n))) / QofNat n.

(** The gate as the specification words it: the call returns the empty
    list at once on 60% of the draws and goes on on 40%. *)
Definition gate_as_specified (n : nat) : Prop :=
  frequency RegionalEconomySimulator.gateClosed n == 0.6
  /\ frequency (fun u => negb (RegionalEconomySimulator.gateClosed u)) n == 0.4.

(** The ids of the levers that [applyPolicyEffects] looks up. *)
Definition leverIds : list string :=
  [ "tariffs"; "ntbs"; "connectivity"; "trust"; "agriculture";
    "manufacturing"; "services"; "energy"; "technology" ].

(** The decisions whose id is one of the levers. *)
Definition recognised (decisions : list PolicyDecision.t) : list PolicyDecision.t :=
  List.filter (fun d => existsb (String.eqb (PolicyDecision.id d)) leverIds) decisions.

(** The keys that name a numeric property a state can have. *)
Definition knownEventKey (key : string) : bool :=
  match field_of_key key with
  | Some _ => true
  | None => String.eqb key "tariffRevenue" || String.eqb key "consumerWelfare"
  end.

(** The fields that the routing of a spillover of each type writes. *)
Definition spilloverTargets (p : PolicyType) : list Field :=
  match p with
  | trade_gdp => [gdp_growth]
  | infrastructure => [infrastructure_investment; gdp_growth]
  | environment => [co2_emissions]
  | manufacturing => [gdp_growth; unemployment]
  | technology => [gdp_growth; literacy_rate]
  | energy => [gdp_growth]
  end.

(** Two states with the same country and the same KPIs. *)
Definition same_labels (st st' : CountryStats) : Prop :=
  country st = country st'
  /\ tariffRevenue st = tariffRevenue st'
  /\ consumerWelfare st = consumerWelfare st'.

(** [b] is at least as good as [a] on each of the seven scored indicators. *)
Definition no_worse (a b : CountryStats) : Prop :=
  a.[gdp_growth] <= b.[gdp_growth]
  /\ a.[literacy_rate] <= b.[literacy_rate]
  /\ a.[life_expectancy] <= b.[life_expectancy]
  /\ b.[unemployment] <= a.[unemployment]
  /\ b.[poverty_rate] <= a.[poverty_rate]
  /\ b.[co2_emissions] <= a.[co2_emissions]
  /\ b.[infant_mortality] <= a.[infant_mortality].

(** The value of the last decision with id [key]. *)
Definition lastDecisionValue (key : string) (decisions : list PolicyDecision.t)
    : option Q :=
  PolicyDecision.value <$> findDecision key (rev decisions).

(** The spillovers of [l] aimed at [target], in order. *)
Definition aimedAt (target : string) (l : list PolicySpillover.t)
    : list PolicySpillover.t :=
  List.filter (fun s => String.eqb (PolicySpillover.targetCountry s) target) l.

(** The other end of a trade edge, seen from [sourceCountry]. *)
Definition partnerOf (sourceCountry : string) (trade : TradeRelationship.t) : string :=
  if String.eqb (TradeRelationship.from trade) sourceCountry
  then TradeRelationship.to trade else TradeRelationship.from trade.

(** The event that [generateRegionalEvents] builds from a catalog entry. *)
Definition eventOf (roster : list string) (year : Z) (event : PoolEvent.t)
    : RegionalEvent.t :=
  RegionalEvent.mk (PoolEvent.id event) (PoolEvent.name event)
    (PoolEvent.description event) year (PoolEvent.effects event)
    (if PoolEvent.region_wide event then roster else PoolEvent.targets event).

(** The trade matrix after the yearly updates of step 7 and 8, one per
    element of [years] (the decisions of all countries in that year). *)
Definition matrixAfter (years : list (JSObject.t (list PolicyDecision.t)))
    (tradeMatrix : list TradeRelationship.t) : list TradeRelationship.t :=
  fold_left (fun matrix updatedDecisions =>
      RegionalEconomySimulator.updateTradeMatrix matrix
        (App.buildPolicyChanges updatedDecisions))
    years tradeMatrix.

Definition tariff_in_range (t : TradeRelationship.t) : Prop :=
  0 <= TradeRelationship.tariffRate t <= 50.

Definition same_tariff (t t' : TradeRelationship.t) : Prop :=
  TradeRelationship.from t' = TradeRelationship.from t
  /\ TradeRelationship.to t' = TradeRelationship.to t
  /\ TradeRelationship.tariffRate t' == TradeRelationship.tariffRate t.

(** The value of the decision lies between its bounds, when the bounds are
    in order. *)
Definition well_ranged (d : PolicyDecision.t) : Prop :=
  PolicyDecision.min d <= PolicyDecision.max d ->
  PolicyDecision.min d <= PolicyDecision.value d <= PolicyDecision.max d.

(** No event flagged unique occurs twice in the history. *)
Definition onceOnly (history : list RegionalEvent.t) : Prop :=
  NoDup (List.filter (fun id => existsb (String.eqb id) uniqueIds)
           (List.map RegionalEvent.id history)).

(** The policy types for which [calculateGeneralSpillover] computes an
    effect. *)
Definition generalPolicyTypes : list string :=
  [ "infrastructure"; "education"; "health"; "trade"; "environment" ].

(** What a detailed spillover from [sourceCountry] along [trade] looks
    like: a product spillover or a general one. *)
Definition detailed_shape (sourceCountry : string) (policyChanges : JSObject.t Q)
    (trade : TradeRelationship.t) (s : DetailedSpillover.t) : Prop :=
  DetailedSpillover.sourceCountry s = sourceCountry
  /\ DetailedSpillover.targetCountry s = partnerOf sourceCountry trade
  /\ (DetailedSpillover.magnitude s < -0.01 \/ 0.01 < DetailedSpillover.magnitude s)
  /\ ((exists product : string,
         DetailedSpillover.tradeProducts s = Some [product]
         /\ DetailedSpillover.sector s
            = Some (RegionalEconomySimulator.getProductSector product)
         /\ RegionalEconomySimulator.isPolicyRelevantToProduct policyChanges product
            = true
         /\ DetailedSpillover.confidence s = 0.8)
      \/ (DetailedSpillover.tradeProducts s = None
          /\ DetailedSpillover.sector s = None
          /\ In (DetailedSpillover.policyCategory s) generalPolicyTypes
          /\ (exists change : Q,
                In (DetailedSpillover.policyCategory s, change) policyChanges
                /\ (change < -0.1 \/ 0.1 < change))
          /\ DetailedSpillover.confidence s = 0.7)).

(** ** Sample inputs *)

Definition hostile_edge : TradeRelationship.t :=
  TradeRelationship.mk "India" "Pakistan" 2.1 25.0 0.

Definition growth_and_technology : gmap string Q :=
  {[ "gdp_growth" := 2; "technology_investment" := 3 ]}.

(** A nearly saturated edge between two countries that both invest 10 in
    connectivity. *)
Definition saturated_edge : TradeRelationship.t :=
  TradeRelationship.mk "India" "Bhutan" 95 0.0 95.

Definition connectivity_push : gmap string (gmap string Q) :=
  {[ "India" := {[ "infrastructure_investment" := 10 ]};
     "Bhutan" := {[ "infrastructure_investment" := 10 ]} ]}.


(** A state of the kind the orchestrator builds. *)
Definition sample_stats : CountryStats :=
  {| country := "India";
     num := fun f =>
       match f with
       | year => 2023 | gdp_growth => 3.5 | unemployment => 7.3
       | literacy_rate => 74 | life_expectancy => 70 | poverty_rate => 21
       | co2_emissions => 1.9 | population => 1400000000
       | infant_mortality => 27 | health_expenditure => 3.0
       | education_spending => 4.0 | infrastructure_investment => 5.0
       | agriculture_spending => 3.5 | manufacturing_spending => 2.0
       | services_spending => 1.5 | energy_spending => 4.0
       | technology_spending => 1.0 | tourism_spending => 0.8
       | environment_spending => 2.0 | trade_liberalization => 50
       | tariff_rate => 15 | agriculture_gdp_percent => 15
       | manufacturing_gdp_percent => 20 | services_gdp_percent => 50
       end;
     tariffRevenue := None;
     consumerWelfare := None |}.

Definition zero_tariff : PolicyDecision.t := PolicyDecision.mk "tariffs" 0 0 50.

Definition connectivity_and_trust : list PolicyDecision.t :=
  [ PolicyDecision.mk "connectivity" 6 0 10;
    PolicyDecision.mk "trust" 60 0 100 ].

Definition education_raise : list PolicyDecision.t :=
  [ PolicyDecision.mk "education" 5 0 10 ].

Definition farm_and_roads : list PolicyDecision.t :=
  [ PolicyDecision.mk "agriculture" 4.5 0 10;
    PolicyDecision.mk "connectivity" 6 0 10 ].

Definition south_asia : list string :=
  [ "India"; "Pakistan"; "Bangladesh"; "Sri Lanka"; "Nepal"; "Bhutan";
    "Maldives"; "Afghanistan" ].

(** Draws that open the gate and then fire the first event tried. *)
Definition eager_draws : RegionalEconomySimulator.Draws :=
  fun n => match n with O => 0.3 | _ => 0.01 end.

(** Draws that open the gate and then fire no event. *)
Definition quiet_draws : RegionalEconomySimulator.Draws :=
  fun n => match n with O => 0.3 | _ => 0.99 end.

(** Draws that close the gate. *)
Definition closed_draws : RegionalEconomySimulator.Draws := fun _ => 0.7.

Definition past_boom : RegionalEvent.t :=
  RegionalEvent.mk "fdi_boom" "Major Foreign Investment"
    "A major multinational corporation announces significant investment in the tech and manufacturing sectors, boosting employment and growth."
    2024 [("gdp_growth", 0.8); ("unemployment", -0.5); ("technology_spending", 0.5)]
    ["India"; "Bangladesh"].

Definition two_tariffs : list PolicyDecision.t :=
  [ PolicyDecision.mk "tariffs" 10 0 50; PolicyDecision.mk "tariffs" 40 0 50 ].

Definition acid_rain : PolicySpillover.t :=
  PolicySpillover.mk "India" "Bangladesh" environment 0.4
    "Environmental impact from India's emissions" high long_term None.

Definition better_stats : CountryStats := add_to gdp_growth 1 sample_stats.

Definition collapsed_stats : CountryStats := sub_from gdp_growth 10 sample_stats.

Definition two_trades : list PolicyDecision.t :=
  [ PolicyDecision.mk "trade" 40 0 100; PolicyDecision.mk "trade" 70 0 100 ].

Definition growth_and_energy : gmap string Q :=
  {[ "gdp_growth" := -4; "energy_investment" := 3 ]}.

Definition india_edges : list TradeRelationship.t :=
  [ TradeRelationship.mk "India" "Bhutan" 12.5 0.0 95;
    TradeRelationship.mk "Sri Lanka" "India" 1.1 10.0 80 ].

Definition open_year : JSObject.t (list PolicyDecision.t) :=
  [ ("India", [ PolicyDecision.mk "tariffs" 5 0 50;
                PolicyDecision.mk "connectivity" 8 0 10;
                PolicyDecision.mk "trust" 70 0 100 ]);
    ("Pakistan", [ PolicyDecision.mk "tariffs" 40 0 50;
                   PolicyDecision.mk "trust" 20 0 100 ]) ].

Definition nepal_only : JSObject.t CountryStats := [("Nepal", sample_stats)].

Definition even_draws : RegionalEconomySimulator.Draws := fun _ => 0.5.

Definition border_flare : RegionalEvent.t :=
  RegionalEvent.mk "border_tensions" "Border Tensions Flare Up"
    "Renewed tensions along the border lead to trade disruptions and decreased political trust."
    2024 [("trust", -15); ("gdp_growth", -0.3)] ["India"; "Pakistan"].

Definition boom_years : list (Z * Q * RegionalEconomySimulator.Draws * nat) :=
  [ (2023%Z, 65, eager_draws, 0%nat); (2024%Z, 65, eager_draws, 0%nat);
    (2025%Z, 65, quiet_draws, 0%nat) ].

(** A trade-products table with the products of India and Bangladesh. *)
Definition delta_products : TradeProductsLoader.TradeProductsData.t :=
  TradeProductsLoader.TradeProductsData.mk
    [ ("India", [ ("Bangladesh", ["Cotton Textiles"; "Rice"]);
                  ("Nepal", ["Petroleum"]) ]) ]
    [ ("India", [ ("Bangladesh", ["Rice"; "Machinery"; "Gold"]) ]) ].

Definition reform_package : JSObject.t Q :=
  App.playerDecisionsObj
    [ PolicyDecision.mk "tariffs" 10 0 50; PolicyDecision.mk "manufacturing" 4 0 10;
      PolicyDecision.mk "agriculture" 5 0 10; PolicyDecision.mk "trade" 70 0 100 ].

Definition padma_edge : TradeRelationship.t :=
  TradeRelationship.mk "India" "Bangladesh" 8.5 8.5 75.

Definition delta_spillovers : list DetailedSpillover.t :=
  match RegionalEconomySimulator.calculateDetailedSpillovers (Some delta_products)
          "India" reform_package [padma_edge] sample_stats with
  | Return detailedSpillovers => detailedSpillovers
  | Throw _ => []
  end.

Definition idle_edge : TradeRelationship.t :=
  TradeRelationship.mk "India" "Bangladesh" 0 8.5 75.

(** * Properties *)

(** ** Numbers *)

Lemma JS_lt_true (x y : Q) : JS.lt x y = true <-> x < y.
Proof.
  unfold JS.lt. rewrite negb_true_iff.
  destruct (Qle_bool y x) eqn:E.
  - apply Qle_bool_iff in E. split; [discriminate | lra].
  - split; [intros _ | reflexivity].
    apply Qnot_le_lt. intros H. apply Qle_bool_iff in H. congruence.
Qed.

Lemma JS_gt_true (x y : Q) : JS.gt x y = true <-> y < x.
Proof. apply JS_lt_true. Qed.

Lemma JS_lt_false (x y : Q) : JS.lt x y = false <-> y <= x.
Proof.
  unfold JS.lt. rewrite negb_false_iff. apply Qle_bool_iff.
Qed.

Lemma truthy_false (x : Q) : JS.truthy x = false <-> x == 0.
Proof. unfold JS.truthy. rewrite negb_false_iff. apply Qeq_bool_iff. Qed.

Lemma truthy_true (x : Q) : JS.truthy x = true <-> ~ x == 0.
Proof.
  unfold JS.truthy. rewrite negb_true_iff. split.
  - intros E H. apply Qeq_bool_iff in H. congruence.
  - intros H. destruct (Qeq_bool x 0) eqn:E; [|reflexivity].
    apply Qeq_bool_iff in E. contradiction.
Qed.

Lemma Math_max_cases (a b : Q) :
  (a <= b /\ JS.Math_max a b = b) \/ (b < a /\ JS.Math_max a b = a).
Proof.
  unfold JS.Math_max. destruct (Qle_bool a b) eqn:E.
  - left. split; [now apply Qle_bool_iff | reflexivity].
  - right. split; [|reflexivity].
    apply Qnot_le_lt. intros H. apply Qle_bool_iff in H. congruence.
Qed.

Lemma Math_min_cases (a b : Q) :
  (a <= b /\ JS.Math_min a b = a) \/ (b < a /\ JS.Math_min a b = b).
Proof.
  unfold JS.Math_min. destruct (Qle_bool a b) eqn:E.
  - left. split; [now apply Qle_bool_iff | reflexivity].
  - right. split; [|reflexivity].
    apply Qnot_le_lt. intros H. apply Qle_bool_iff in H. congruence.
Qed.

Lemma Math_max_lower (lo x : Q) : lo <= JS.Math_max lo x.
Proof. destruct (Math_max_cases lo x) as [[H ->]|[H ->]]; lra. Qed.

(** [Math.max(lo, Math.min(hi, x))] lands in [[lo, hi]]. *)
Lemma clamp_bounds (lo hi x : Q) :
  lo <= hi -> lo <= JS.Math_max lo (JS.Math_min hi x) <= hi.
Proof.
  intros Hlh.
  destruct (Math_min_cases hi x) as [[H1 E1]|[H1 E1]]; rewrite E1;
  destruct (Math_max_cases lo hi) as [[H2 E2]|[H2 E2]];
  destruct (Math_max_cases lo x) as [[H3 E3]|[H3 E3]];
  rewrite ?E2, ?E3; lra.
Qed.

(** A value already inside [[lo, hi]] is left alone by the clamp. *)
Lemma clamp_inside (lo hi x : Q) :
  lo <= x <= hi -> JS.Math_max lo (JS.Math_min hi x) == x.
Proof.
  intros [Hl Hh].
  destruct (Math_min_cases hi x) as [[H1 E1]|[H1 E1]]; rewrite E1;
  [destruct (Math_max_cases lo hi) as [[H2 E2]|[H2 E2]]
  |destruct (Math_max_cases lo x) as [[H2 E2]|[H2 E2]]]; rewrite E2; lra.
Qed.

(** ** Field access *)

Lemma Field_ix_inj (f g : Field) : Field_ix f = Field_ix g -> f = g.
Proof. destruct f, g; simpl; intros H; try reflexivity; discriminate H. Qed.

Lemma Field_eqb_eq (f g : Field) : Field_eqb f g = true <-> f = g.
Proof.
  unfold Field_eqb. rewrite Nat.eqb_eq. split.
  - apply Field_ix_inj.
  - now intros ->.
Qed.

Lemma num_upd_eq (f : Field) (g : Q -> Q) (s : CountryStats) :
  (upd f g s).[f] = g s.[f].
Proof. unfold upd, Field_eqb. simpl. now rewrite Nat.eqb_refl. Qed.

Lemma num_upd_ne (f h : Field) (g : Q -> Q) (s : CountryStats) :
  h <> f -> (upd f g s).[h] = s.[h].
Proof.
  intros Hne. unfold upd. simpl.
  destruct (Field_eqb h f) eqn:E; [|reflexivity].
  apply Field_eqb_eq in E. contradiction.
Qed.

(** ** The bounds of the outcome indicators *)

Lemma applyBounds_within (s : CountryStats) :
  within_bounds (PolicySimulator.applyBounds s).
Proof.
  unfold within_bounds, PolicySimulator.applyBounds. cbn.
  repeat split;
    first [ apply Math_max_lower | apply clamp_bounds; lra ].
Qed.

Lemma persistDecisions_outcomes (ds : list PolicyDecision.t) (s : CountryStats) :
  within_bounds s -> within_bounds (PolicySimulator.persistDecisions ds s).
Proof. unfold within_bounds, PolicySimulator.persistDecisions. cbn. tauto. Qed.

(** C1. Every bounded outcome field of the state returned by
    [applyPolicyEffects] lies in its documented closed interval, for every
    state, decision list, spillover list, event-effects map and draw. *)
Theorem applyPolicyEffects_within_bounds
    (currentStats : CountryStats) (decisions : list PolicyDecision.t)
    (spilloverEffects : list PolicySpillover.t)
    (eventEffects : list (string * Q)) (random : Q) :
  within_bounds
    (PolicySimulator.applyPolicyEffects currentStats decisions
       spilloverEffects eventEffects random).
Proof.
  unfold PolicySimulator.applyPolicyEffects.
  apply persistDecisions_outcomes, applyBounds_within.
Qed.

(** ** Scoring *)

Lemma calculateScore_range (finalStats initialStats : CountryStats) :
  0 <= PolicySimulator.calculateScore finalStats initialStats <= 1000.
Proof. unfold PolicySimulator.calculateScore. apply clamp_bounds. lra. Qed.

(** With identical states every weighted delta is zero. *)
Lemma improvements_same (x : CountryStats) :
  Forall (fun val => val == 0) (PolicySimulator.improvements x x).
Proof. unfold PolicySimulator.improvements. repeat constructor; lra. Qed.

Lemma sum_zeros (l : list Q) (acc : Q) :
  Forall (fun val => val == 0) l ->
  fold_left (fun sum val => sum + val) l acc == acc.
Proof.
  intros H. revert acc. induction H as [|v l Hv _ IH]; intros acc; simpl.
  - reflexivity.
  - rewrite IH. lra.
Qed.

Lemma balanced_zeros (l : list Q) :
  Forall (fun val => val == 0) l ->
  forallb (fun val => JS.gt val (-50)) l = true.
Proof.
  intros H. induction H as [|v l Hv _ IH]; simpl; [reflexivity|].
  rewrite IH, andb_true_r. apply JS_gt_true. lra.
Qed.

Lemma no_extreme_zeros (l : list Q) :
  Forall (fun val => val == 0) l ->
  existsb (fun val => JS.lt val (-100)) l = false.
Proof.
  intros H. induction H as [|v l Hv _ IH]; simpl; [reflexivity|].
  rewrite IH, orb_false_r. apply JS_lt_false. lra.
Qed.

(** C5. [calculateScore] always returns a value in [[0, 1000]], and the
    score of a state against itself is 500: the seven weighted deltas are 0,
    their sum is 0, the base 400 and the balance bonus 100 are added, no
    penalty applies, and the clamp leaves 500 unchanged. *)
Theorem calculateScore_range_and_identity :
  (forall finalStats initialStats : CountryStats,
     0 <= PolicySimulator.calculateScore finalStats initialStats <= 1000)
  /\ (forall x : CountryStats,
        Forall (fun val => val == 0) (PolicySimulator.improvements x x)
        /\ fold_left (fun sum val => sum + val) (PolicySimulator.improvements x x) 0 == 0
        /\ forallb (fun val => JS.gt val (-50)) (PolicySimulator.improvements x x) = true
        /\ existsb (fun val => JS.lt val (-100)) (PolicySimulator.improvements x x) = false
        /\ PolicySimulator.calculateScore x x == 500).
Proof.
  split; [apply calculateScore_range|].
  intros x. pose proof (improvements_same x) as Hz.
  split; [exact Hz|].
  split; [now apply sum_zeros|].
  split; [now apply balanced_zeros|].
  split; [now apply no_extreme_zeros|].
  unfold PolicySimulator.calculateScore.
  rewrite (balanced_zeros _ Hz), (no_extreme_zeros _ Hz).
  rewrite clamp_inside; rewrite (sum_zeros _ 0 Hz); lra.
Qed.

(** ** Aggregate spillovers *)

Lemma extractPolicyChange_other (pc : gmap string Q) (d : PolicyDecision.t) (k : string) :
  ~ In k PolicySimulator.policyChangeKeys ->
  PolicySimulator.extractPolicyChange pc d !! k = pc !! k.
Proof.
  intros Hk. unfold PolicySimulator.extractPolicyChange.
  destruct (existsb _ _) eqn:E; [|reflexivity].
  apply existsb_exists in E as (k' & Hin & Heq).
  apply String.eqb_eq in Heq.
  apply lookup_insert_ne. intros Hid. apply Hk. congruence.
Qed.

Lemma extractPolicyChanges_other (ds : list PolicyDecision.t) (k : string) :
  ~ In k PolicySimulator.policyChangeKeys ->
  PolicySimulator.extractPolicyChanges ds !! k = None.
Proof.
  intros Hk. unfold PolicySimulator.extractPolicyChanges.
  assert (G : forall pc : gmap string Q, pc !! k = None ->
            fold_left PolicySimulator.extractPolicyChange ds pc !! k = None).
  { induction ds as [|d ds IH]; intros pc Hpc; simpl; [exact Hpc|].
    apply IH. now rewrite extractPolicyChange_other. }
  apply G, lookup_empty.
Qed.

Lemma spilloverKeys_disjoint :
  Forall (fun k => ~ In k PolicySimulator.policyChangeKeys) spilloverKeys.
Proof.
  repeat constructor; intros H; simpl in H;
    repeat (destruct H as [H|H]; [discriminate H|]); exact H.
Qed.

(** With none of the tested keys present, an edge yields no spillover. *)
Lemma edgeSpillovers_no_keys (src : string) (pc : gmap string Q)
    (t : TradeRelationship.t) :
  Forall (fun k => pc !! k = None) spilloverKeys ->
  RegionalEconomySimulator.edgeSpillovers src pc t = [].
Proof.
  intros H. unfold spilloverKeys in H.
  repeat match goal with
         | H : Forall _ (_ :: _) |- _ =>
             let E := fresh "E" in apply Forall_cons_1 in H as [E H]
         end.
  unfold RegionalEconomySimulator.edgeSpillovers.
  rewrite E, E0, E1, E2, E3, E4. simpl.
  now destruct (RegionalEconomySimulator.hasEnergyTrade _ _).
Qed.

Lemma calculateTradeSpillovers_no_keys (src : string) (pc : gmap string Q)
    (tm : list TradeRelationship.t) :
  Forall (fun k => pc !! k = None) spilloverKeys ->
  RegionalEconomySimulator.calculateTradeSpillovers src pc tm = [].
Proof.
  intros H. unfold RegionalEconomySimulator.calculateTradeSpillovers.
  induction (RegionalEconomySimulator.tradingPartners src tm) as [|t l IH];
    simpl; [reflexivity|].
  now rewrite IH, edgeSpillovers_no_keys.
Qed.

Lemma extracted_has_no_spillover_key (ds : list PolicyDecision.t) :
  Forall (fun k => PolicySimulator.extractPolicyChanges ds !! k = None) spilloverKeys.
Proof.
  eapply List.Forall_impl; [|apply spilloverKeys_disjoint].
  intros k Hk. now apply extractPolicyChanges_other.
Qed.

(** C2. [simulateRegionalEffects] returns a map with no entry: the keys it
    extracts from the decisions are disjoint from the keys
    [calculateTradeSpillovers] tests, so the latter returns the empty list
    for every source country. *)
Theorem simulateRegionalEffects_empty :
  Forall (fun k => ~ In k PolicySimulator.policyChangeKeys) spilloverKeys
  /\ (forall (sourceCountry : string) (decisions : list PolicyDecision.t)
             (tradeMatrix : list TradeRelationship.t),
        RegionalEconomySimulator.calculateTradeSpillovers sourceCountry
          (PolicySimulator.extractPolicyChanges decisions) tradeMatrix = [])
  /\ (forall (allCountries : list (string * CountryStats))
             (allDecisions : gmap string (list PolicyDecision.t))
             (tradeMatrix : list TradeRelationship.t),
        PolicySimulator.simulateRegionalEffects allCountries allDecisions tradeMatrix = ∅).
Proof.
  split; [apply spilloverKeys_disjoint|].
  split.
  - intros src ds tm.
    apply calculateTradeSpillovers_no_keys, extracted_has_no_spillover_key.
  - intros ac ad tm. unfold PolicySimulator.simulateRegionalEffects.
    generalize (∅ : gmap string (list PolicySpillover.t)) as acc.
    induction (fst <$> ac) as [|c cs IH]; intros acc; simpl; [reflexivity|].
    rewrite calculateTradeSpillovers_no_keys
      by apply extracted_has_no_spillover_key.
    simpl. apply IH.
Qed.

(** ** Cooperation and spillovers *)

Lemma In_whenTruthy {A : Type} (o : option Q) (k : Q -> A) (x : A) :
  In x (RegionalEconomySimulator.whenTruthy o k) ->
  exists v, o = Some v /\ JS.truthy v = true /\ x = k v.
Proof.
  unfold RegionalEconomySimulator.whenTruthy.
  destruct o as [v|]; [|intros []].
  destruct (JS.truthy v) eqn:E; [|intros []].
  intros [<-|[]]. now exists v.
Qed.

Lemma edgeSpillovers_cooperation_zero (src : string) (pc : gmap string Q)
    (t : TradeRelationship.t) (s : PolicySpillover.t) :
  TradeRelationship.cooperation t == 0 ->
  In s (RegionalEconomySimulator.edgeSpillovers src pc t) ->
  usesCooperationFactor s ->
  PolicySpillover.effect s == 0.
Proof.
  intros Hc Hin Huse. unfold RegionalEconomySimulator.edgeSpillovers in Hin.
  repeat (apply in_app_or in Hin as [Hin|Hin]).
  - apply In_whenTruthy in Hin as (v & _ & _ & ->). simpl.
    rewrite Hc. field.
  - apply In_whenTruthy in Hin as (v & _ & _ & ->).
    destruct Huse as [H|H]; discriminate H.
  - apply In_whenTruthy in Hin as (v & _ & _ & ->).
    destruct Huse as [H|H]; discriminate H.
  - apply In_whenTruthy in Hin as (v & _ & _ & ->).
    destruct Huse as [H|H]; discriminate H.
  - apply In_whenTruthy in Hin as (v & _ & _ & ->). simpl.
    rewrite Hc. field.
  - destruct (RegionalEconomySimulator.hasEnergyTrade _ _); [|destruct Hin].
    apply In_whenTruthy in Hin as (v & _ & _ & ->).
    destruct Huse as [H|H]; discriminate H.
Qed.

(** C8. On a trade edge with [cooperation = 0], every spillover of
    [calculateTradeSpillovers] whose formula includes [cooperationFactor]
    (the [trade_gdp] and [technology] spillovers) has effect 0, for every
    source country and every policy-change map. *)
Theorem cooperation_zero_spillovers
    (sourceCountry : string) (policyChanges : gmap string Q) :
  (forall (trade : TradeRelationship.t) (s : PolicySpillover.t),
     TradeRelationship.cooperation trade == 0 ->
     In s (RegionalEconomySimulator.edgeSpillovers sourceCountry policyChanges trade) ->
     usesCooperationFactor s ->
     PolicySpillover.effect s == 0)
  /\ (forall (tradeMatrix : list TradeRelationship.t) (s : PolicySpillover.t),
        Forall (fun trade => TradeRelationship.cooperation trade == 0) tradeMatrix ->
        In s (RegionalEconomySimulator.calculateTradeSpillovers
                sourceCountry policyChanges tradeMatrix) ->
        usesCooperationFactor s ->
        PolicySpillover.effect s == 0).
Proof.
  split.
  - intros trade s. apply edgeSpillovers_cooperation_zero.
  - intros tm s Hall Hin Huse.
    unfold RegionalEconomySimulator.calculateTradeSpillovers in Hin.
    apply in_flat_map in Hin as (t & Ht & Hs).
    apply filter_In in Ht as [Ht _].
    rewrite List.Forall_forall in Hall.
    exact (edgeSpillovers_cooperation_zero _ _ t s (Hall t Ht) Hs Huse).
Qed.

Example hostile_edge_spillovers :
  List.map (fun s => (PolicySpillover.policyType s, Qeq_bool (PolicySpillover.effect s) 0))
    (RegionalEconomySimulator.calculateTradeSpillovers "India"
       growth_and_technology [hostile_edge])
  = [(trade_gdp, true); (technology, true)].
Proof. vm_compute. reflexivity. Qed.

Lemma cooperation_zero_spillovers_witness :
  Forall (fun s => PolicySpillover.effect s == 0)
    (RegionalEconomySimulator.calculateTradeSpillovers "India"
       growth_and_technology [hostile_edge]).
Proof.
  apply List.Forall_forall. intros s Hin.
  apply (proj2 (cooperation_zero_spillovers "India" growth_and_technology)
           [hostile_edge] s).
  - repeat constructor.
  - exact Hin.
  - vm_compute in Hin. destruct Hin as [<-|[<-|[]]]; [left|right]; reflexivity.
Defined.

(** ** The trade matrix *)

Lemma updateTrade_uncapped (pc : gmap string (gmap string Q))
    (t : TradeRelationship.t) :
  0 <= TradeRelationship.cooperation t <= 100 ->
  edge_in_bounds_uncapped (RegionalEconomySimulator.updateTrade pc t).
Proof.
  intros Hc. unfold RegionalEconomySimulator.updateTrade, edge_in_bounds_uncapped.
  destruct (JS.opt_truthy (default ∅ (pc !! TradeRelationship.from t) !! "trade_openness"));
    cbv zeta; cbn [TradeRelationship.tradeVolume TradeRelationship.tariffRate
                   TradeRelationship.cooperation].
  all: split; [apply Math_max_lower|].
  all: split; [apply clamp_bounds; lra|].
  all: destruct (JS.opt_truthy (default ∅ (pc !! TradeRelationship.from t) !! "cooperation_policy"));
    [apply clamp_bounds; lra | exact Hc].
Qed.

Example saturated_edge_updated :
  List.map (fun t => Qeq_bool (TradeRelationship.tradeVolume t) 104.5)
    (RegionalEconomySimulator.updateTradeMatrix [saturated_edge] connectivity_push)
  = [true].
Proof. vm_compute. reflexivity. Qed.

(** C9, as stated, fails: the edges of the input are within the documented
    ranges, and the updated volume, 104.5, is above 100. *)
Lemma updateTradeMatrix_volume_above_scale :
  Forall edge_in_bounds [saturated_edge]
  /\ ~ Forall edge_in_bounds
         (RegionalEconomySimulator.updateTradeMatrix [saturated_edge] connectivity_push).
Proof.
  split.
  - repeat constructor; vm_compute; discriminate.
  - intros H. apply Forall_inv in H. destruct H as [[_ H] _].
    vm_compute in H. apply H. reflexivity.
Qed.

(** C9, amended. For every matrix whose edges are within the documented
    ranges and every policy-change map, every edge of the updated matrix has
    [tradeVolume >= 0], [tariffRate] in [[0, 50]] and [cooperation] in
    [[0, 100]]; the volume has no upper cap. *)
Theorem updateTradeMatrix_bounds
    (currentMatrix : list TradeRelationship.t)
    (policyChanges : gmap string (gmap string Q)) :
  Forall edge_in_bounds currentMatrix ->
  Forall edge_in_bounds_uncapped
    (RegionalEconomySimulator.updateTradeMatrix currentMatrix policyChanges).
Proof.
  intros H. unfold RegionalEconomySimulator.updateTradeMatrix.
  induction H as [|t l Ht _ IH]; simpl; constructor; [|exact IH].
  apply updateTrade_uncapped. apply Ht.
Qed.

Lemma updateTradeMatrix_bounds_witness :
  Forall edge_in_bounds_uncapped
    (RegionalEconomySimulator.updateTradeMatrix [saturated_edge] connectivity_push).
Proof.
  apply (updateTradeMatrix_bounds [saturated_edge] connectivity_push).
  repeat constructor; vm_compute; discriminate.
Defined.

(** ** Levers *)

Lemma lever_present (key : string) (dflt : Q) (ds : list PolicyDecision.t)
    (d : PolicyDecision.t) :
  findDecision key ds = Some d ->
  PolicySimulator.lever key dflt ds = PolicyDecision.value d <||> dflt.
Proof.
  unfold findDecision, PolicySimulator.lever, PolicySimulator.decisionValue.
  now intros ->.
Qed.

Lemma lever_missing (key : string) (dflt : Q) (ds : list PolicyDecision.t) :
  findDecision key ds = None -> PolicySimulator.lever key dflt ds = dflt.
Proof.
  unfold findDecision, PolicySimulator.lever, PolicySimulator.decisionValue.
  now intros ->.
Qed.

Lemma lever_nonzero (key : string) (dflt : Q) (ds : list PolicyDecision.t)
    (d : PolicyDecision.t) :
  findDecision key ds = Some d -> ~ PolicyDecision.value d == 0 ->
  PolicySimulator.lever key dflt ds = PolicyDecision.value d.
Proof.
  intros Hf Hnz. rewrite (lever_present _ _ _ _ Hf). unfold JS.or_else.
  now rewrite (proj2 (truthy_true _) Hnz).
Qed.

Lemma lever_zero (key : string) (dflt : Q) (ds : list PolicyDecision.t)
    (d : PolicyDecision.t) :
  findDecision key ds = Some d -> PolicyDecision.value d == 0 ->
  PolicySimulator.lever key dflt ds = dflt.
Proof.
  intros Hf Hz. rewrite (lever_present _ _ _ _ Hf). unfold JS.or_else.
  now rewrite (proj2 (truthy_false _) Hz).
Qed.

Lemma findDecision_without_same (key : string) (ds : list PolicyDecision.t) :
  findDecision key (without key ds) = None.
Proof.
  unfold findDecision, without. induction ds as [|d ds IH]; simpl; [reflexivity|].
  destruct (String.eqb (PolicyDecision.id d) key) eqn:E; simpl; [exact IH|].
  now rewrite E.
Qed.

Lemma findDecision_without_other (key key' : string) (ds : list PolicyDecision.t) :
  key' <> key ->
  findDecision key' (without key ds) = findDecision key' ds.
Proof.
  intros Hne. unfold findDecision, without.
  induction ds as [|d ds IH]; simpl; [reflexivity|].
  destruct (String.eqb (PolicyDecision.id d) key) eqn:E; simpl.
  - apply String.eqb_eq in E.
    destruct (String.eqb (PolicyDecision.id d) key') eqn:E'; [|exact IH].
    apply String.eqb_eq in E'. congruence.
  - now rewrite IH.
Qed.

(** A zero-valued decision and a missing decision give every lever the same
    value. *)
Lemma lever_without (key : string) (ds : list PolicyDecision.t)
    (d : PolicyDecision.t) :
  findDecision key ds = Some d -> PolicyDecision.value d == 0 ->
  forall (key' : string) (dflt : Q),
    PolicySimulator.lever key' dflt ds
    = PolicySimulator.lever key' dflt (without key ds).
Proof.
  intros Hf Hz key' dflt. destruct (String.eqb key' key) eqn:E.
  - apply String.eqb_eq in E. subst key'.
    rewrite (lever_zero _ _ _ _ Hf Hz).
    symmetry. apply lever_missing, findDecision_without_same.
  - apply String.eqb_neq in E.
    unfold PolicySimulator.lever, PolicySimulator.decisionValue.
    fold (findDecision key' ds). fold (findDecision key' (without key ds)).
    now rewrite findDecision_without_other.
Qed.

Lemma persisted_is_lever (st : CountryStats) (ds : list PolicyDecision.t)
    (sp : list PolicySpillover.t) (ev : list (string * Q)) (r : Q)
    (key : string) (f : Field) (dflt : Q) :
  In (key, f, dflt) persistedLevers ->
  (PolicySimulator.applyPolicyEffects st ds sp ev r).[f]
  = PolicySimulator.lever key dflt ds.
Proof.
  intros Hin. unfold PolicySimulator.applyPolicyEffects, PolicySimulator.persistDecisions.
  simpl in Hin.
  repeat (destruct Hin as [Hin|Hin]; [injection Hin as <- <- <-; reflexivity|]).
  destruct Hin.
Qed.

(** C10. A decision whose value is 0 is indistinguishable from a missing
    decision: when the decision that [find] returns for [key] has value 0,
    the lever takes its default, both copies of [applyPolicyEffects] return
    what they return on the list without any decision of that id, and the
    persisted field of a persisted lever is its default, not 0. *)
Theorem zero_decision_is_missing
    (key : string) (decisions : list PolicyDecision.t) (d : PolicyDecision.t) :
  findDecision key decisions = Some d ->
  PolicyDecision.value d == 0 ->
  (forall dflt : Q, PolicySimulator.lever key dflt decisions = dflt)
  /\ (forall (currentStats : CountryStats) (spilloverEffects : list PolicySpillover.t)
             (eventEffects : list (string * Q)) (random : Q),
        PolicySimulator.applyPolicyEffects currentStats decisions
          spilloverEffects eventEffects random
        = PolicySimulator.applyPolicyEffects currentStats (without key decisions)
            spilloverEffects eventEffects random)
  /\ (forall (currentStats : CountryStats) (spilloverEffects : list PolicySpillover.t)
             (random : Q),
        PolicySimulator3.applyPolicyEffects currentStats decisions
          spilloverEffects random
        = PolicySimulator3.applyPolicyEffects currentStats (without key decisions)
            spilloverEffects random)
  /\ (forall (f : Field) (dflt : Q) (currentStats : CountryStats)
             (spilloverEffects : list PolicySpillover.t)
             (eventEffects : list (string * Q)) (random : Q),
        In (key, f, dflt) persistedLevers ->
        (PolicySimulator.applyPolicyEffects currentStats decisions
           spilloverEffects eventEffects random).[f] = dflt).
Proof.
  intros Hf Hz. pose proof (lever_without key decisions d Hf Hz) as Hl.
  split; [intros dflt; exact (lever_zero _ _ _ _ Hf Hz)|].
  split.
  { intros st sp ev r.
    unfold PolicySimulator.applyPolicyEffects, PolicySimulator.preJitter,
      PolicySimulator.policyDeltas, PolicySimulator.persistDecisions.
    now rewrite !Hl. }
  split.
  { intros st sp r.
    unfold PolicySimulator3.applyPolicyEffects, PolicySimulator3.policyDeltas,
      PolicySimulator3.persistDecisions.
    now rewrite !Hl. }
  intros f dflt st sp ev r Hin.
  rewrite (persisted_is_lever _ _ _ _ _ _ _ _ Hin).
  exact (lever_zero _ _ _ _ Hf Hz).
Qed.

(** ** Routing of inbound spillovers *)

Lemma upd_offset (f g : Field) (d : Q) (h : Q -> Q) (st st' : CountryStats) :
  (forall x y : Q, y == x + d -> h y == h x + d) ->
  offset f d st st' -> offset f d (upd g h st) (upd g h st').
Proof.
  unfold offset. intros Hh H. destruct (Field_eqb f g) eqn:E.
  - apply Field_eqb_eq in E. subst g. rewrite !num_upd_eq. now apply Hh.
  - assert (f <> g) by (intros ->; unfold Field_eqb in E; now rewrite Nat.eqb_refl in E).
    now rewrite !num_upd_ne.
Qed.

Lemma add_to_offset (f g : Field) (d c : Q) (st st' : CountryStats) :
  offset f d st st' -> offset f d (add_to g c st) (add_to g c st').
Proof. apply upd_offset. intros x y ->. ring. Qed.

Lemma sub_from_offset (f g : Field) (d c : Q) (st st' : CountryStats) :
  offset f d st st' -> offset f d (sub_from g c st) (sub_from g c st').
Proof. apply upd_offset. intros x y ->. ring. Qed.

Lemma applySpillover_offset (f : Field) (d : Q) (s : PolicySpillover.t)
    (st st' : CountryStats) :
  offset f d st st' ->
  offset f d (PolicySimulator.applySpillover st s) (PolicySimulator.applySpillover st' s).
Proof.
  intros H. unfold PolicySimulator.applySpillover.
  destruct (PolicySpillover.policyType s);
    repeat first [apply add_to_offset | apply sub_from_offset]; exact H.
Qed.

Lemma applyEventEffect_offset (f : Field) (d : Q) (e : string * Q)
    (st st' : CountryStats) :
  offset f d st st' ->
  offset f d (PolicySimulator.applyEventEffect st e) (PolicySimulator.applyEventEffect st' e).
Proof.
  intros H. destruct e as [key delta]. unfold PolicySimulator.applyEventEffect.
  destruct (field_of_key key) as [g|]; [now apply add_to_offset|].
  destruct (String.eqb key "tariffRevenue");
    [now destruct (tariffRevenue st), (tariffRevenue st')|].
  destruct (String.eqb key "consumerWelfare");
    [now destruct (consumerWelfare st), (consumerWelfare st')|].
  exact H.
Qed.

Lemma fold_spillovers_offset (f : Field) (d : Q) (sp : list PolicySpillover.t)
    (st st' : CountryStats) :
  offset f d st st' ->
  offset f d (fold_left PolicySimulator.applySpillover sp st)
             (fold_left PolicySimulator.applySpillover sp st').
Proof.
  revert st st'. induction sp as [|s sp IH]; intros st st' H; simpl; [exact H|].
  now apply IH, applySpillover_offset.
Qed.

Lemma fold_events_offset (f : Field) (d : Q) (ev : list (string * Q))
    (st st' : CountryStats) :
  offset f d st st' ->
  offset f d (fold_left PolicySimulator.applyEventEffect ev st)
             (fold_left PolicySimulator.applyEventEffect ev st').
Proof.
  revert st st'. induction ev as [|e ev IH]; intros st st' H; simpl; [exact H|].
  now apply IH, applyEventEffect_offset.
Qed.

(** Inserting one spillover shifts a field of the pre-jitter state by what
    the routing of that spillover adds to the field. *)
Lemma preJitter_insert (f : Field) (d : Q) (st : CountryStats)
    (ds : list PolicyDecision.t) (sp1 sp2 : list PolicySpillover.t)
    (s : PolicySpillover.t) (ev : list (string * Q)) :
  (forall x : CountryStats, offset f d x (PolicySimulator.applySpillover x s)) ->
  offset f d (PolicySimulator.preJitter st ds (sp1 ++ sp2) ev)
             (PolicySimulator.preJitter st ds (sp1 ++ s :: sp2) ev).
Proof.
  intros Hs. unfold PolicySimulator.preJitter.
  rewrite !fold_left_app. simpl.
  apply fold_events_offset, fold_spillovers_offset, Hs.
Qed.


Lemma zero_decision_is_missing_witness :
  PolicySimulator.lever "tariffs" 15 [zero_tariff] = 15
  /\ (PolicySimulator.applyPolicyEffects sample_stats [zero_tariff] [] [] 0.5).[tariff_rate]
     = 15.
Proof.
  destruct (zero_decision_is_missing "tariffs" [zero_tariff] zero_tariff)
    as (H1 & _ & _ & H4).
  - reflexivity.
  - reflexivity.
  - split; [apply H1|]. apply H4. simpl. auto 10.
Defined.

(** ** Policy memory *)

Example blended_infrastructure :
  (PolicySimulator.applyPolicyEffects sample_stats connectivity_and_trust [] [] 0.5)
    .[infrastructure_investment] == 6.03.
Proof. vm_compute. reflexivity. Qed.

(** C3, as stated, fails: with connectivity 6 and trust 60 the persisted
    [infrastructure_investment] is 6.03; an education decision of 5 leaves
    [education_spending] at 4; a tariff decision of 0 is persisted as 15. *)
Lemma memory_fidelity_fails :
  ~ memory_fidelity sample_stats connectivity_and_trust [] [] 0.5
  /\ ~ memory_fidelity sample_stats education_raise [] [] 0.5
  /\ ~ memory_fidelity sample_stats [zero_tariff] [] [] 0.5.
Proof.
  split; [|split]; intros H.
  - specialize (H "connectivity" infrastructure_investment
                  (PolicyDecision.mk "connectivity" 6 0 10)).
    assert (C : 6.03 == 6); [|discriminate C].
    rewrite <- blended_infrastructure. apply H; [simpl; auto 10 | reflexivity].
  - specialize (H "education" education_spending
                  (PolicyDecision.mk "education" 5 0 10)).
    assert (C : (PolicySimulator.applyPolicyEffects sample_stats education_raise [] [] 0.5)
                  .[education_spending] == 5) by (apply H; [simpl; auto 10 | reflexivity]).
    vm_compute in C. discriminate C.
  - specialize (H "tariffs" tariff_rate zero_tariff).
    assert (C : (PolicySimulator.applyPolicyEffects sample_stats [zero_tariff] [] [] 0.5)
                  .[tariff_rate] == 0) by (apply H; [simpl; auto 10 | reflexivity]).
    vm_compute in C. discriminate C.
Qed.

Lemma field_of_key_In (key : string) (f : Field) :
  field_of_key key = Some f -> In (key, f) field_names.
Proof.
  unfold field_of_key. destruct (List.find _ _) as [[k g]|] eqn:E; [|discriminate].
  simpl. intros [= <-]. apply find_some in E as [Hin Hk]. simpl in Hk.
  apply String.eqb_eq in Hk. now subst.
Qed.

Lemma field_of_key_infrastructure (key : string) :
  field_of_key key = Some infrastructure_investment ->
  key = "infrastructure_investment".
Proof.
  intros H. apply field_of_key_In in H. simpl in H.
  repeat (destruct H as [H|H]; [now inversion H|]). destruct H.
Qed.

Lemma applySpillover_infrastructure (st : CountryStats) (s : PolicySpillover.t) :
  PolicySpillover.policyType s <> infrastructure ->
  (PolicySimulator.applySpillover st s).[infrastructure_investment]
  = st.[infrastructure_investment].
Proof.
  unfold PolicySimulator.applySpillover.
  destruct (PolicySpillover.policyType s); intros H; try reflexivity.
  now contradiction H.
Qed.

Lemma applyEventEffect_infrastructure (st : CountryStats) (e : string * Q) :
  fst e <> "infrastructure_investment" ->
  (PolicySimulator.applyEventEffect st e).[infrastructure_investment]
  = st.[infrastructure_investment].
Proof.
  destruct e as [key delta]. cbn [fst]. intros Hne.
  unfold PolicySimulator.applyEventEffect.
  destruct (field_of_key key) as [f|] eqn:E.
  - unfold add_to. rewrite num_upd_ne; [reflexivity|].
    intros <-. apply Hne. now apply field_of_key_infrastructure.
  - destruct (String.eqb key "tariffRevenue"); [now destruct (tariffRevenue st)|].
    destruct (String.eqb key "consumerWelfare"); [now destruct (consumerWelfare st)|].
    reflexivity.
Qed.

Lemma fold_spillovers_infrastructure (sp : list PolicySpillover.t) (st : CountryStats) :
  Forall (fun s => PolicySpillover.policyType s <> infrastructure) sp ->
  (fold_left PolicySimulator.applySpillover sp st).[infrastructure_investment]
  = st.[infrastructure_investment].
Proof.
  intros H. revert st. induction H as [|s sp Hs _ IH]; intros st; simpl; [reflexivity|].
  now rewrite IH, applySpillover_infrastructure.
Qed.

Lemma fold_events_infrastructure (ev : list (string * Q)) (st : CountryStats) :
  Forall (fun e => fst e <> "infrastructure_investment") ev ->
  (fold_left PolicySimulator.applyEventEffect ev st).[infrastructure_investment]
  = st.[infrastructure_investment].
Proof.
  intros H. revert st. induction H as [|e ev He _ IH]; intros st; simpl; [reflexivity|].
  now rewrite IH, applyEventEffect_infrastructure.
Qed.

(** [education_spending] and [health_expenditure] are the same whatever the
    decisions. *)
Lemma decisions_do_not_reach (st : CountryStats) (ds ds' : list PolicyDecision.t)
    (sp : list PolicySpillover.t) (ev : list (string * Q)) (r : Q) (f : Field) :
  f = education_spending \/ f = health_expenditure ->
  (PolicySimulator.applyPolicyEffects st ds sp ev r).[f]
  == (PolicySimulator.applyPolicyEffects st ds' sp ev r).[f].
Proof.
  intros Hf.
  assert (H : offset f 0 (PolicySimulator.preJitter st ds' sp ev)
                         (PolicySimulator.preJitter st ds sp ev)).
  { unfold PolicySimulator.preJitter.
    apply fold_events_offset, fold_spillovers_offset.
    unfold offset, PolicySimulator.policyDeltas.
    destruct Hf as [-> | ->];
      read_fields;
      ring. }
  unfold offset in H.
  unfold PolicySimulator.applyPolicyEffects, PolicySimulator.persistDecisions,
    PolicySimulator.applyBounds.
  destruct Hf as [-> | ->];
    read_fields; rewrite H; ring.
Qed.

(** C3, amended. After [applyPolicyEffects], each of the levers agriculture,
    manufacturing, services, energy, technology and tariffs whose decision is
    present with a nonzero value is persisted with exactly that value; and
    [infrastructure_investment] equals a nonzero connectivity decision when
    trust is at its baseline 50 and no infrastructure spillover and no event
    effect on the field is applied.  [education_spending] and
    [health_expenditure] do not depend on the decisions. *)
Theorem policy_memory_fidelity
    (currentStats : CountryStats) (decisions : list PolicyDecision.t)
    (spilloverEffects : list PolicySpillover.t)
    (eventEffects : list (string * Q)) (random : Q) :
  (forall (key : string) (f : Field) (dflt : Q) (d : PolicyDecision.t),
     In (key, f, dflt) persistedLevers ->
     findDecision key decisions = Some d ->
     ~ PolicyDecision.value d == 0 ->
     (PolicySimulator.applyPolicyEffects currentStats decisions
        spilloverEffects eventEffects random).[f] = PolicyDecision.value d)
  /\ (forall d : PolicyDecision.t,
        findDecision "connectivity" decisions = Some d ->
        ~ PolicyDecision.value d == 0 ->
        PolicySimulator.lever "trust" 50 decisions == 50 ->
        Forall (fun s => PolicySpillover.policyType s <> infrastructure) spilloverEffects ->
        Forall (fun e => fst e <> "infrastructure_investment") eventEffects ->
        (PolicySimulator.applyPolicyEffects currentStats decisions
           spilloverEffects eventEffects random).[infrastructure_investment]
        == PolicyDecision.value d)
  /\ (forall (f : Field) (others : list PolicyDecision.t),
        f = education_spending \/ f = health_expenditure ->
        (PolicySimulator.applyPolicyEffects currentStats decisions
           spilloverEffects eventEffects random).[f]
        == (PolicySimulator.applyPolicyEffects currentStats others
              spilloverEffects eventEffects random).[f]).
Proof.
  split; [|split]; [| |intros f others Hf; now apply decisions_do_not_reach].
  - intros key f dflt d Hin Hf Hnz.
    rewrite (persisted_is_lever _ _ _ _ _ _ _ _ Hin).
    now apply lever_nonzero.
  - intros d Hf Hnz Htrust Hsp Hev.
    unfold PolicySimulator.applyPolicyEffects, PolicySimulator.persistDecisions,
      PolicySimulator.applyBounds, PolicySimulator.preJitter.
    read_fields.
    rewrite fold_events_infrastructure by exact Hev.
    rewrite fold_spillovers_infrastructure by exact Hsp.
    unfold PolicySimulator.policyDeltas.
    read_fields.
    rewrite (lever_nonzero _ _ _ _ Hf Hnz). rewrite Htrust. field.
Qed.

Lemma policy_memory_fidelity_witness :
  (PolicySimulator.applyPolicyEffects sample_stats farm_and_roads [] [] 0.5)
    .[agriculture_spending] = 4.5
  /\ (PolicySimulator.applyPolicyEffects sample_stats farm_and_roads [] [] 0.5)
       .[infrastructure_investment] == 6.
Proof.
  destruct (policy_memory_fidelity sample_stats farm_and_roads [] [] 0.5) as (H1 & H2 & _).
  split.
  - apply (H1 "agriculture" agriculture_spending 3.5
              (PolicyDecision.mk "agriculture" 4.5 0 10)).
    + simpl. auto 10.
    + reflexivity.
    + discriminate.
  - apply (H2 (PolicyDecision.mk "connectivity" 6 0 10)).
    + reflexivity.
    + discriminate.
    + reflexivity.
    + constructor.
    + constructor.
Defined.

(** ** Regional events *)

Lemma insertBy_permutation {A : Type} (cmp : RegionalEconomySimulator.Comparator A)
    (x : A) (sorted : list A) (c : nat) :
  Permutation (fst (RegionalEconomySimulator.insertBy cmp x sorted c)) (x :: sorted).
Proof.
  revert c. induction sorted as [|y rest IH]; intros c; simpl; [reflexivity|].
  destruct (cmp x y c) as [r c1]. destruct (Qle_bool r 0); simpl; [reflexivity|].
  specialize (IH c1).
  destruct (RegionalEconomySimulator.insertBy cmp x rest c1) as [rest' c2]. simpl in *.
  rewrite IH. apply perm_swap.
Qed.

Lemma insertionSort_permutation (A : Type) (cmp : RegionalEconomySimulator.Comparator A)
    (l : list A) (c : nat) :
  Permutation (fst (RegionalEconomySimulator.insertionSort A cmp l c)) l.
Proof.
  revert c. induction l as [|x rest IH]; intros c; simpl; [reflexivity|].
  specialize (IH c).
  destruct (RegionalEconomySimulator.insertionSort A cmp rest c) as [sorted c1].
  simpl in IH. rewrite insertBy_permutation. now constructor.
Qed.

Lemma firstTriggered_In (random : RegionalEconomySimulator.Draws) (coop : Q)
    (l : list PoolEvent.t) (c c' : nat) (event : PoolEvent.t) :
  RegionalEconomySimulator.firstTriggered random coop l c = (Some event, c') ->
  In event l.
Proof.
  revert c. induction l as [|x rest IH]; intros c; simpl; [discriminate|].
  destruct (JS.lt _ _).
  - intros [= <- _]. now left.
  - intros H. right. eapply IH, H.
Qed.

Lemma pool_unique_flag (event : PoolEvent.t) :
  In event RegionalEconomySimulator.eventPool ->
  In (PoolEvent.id event) uniqueIds -> PoolEvent.unique event = true.
Proof.
  intros Hin Hid. simpl in Hin.
  repeat (destruct Hin as [<-|Hin]; [first [reflexivity | exfalso; simpl in Hid;
    repeat (destruct Hid as [Hid|Hid]; [discriminate Hid|]); exact Hid]|]).
  destruct Hin.
Qed.

Lemma occurred_has (history : list RegionalEvent.t) (id : string) :
  In id (List.map RegionalEvent.id history) ->
  bool_decide (id ∈ (list_to_set (RegionalEvent.id <$> history) : gset string)) = true.
Proof.
  intros H. apply bool_decide_eq_true. apply elem_of_list_to_set.
  apply list_elem_of_In. exact H.
Qed.

(** The candidate pool holds no unique event that already occurred. *)
Lemma potentialEvents_fresh (history : list RegionalEvent.t) (event : PoolEvent.t) :
  In event (RegionalEconomySimulator.potentialEvents history) ->
  In (PoolEvent.id event) uniqueIds ->
  ~ In (PoolEvent.id event) (List.map RegionalEvent.id history).
Proof.
  unfold RegionalEconomySimulator.potentialEvents. intros Hin Hu Hh.
  apply filter_In in Hin as [Hpool Hkeep].
  rewrite (pool_unique_flag _ Hpool Hu), (occurred_has _ _ Hh) in Hkeep.
  discriminate Hkeep.
Qed.

Lemma stability_not_unique : ~ In "no_major_event" uniqueIds.
Proof.
  simpl. intros H. repeat (destruct H as [H|H]; [discriminate H|]). exact H.
Qed.

Section RegionalEventProperties.

Variable roster : list string.
Variable Array_sort : RegionalEconomySimulator.Sorter.

(** Sorting invents no element: whatever the comparator answers, every
    element of the result is an element of the input. *)
Hypothesis Array_sort_keeps :
  forall (A : Type) (cmp : RegionalEconomySimulator.Comparator A) (l : list A)
         (c : nat) (x : A),
    In x (fst (Array_sort A cmp l c)) -> In x l.

Lemma eventCheck_fresh (random : RegionalEconomySimulator.Draws) (cursor : nat)
    (year : Z) (coop : Q) (history : list RegionalEvent.t) (e : RegionalEvent.t) :
  In e (fst (RegionalEconomySimulator.eventCheck roster Array_sort
               random cursor year coop history)) ->
  In (RegionalEvent.id e) uniqueIds ->
  ~ In (RegionalEvent.id e) (List.map RegionalEvent.id history).
Proof.
  unfold RegionalEconomySimulator.eventCheck.
  pose proof (Array_sort_keeps _ (RegionalEconomySimulator.randomComparator random)
                (RegionalEconomySimulator.potentialEvents history) cursor) as Hkeep.
  destruct (Array_sort _ _ _ _) as [shuffled c1]. simpl in Hkeep.
  destruct (RegionalEconomySimulator.firstTriggered random coop shuffled c1)
    as [[event|] c2] eqn:E.
  - intros [<-|[]]. simpl. apply potentialEvents_fresh.
    eapply Hkeep, firstTriggered_In, E.
  - destruct (Z.eqb _ _); simpl.
    + intros [<-|[]]. simpl. intros H. now apply stability_not_unique in H.
    + intros [].
Qed.

(** C6. [generateRegionalEvents] never returns an event flagged unique
    whose id already appears in the history, for every year, cooperation
    index, history and sequence of draws: such events are removed from the
    candidate pool before the shuffle and the selection. *)
Theorem unique_event_never_recurs
    (random : RegionalEconomySimulator.Draws) (cursor : nat)
    (year : Z) (cooperationIndex : Q) (history : list RegionalEvent.t) :
  (forall event : PoolEvent.t,
     In event (RegionalEconomySimulator.potentialEvents history) ->
     In (PoolEvent.id event) uniqueIds ->
     ~ In (PoolEvent.id event) (List.map RegionalEvent.id history))
  /\ (forall e : RegionalEvent.t,
        In e (fst (RegionalEconomySimulator.generateRegionalEvents roster Array_sort
                     random cursor year cooperationIndex history)) ->
        In (RegionalEvent.id e) uniqueIds ->
        ~ In (RegionalEvent.id e) (List.map RegionalEvent.id history)).
Proof.
  split; [apply potentialEvents_fresh|].
  intros e. unfold RegionalEconomySimulator.generateRegionalEvents.
  destruct (RegionalEconomySimulator.gateClosed _); [intros []|].
  apply eventCheck_fresh.
Qed.

End RegionalEventProperties.

Lemma insertionSort_keeps (A : Type) (cmp : RegionalEconomySimulator.Comparator A)
    (l : list A) (c : nat) (x : A) :
  In x (fst (RegionalEconomySimulator.insertionSort A cmp l c)) -> In x l.
Proof. apply Permutation_in, insertionSort_permutation. Qed.

(** With insertion sort as the sorter and draws that fire the first event
    tried: *)
Example earthquake_after_boom :
  List.map RegionalEvent.id
    (fst (RegionalEconomySimulator.generateRegionalEvents south_asia
            RegionalEconomySimulator.insertionSort eager_draws 0 2025 65 [past_boom]))
  = ["himalayan_earthquake"].
Proof. vm_compute. reflexivity. Qed.

(** With draws that fire no event, whatever the sorter does: *)
Example stability_every_third_year :
  List.map RegionalEvent.id
    (fst (RegionalEconomySimulator.generateRegionalEvents south_asia
            RegionalEconomySimulator.insertionSort quiet_draws 0 2025 65 [past_boom]))
  = ["no_major_event"]
  /\ fst (RegionalEconomySimulator.generateRegionalEvents south_asia
            RegionalEconomySimulator.insertionSort quiet_draws 0 2026 65 [past_boom])
     = [].
Proof. split; vm_compute; reflexivity. Qed.

Example boom_leaves_the_pool :
  List.map PoolEvent.id (RegionalEconomySimulator.potentialEvents [past_boom])
  = [ "monsoon_floods"; "cyclone_bay_of_bengal"; "drought"; "global_recession";
      "oil_price_shock"; "regional_cooperation_summit"; "border_tensions";
      "health_breakthrough"; "himalayan_earthquake" ].
Proof. vm_compute. reflexivity. Qed.

Lemma unique_event_never_recurs_witness :
  Forall (fun e =>
            In (RegionalEvent.id e) uniqueIds ->
            ~ In (RegionalEvent.id e) (List.map RegionalEvent.id [past_boom]))
    (fst (RegionalEconomySimulator.generateRegionalEvents south_asia
            RegionalEconomySimulator.insertionSort eager_draws 0 2025 65 [past_boom])).
Proof.
  apply List.Forall_forall. intros e He.
  exact (proj2 (unique_event_never_recurs south_asia
                  RegionalEconomySimulator.insertionSort insertionSort_keeps
                  eager_draws 0 2025 65 [past_boom]) e He).
Defined.

(** ** The event gate *)

Lemma QofNat_le (a b : nat) : (a <= b)%nat -> QofNat a <= QofNat b.
Proof. intros H. unfold QofNat. rewrite <- Zle_Qle. lia. Qed.

Lemma QofNat_mul (a b : nat) : QofNat (a * b) == QofNat a * QofNat b.
Proof. unfold QofNat. now rewrite Nat2Z.inj_mul, inject_Z_mult. Qed.

Lemma QofNat_S (a : nat) : QofNat (S a) == QofNat a + 1.
Proof. unfold QofNat. now rewrite Nat2Z.inj_succ, <- Z.add_1_r, inject_Z_plus. Qed.

Lemma QofNat_pos (a : nat) : (0 < a)%nat -> 0 < QofNat a.
Proof.
  intros H. unfold QofNat. change 0 with (inject_Z 0). rewrite <- Zlt_Qlt. lia.
Qed.

Lemma gateClosed_spec (u : Q) :
  RegionalEconomySimulator.gateClosed u = true <-> 0.6 < u.
Proof. apply JS_gt_true. Qed.

(** On the grid of [5 * m] draws the gate is closed from cell [3 * m] on. *)
Lemma gateClosed_cell (m i : nat) :
  (0 < m)%nat ->
  RegionalEconomySimulator.gateClosed ((2 * QofNat i + 1) / (2 * QofNat (5 * m)))
  = (3 * m <=? i)%nat.
Proof.
  intros Hm. pose proof (QofNat_pos m Hm) as Ha.
  pose proof (QofNat_mul 5 m) as E5. change (QofNat 5) with 5 in E5.
  destruct (Nat.leb_spec (3 * m) i) as [H|H].
  - apply gateClosed_spec. apply QofNat_le in H.
    rewrite (QofNat_mul 3 m) in H. change (QofNat 3) with 3 in H.
    apply Qlt_shift_div_l; lra.
  - unfold RegionalEconomySimulator.gateClosed, JS.gt. apply JS_lt_false.
    assert (H' : (S i <= 3 * m)%nat) by lia. apply QofNat_le in H'.
    rewrite QofNat_S, (QofNat_mul 3 m) in H'. change (QofNat 3) with 3 in H'.
    apply Qle_shift_div_r; lra.
Qed.

Lemma length_filter_map {A B : Type} (P : B -> bool) (f : A -> B) (l : list A) :
  length (List.filter P (List.map f l)) = length (List.filter (fun x => P (f x)) l).
Proof.
  induction l as [|x l IH]; simpl; [reflexivity|].
  destruct (P (f x)); simpl; now rewrite IH.
Qed.

Lemma count_from (k n s : nat) :
  (k <= s)%nat -> length (List.filter (fun i => (k <=? i)%nat) (seq s n)) = n.
Proof.
  revert s. induction n as [|n IH]; intros s H; simpl; [reflexivity|].
  destruct (Nat.leb_spec k s); [|lia]. simpl. rewrite IH; lia.
Qed.

Lemma count_below (k n s : nat) :
  (s + n <= k)%nat -> length (List.filter (fun i => (k <=? i)%nat) (seq s n)) = 0%nat.
Proof.
  revert s. induction n as [|n IH]; intros s H; simpl; [reflexivity|].
  destruct (Nat.leb_spec k s); [lia|]. apply IH. lia.
Qed.

Lemma count_threshold (k j : nat) :
  length (List.filter (fun i => (k <=? i)%nat) (seq 0 (k + j))) = j.
Proof.
  rewrite seq_app, List.filter_app, length_app.
  rewrite count_below by lia. rewrite count_from by lia. reflexivity.
Qed.

Lemma count_complement {A : Type} (P : A -> bool) (l : list A) :
  (length (List.filter (fun x => negb (P x)) l) + length (List.filter P l))%nat
  = length l.
Proof.
  induction l as [|x l IH]; simpl; [reflexivity|].
  destruct (P x); simpl; lia.
Qed.

Lemma closed_count (m : nat) :
  (0 < m)%nat ->
  length (List.filter RegionalEconomySimulator.gateClosed (grid (5 * m))) = (2 * m)%nat.
Proof.
  intros Hm. unfold grid. rewrite length_filter_map.
  rewrite (filter_ext _ (fun i => (3 * m <=? i)%nat))
    by (intros i; now apply gateClosed_cell).
  replace (5 * m)%nat with (3 * m + 2 * m)%nat by lia. apply count_threshold.
Qed.

Lemma open_count (m : nat) :
  (0 < m)%nat ->
  length (List.filter (fun u => negb (RegionalEconomySimulator.gateClosed u))
            (grid (5 * m))) = (3 * m)%nat.
Proof.
  intros Hm.
  pose proof (count_complement RegionalEconomySimulator.gateClosed (grid (5 * m))) as H.
  rewrite closed_count in H by exact Hm.
  unfold grid in *. rewrite length_map, length_seq in H. lia.
Qed.

Lemma gate_frequencies (m : nat) :
  (0 < m)%nat ->
  frequency RegionalEconomySimulator.gateClosed (5 * m) == 0.4
  /\ frequency (fun u => negb (RegionalEconomySimulator.gateClosed u)) (5 * m) == 0.6.
Proof.
  intros Hm. pose proof (QofNat_pos m Hm) as Ha. unfold frequency.
  rewrite closed_count, open_count by exact Hm.
  rewrite !QofNat_mul. change (QofNat 5) with 5. change (QofNat 3) with 3.
  change (QofNat 2) with 2.
  split; field; lra.
Qed.

(** C4, as stated, fails: of 100 equally likely draws the gate is closed on
    40 and open on 60; the draw 0.5 goes on to the event check, the draw 0.7
    does not. *)
Lemma gate_as_specified_fails :
  ~ gate_as_specified 100
  /\ frequency RegionalEconomySimulator.gateClosed 100 == 0.4
  /\ frequency (fun u => negb (RegionalEconomySimulator.gateClosed u)) 100 == 0.6
  /\ RegionalEconomySimulator.gateClosed 0.5 = false
  /\ RegionalEconomySimulator.gateClosed 0.7 = true.
Proof.
  split; [intros [H _]; vm_compute in H; discriminate H|].
  repeat split; vm_compute; reflexivity.
Qed.

(** C4, amended. The gate draws once, at the start of the call.  A draw
    above 0.6 closes it: the call returns the empty list at once, having
    read only that draw, whatever the year, the cooperation index and the
    history.  Any other draw lets the call go on to the event check.  Of
    [5 * m] equally likely draws the gate is closed on 40% and open on 60%:
    the call returns at once with probability 0.4 and goes on with
    probability 0.6. *)
Theorem event_gate
    (roster : list string) (Array_sort : RegionalEconomySimulator.Sorter)
    (random : RegionalEconomySimulator.Draws) (cursor : nat)
    (year : Z) (cooperationIndex : Q) (history : list RegionalEvent.t) :
  (forall draw : Q, RegionalEconomySimulator.gateClosed draw = true <-> 0.6 < draw)
  /\ (0.6 < random cursor ->
      RegionalEconomySimulator.generateRegionalEvents roster Array_sort
        random cursor year cooperationIndex history = ([], S cursor))
  /\ (random cursor <= 0.6 ->
      RegionalEconomySimulator.generateRegionalEvents roster Array_sort
        random cursor year cooperationIndex history
      = RegionalEconomySimulator.eventCheck roster Array_sort
          random (S cursor) year cooperationIndex history)
  /\ (forall m : nat, (0 < m)%nat ->
        frequency RegionalEconomySimulator.gateClosed (5 * m) == 0.4
        /\ frequency (fun u => negb (RegionalEconomySimulator.gateClosed u)) (5 * m)
           == 0.6).
Proof.
  unfold RegionalEconomySimulator.generateRegionalEvents.
  split; [exact gateClosed_spec|]. split; [|split].
  - intros H. now rewrite (proj2 (gateClosed_spec _) H).
  - intros H. destruct (RegionalEconomySimulator.gateClosed (random cursor)) eqn:E;
      [|reflexivity].
    apply gateClosed_spec in E. lra.
  - exact gate_frequencies.
Qed.

Lemma event_gate_witness :
  RegionalEconomySimulator.generateRegionalEvents south_asia
    RegionalEconomySimulator.insertionSort closed_draws 0 2025 65 [] = ([], 1%nat)
  /\ RegionalEconomySimulator.generateRegionalEvents south_asia
       RegionalEconomySimulator.insertionSort eager_draws 0 2025 65 []
     = RegionalEconomySimulator.eventCheck south_asia
         RegionalEconomySimulator.insertionSort eager_draws 1 2025 65 []
  /\ frequency RegionalEconomySimulator.gateClosed 5 == 0.4.
Proof.
  destruct (event_gate south_asia RegionalEconomySimulator.insertionSort
              closed_draws 0 2025 65 []) as (_ & H1 & _ & H3).
  destruct (event_gate south_asia RegionalEconomySimulator.insertionSort
              eager_draws 0 2025 65 []) as (_ & _ & H2 & _).
  split; [apply H1; reflexivity|].
  split; [apply H2; discriminate|].
  apply (H3 1%nat). lia.
Defined.

(** ** Which decisions [applyPolicyEffects] reads *)

Lemma find_filter_implied {A : Type} (p q : A -> bool) (l : list A) :
  (forall x, p x = true -> q x = true) ->
  List.find p (List.filter q l) = List.find p l.
Proof.
  intros H. induction l as [|x l IH]; simpl; [reflexivity|].
  destruct (q x) eqn:Eq; simpl.
  - now rewrite IH.
  - destruct (p x) eqn:Ep; [|exact IH].
    apply H in Ep. congruence.
Qed.

Lemma lever_recognised (key : string) (dflt : Q) (ds : list PolicyDecision.t) :
  In key leverIds ->
  PolicySimulator.lever key dflt (recognised ds) = PolicySimulator.lever key dflt ds.
Proof.
  intros Hk. unfold PolicySimulator.lever, PolicySimulator.decisionValue, recognised.
  rewrite find_filter_implied; [reflexivity|].
  intros d Hd. apply String.eqb_eq in Hd. apply existsb_exists.
  exists key. split; [exact Hk|]. now apply String.eqb_eq.
Qed.

(** [applyPolicyEffects] reads the nine levers and nothing else: decisions
    with any other id (education, health, infrastructure, environment, ...)
    are ignored. *)
Theorem applyPolicyEffects_ignores_other_ids
    (currentStats : CountryStats) (decisions : list PolicyDecision.t)
    (spilloverEffects : list PolicySpillover.t)
    (eventEffects : list (string * Q)) (random : Q) :
  PolicySimulator.applyPolicyEffects currentStats decisions
    spilloverEffects eventEffects random
  = PolicySimulator.applyPolicyEffects currentStats (recognised decisions)
      spilloverEffects eventEffects random.
Proof.
  unfold PolicySimulator.applyPolicyEffects, PolicySimulator.preJitter,
    PolicySimulator.policyDeltas, PolicySimulator.persistDecisions.
  rewrite !lever_recognised by (simpl; auto 12).
  reflexivity.
Qed.

Lemma find_app_l {A : Type} (p : A -> bool) (l1 l2 : list A) (x : A) :
  List.find p l1 = Some x -> List.find p (l1 ++ l2) = Some x.
Proof.
  induction l1 as [|y l1 IH]; simpl; [discriminate|].
  destruct (p y); [trivial | exact IH].
Qed.

Lemma find_app_skip {A : Type} (p : A -> bool) (l1 l2 : list A) (y : A) :
  p y = false -> List.find p (l1 ++ y :: l2) = List.find p (l1 ++ l2).
Proof.
  intros Hy. induction l1 as [|z l1 IH]; simpl.
  - now rewrite Hy.
  - destruct (p z); [reflexivity | exact IH].
Qed.

Lemma lever_shadowed (ds1 ds2 : list PolicyDecision.t) (d : PolicyDecision.t)
    (key : string) (dflt : Q) :
  findDecision (PolicyDecision.id d) ds1 <> None ->
  PolicySimulator.lever key dflt (ds1 ++ d :: ds2)
  = PolicySimulator.lever key dflt (ds1 ++ ds2).
Proof.
  intros Hf. unfold PolicySimulator.lever, PolicySimulator.decisionValue.
  destruct (String.eqb (PolicyDecision.id d) key) eqn:E.
  - apply String.eqb_eq in E. subst key. unfold findDecision in Hf.
    destruct (List.find _ ds1) as [d1|] eqn:E1; [|contradiction].
    now rewrite !(find_app_l _ _ _ _ E1).
  - now rewrite find_app_skip.
Qed.

(** Of several decisions with the same id, [applyPolicyEffects] reads the
    first: a decision that follows another of the same id changes
    nothing. *)
Theorem applyPolicyEffects_first_decision_wins
    (currentStats : CountryStats) (before after : list PolicyDecision.t)
    (d : PolicyDecision.t) (spilloverEffects : list PolicySpillover.t)
    (eventEffects : list (string * Q)) (random : Q) :
  findDecision (PolicyDecision.id d) before <> None ->
  PolicySimulator.applyPolicyEffects currentStats (before ++ d :: after)
    spilloverEffects eventEffects random
  = PolicySimulator.applyPolicyEffects currentStats (before ++ after)
      spilloverEffects eventEffects random.
Proof.
  intros Hf.
  pose proof (fun key dflt => lever_shadowed before after d key dflt Hf) as Hl.
  unfold PolicySimulator.applyPolicyEffects, PolicySimulator.preJitter,
    PolicySimulator.policyDeltas, PolicySimulator.persistDecisions.
  now rewrite !Hl.
Qed.

Lemma applyPolicyEffects_first_decision_wins_witness :
  PolicySimulator.applyPolicyEffects sample_stats two_tariffs [] [] 0.5
  = PolicySimulator.applyPolicyEffects sample_stats
      [PolicyDecision.mk "tariffs" 10 0 50] [] [] 0.5.
Proof.
  apply (applyPolicyEffects_first_decision_wins sample_stats
           [PolicyDecision.mk "tariffs" 10 0 50] []
           (PolicyDecision.mk "tariffs" 40 0 50) [] [] 0.5).
  discriminate.
Defined.

(** ** Which event keys [applyPolicyEffects] applies *)

Lemma applyEventEffect_unknown (st : CountryStats) (e : string * Q) :
  knownEventKey (fst e) = false -> PolicySimulator.applyEventEffect st e = st.
Proof.
  destruct e as [key delta]. unfold knownEventKey, PolicySimulator.applyEventEffect.
  cbn [fst]. destruct (field_of_key key); [discriminate|].
  intros H. apply orb_false_iff in H as [-> ->]. reflexivity.
Qed.

Lemma fold_events_known (ev : list (string * Q)) (st : CountryStats) :
  fold_left PolicySimulator.applyEventEffect ev st
  = fold_left PolicySimulator.applyEventEffect
      (List.filter (fun e => knownEventKey (fst e)) ev) st.
Proof.
  revert st. induction ev as [|e ev IH]; intros st; simpl; [reflexivity|].
  destruct (knownEventKey (fst e)) eqn:E; simpl.
  - apply IH.
  - rewrite applyEventEffect_unknown by exact E. apply IH.
Qed.

(** Event effects under a key that names no numeric property of the state
    are dropped without a trace; in particular the effects of the catalog
    event [regional_cooperation_summit] (keys [trust] and [connectivity])
    change no state at all. *)
Theorem applyPolicyEffects_ignores_unknown_event_keys
    (currentStats : CountryStats) (decisions : list PolicyDecision.t)
    (spilloverEffects : list PolicySpillover.t) (random : Q) :
  (forall eventEffects : list (string * Q),
     PolicySimulator.applyPolicyEffects currentStats decisions
       spilloverEffects eventEffects random
     = PolicySimulator.applyPolicyEffects currentStats decisions spilloverEffects
         (List.filter (fun e => knownEventKey (fst e)) eventEffects) random)
  /\ (forall event : PoolEvent.t,
        In event RegionalEconomySimulator.eventPool ->
        PoolEvent.id event = "regional_cooperation_summit" ->
        PolicySimulator.applyPolicyEffects currentStats decisions
          spilloverEffects (PoolEvent.effects event) random
        = PolicySimulator.applyPolicyEffects currentStats decisions
            spilloverEffects [] random).
Proof.
  assert (H : forall ev,
    PolicySimulator.applyPolicyEffects currentStats decisions spilloverEffects ev random
    = PolicySimulator.applyPolicyEffects currentStats decisions spilloverEffects
        (List.filter (fun e => knownEventKey (fst e)) ev) random).
  { intros ev. unfold PolicySimulator.applyPolicyEffects, PolicySimulator.preJitter.
    now rewrite fold_events_known. }
  split; [exact H|].
  intros event Hin Hid. rewrite H.
  simpl in Hin.
  repeat (destruct Hin as [<-|Hin]; [first [discriminate Hid | reflexivity]|]).
  destruct Hin.
Qed.

Lemma applyPolicyEffects_ignores_unknown_event_keys_witness :
  match List.find (fun e => String.eqb (PoolEvent.id e) "regional_cooperation_summit")
          RegionalEconomySimulator.eventPool with
  | Some event =>
      PolicySimulator.applyPolicyEffects sample_stats [] [] (PoolEvent.effects event) 0.5
      = PolicySimulator.applyPolicyEffects sample_stats [] [] [] 0.5
  | None => False
  end.
Proof.
  cbn [List.find RegionalEconomySimulator.eventPool PoolEvent.id String.eqb
       Ascii.eqb Bool.eqb].
  apply (proj2 (applyPolicyEffects_ignores_unknown_event_keys sample_stats [] [] 0.5)).
  - simpl. auto 20.
  - reflexivity.
Defined.

(** ** The bounds, the random variation and the footprint of a spillover *)

Lemma Math_max_proper (a x y : Q) : x == y -> JS.Math_max a x == JS.Math_max a y.
Proof.
  intros H.
  destruct (Math_max_cases a x) as [[H1 ->]|[H1 ->]],
           (Math_max_cases a y) as [[H2 ->]|[H2 ->]]; lra.
Qed.

Lemma Math_min_proper (a x y : Q) : x == y -> JS.Math_min a x == JS.Math_min a y.
Proof.
  intros H.
  destruct (Math_min_cases a x) as [[H1 ->]|[H1 ->]],
           (Math_min_cases a y) as [[H2 ->]|[H2 ->]]; lra.
Qed.

Lemma clamp_proper (lo hi x y : Q) :
  x == y -> JS.Math_max lo (JS.Math_min hi x) == JS.Math_max lo (JS.Math_min hi y).
Proof. intros H. now apply Math_max_proper, Math_min_proper. Qed.

Lemma Math_max_floor_inside (lo x : Q) : lo <= x -> JS.Math_max lo x == x.
Proof. intros H. destruct (Math_max_cases lo x) as [[H1 ->]|[H1 ->]]; lra. Qed.

(** The clamp is monotone. *)
Lemma clamp_monotone (lo hi x y : Q) :
  x <= y ->
  JS.Math_max lo (JS.Math_min hi x) <= JS.Math_max lo (JS.Math_min hi y).
Proof.
  intros H.
  destruct (Math_min_cases hi x) as [[H1 E1]|[H1 E1]],
           (Math_min_cases hi y) as [[H2 E2]|[H2 E2]]; rewrite E1, E2;
  try (destruct (Math_max_cases lo hi) as [[H3 E3]|[H3 E3]]; rewrite ?E3);
  try (destruct (Math_max_cases lo x) as [[H4 E4]|[H4 E4]]; rewrite ?E4);
  try (destruct (Math_max_cases lo y) as [[H5 E5]|[H5 E5]]; rewrite ?E5);
  lra.
Qed.

(** What follows the event loop in [applyPolicyEffects] keeps two states
    that agree on a field in agreement on it. *)
Lemma finish_agree (f : Field) (ds : list PolicyDecision.t) (v : Q)
    (s s' : CountryStats) :
  s.[f] == s'.[f] ->
  (PolicySimulator.persistDecisions ds
     (PolicySimulator.applyBounds (add_to gdp_growth v s))).[f]
  == (PolicySimulator.persistDecisions ds
        (PolicySimulator.applyBounds (add_to gdp_growth v s'))).[f].
Proof.
  intros H. unfold PolicySimulator.persistDecisions, PolicySimulator.applyBounds.
  destruct f; read_fields;
    first [ reflexivity
          | exact H
          | apply clamp_proper; rewrite H; reflexivity
          | apply Math_max_proper; exact H ].
Qed.

(** Re-applying the bounds changes nothing, and a state already within the
    bounds passes through them unchanged. *)
Theorem applyBounds_idempotent (s : CountryStats) (f : Field) :
  (PolicySimulator.applyBounds (PolicySimulator.applyBounds s)).[f]
  == (PolicySimulator.applyBounds s).[f]
  /\ (within_bounds s -> (PolicySimulator.applyBounds s).[f] == s.[f]).
Proof.
  split.
  - unfold PolicySimulator.applyBounds.
    destruct f; read_fields;
      first [ reflexivity
            | apply clamp_inside, clamp_bounds; lra
            | apply Math_max_floor_inside, Math_max_lower ].
  - intros (Hg & Hu & Hl & He & Hp & Hc & Hi & Hn).
    unfold PolicySimulator.applyBounds.
    destruct f; read_fields;
      first [ reflexivity
            | apply clamp_inside; assumption
            | apply Math_max_floor_inside; assumption ].
Qed.

Lemma applyBounds_idempotent_witness :
  (PolicySimulator.applyBounds sample_stats).[gdp_growth] == sample_stats.[gdp_growth].
Proof.
  apply (proj2 (applyBounds_idempotent sample_stats gdp_growth)).
  unfold within_bounds. cbn. repeat split; discriminate.
Defined.

(** The random draw reaches [gdp_growth] only: for draws in [[0, 1)] the
    variation lies in [[-0.25, 0.25)], a larger draw never lowers the
    returned [gdp_growth], and every other field, both KPIs and the country
    are the same whatever the draw. *)
Theorem random_draw_moves_gdp_growth_only
    (currentStats : CountryStats) (decisions : list PolicyDecision.t)
    (spilloverEffects : list PolicySpillover.t)
    (eventEffects : list (string * Q)) (random random' : Q) :
  0 <= random -> random <= random' -> random' < 1 ->
  let out := PolicySimulator.applyPolicyEffects currentStats decisions
               spilloverEffects eventEffects random in
  let out' := PolicySimulator.applyPolicyEffects currentStats decisions
                spilloverEffects eventEffects random' in
  (-0.25 <= PolicySimulator.randomVariation random
   /\ PolicySimulator.randomVariation random' < 0.25)
  /\ out.[gdp_growth] <= out'.[gdp_growth]
  /\ (forall f : Field, f <> gdp_growth -> out.[f] = out'.[f])
  /\ tariffRevenue out = tariffRevenue out'
  /\ consumerWelfare out = consumerWelfare out'
  /\ country out = country out'.
Proof.
  intros H0 Hle H1 out out'. subst out out'.
  unfold PolicySimulator.applyPolicyEffects, PolicySimulator.persistDecisions,
    PolicySimulator.applyBounds, PolicySimulator.randomVariation.
  split; [split; lra|]. split.
  - read_fields.
    set (g := (PolicySimulator.preJitter _ _ _ _).[gdp_growth]).
    apply (clamp_monotone (-10) 15 (g + (random - 0.5) * 0.5)
             (g + (random' - 0.5) * 0.5)). lra.
  - split;
      [|split; [|split];
        cbn [country tariffRevenue consumerWelfare upd assign add_to]; reflexivity].
    intros f Hf.
    destruct f; try (exfalso; apply Hf; reflexivity); read_fields; reflexivity.
Qed.

Lemma random_draw_moves_gdp_growth_only_witness :
  (PolicySimulator.applyPolicyEffects sample_stats [] [] [] 0.1).[gdp_growth]
  <= (PolicySimulator.applyPolicyEffects sample_stats [] [] [] 0.9).[gdp_growth].
Proof.
  assert (H0 : 0 <= 0.1) by discriminate.
  assert (H1 : 0.1 <= 0.9) by discriminate.
  assert (H2 : 0.9 < 1) by reflexivity.
  pose proof (random_draw_moves_gdp_growth_only sample_stats [] [] [] 0.1 0.9
                H0 H1 H2) as H.
  cbv zeta in H. destruct H as (_ & H & _). exact H.
Defined.

Lemma applySpillover_footprint (st : CountryStats) (s : PolicySpillover.t) (f : Field) :
  ~ In f (spilloverTargets (PolicySpillover.policyType s)) ->
  (PolicySimulator.applySpillover st s).[f] = st.[f].
Proof.
  unfold PolicySimulator.applySpillover.
  destruct (PolicySpillover.policyType s); simpl; intros H;
    destruct f; read_fields; try reflexivity; exfalso; apply H; auto.
Qed.

Lemma applySpillover_labels (st : CountryStats) (s : PolicySpillover.t) :
  same_labels (PolicySimulator.applySpillover st s) st.
Proof.
  unfold PolicySimulator.applySpillover, same_labels.
  destruct (PolicySpillover.policyType s); repeat split.
Qed.

Lemma fold_spillovers_labels (sp : list PolicySpillover.t) (st : CountryStats) :
  same_labels (fold_left PolicySimulator.applySpillover sp st) st.
Proof.
  revert st. induction sp as [|s sp IH]; intros st; simpl; [repeat split|].
  destruct (IH (PolicySimulator.applySpillover st s)) as (H1 & H2 & H3).
  destruct (applySpillover_labels st s) as (G1 & G2 & G3).
  repeat split; congruence.
Qed.

Lemma applyEventEffect_labels (st st' : CountryStats) (e : string * Q) :
  same_labels st st' ->
  same_labels (PolicySimulator.applyEventEffect st e)
              (PolicySimulator.applyEventEffect st' e).
Proof.
  intros (H1 & H2 & H3). destruct e as [key delta].
  unfold PolicySimulator.applyEventEffect, same_labels.
  destruct (field_of_key key) as [g|]; [repeat split; assumption|].
  destruct (String.eqb key "tariffRevenue").
  { rewrite <- H2. destruct (tariffRevenue st) eqn:E;
      cbn [country tariffRevenue consumerWelfare set_tariffRevenue];
      repeat split; congruence. }
  destruct (String.eqb key "consumerWelfare").
  { rewrite <- H3. destruct (consumerWelfare st) eqn:E;
      cbn [country tariffRevenue consumerWelfare set_consumerWelfare];
      repeat split; congruence. }
  repeat split; assumption.
Qed.

Lemma fold_events_labels (ev : list (string * Q)) (st st' : CountryStats) :
  same_labels st st' ->
  same_labels (fold_left PolicySimulator.applyEventEffect ev st)
              (fold_left PolicySimulator.applyEventEffect ev st').
Proof.
  revert st st'. induction ev as [|e ev IH]; intros st st' H; simpl; [exact H|].
  now apply IH, applyEventEffect_labels.
Qed.

(** Inserting a spillover moves neither the country nor a KPI of the
    returned state. *)
Lemma insert_labels (st : CountryStats) (ds : list PolicyDecision.t)
    (sp1 sp2 : list PolicySpillover.t) (s : PolicySpillover.t)
    (ev : list (string * Q)) (r : Q) :
  same_labels (PolicySimulator.applyPolicyEffects st ds (sp1 ++ s :: sp2) ev r)
              (PolicySimulator.applyPolicyEffects st ds (sp1 ++ sp2) ev r).
Proof.
  assert (H : same_labels (PolicySimulator.preJitter st ds (sp1 ++ s :: sp2) ev)
                          (PolicySimulator.preJitter st ds (sp1 ++ sp2) ev)).
  { unfold PolicySimulator.preJitter. rewrite !fold_left_app. simpl.
    apply fold_events_labels.
    set (x := fold_left PolicySimulator.applySpillover sp1 _).
    destruct (fold_spillovers_labels sp2 (PolicySimulator.applySpillover x s))
      as (A1 & A2 & A3).
    destruct (applySpillover_labels x s) as (B1 & B2 & B3).
    destruct (fold_spillovers_labels sp2 x) as (C1 & C2 & C3).
    repeat split; congruence. }
  unfold PolicySimulator.applyPolicyEffects, PolicySimulator.persistDecisions,
    PolicySimulator.applyBounds, same_labels.
  cbn [country tariffRevenue consumerWelfare upd assign add_to].
  exact H.
Qed.

(** An inbound spillover reaches only the fields its type is routed to: in
    every other numeric field the returned state is what it is without the
    spillover, and so are its country, its [tariffRevenue] and its
    [consumerWelfare]. *)
Theorem spillover_footprint
    (currentStats : CountryStats) (decisions : list PolicyDecision.t)
    (before after : list PolicySpillover.t) (s : PolicySpillover.t)
    (eventEffects : list (string * Q)) (random : Q) :
  let with_s := PolicySimulator.applyPolicyEffects currentStats decisions
                  (before ++ s :: after) eventEffects random in
  let without_s := PolicySimulator.applyPolicyEffects currentStats decisions
                     (before ++ after) eventEffects random in
  (forall f : Field,
     ~ In f (spilloverTargets (PolicySpillover.policyType s)) ->
     with_s.[f] == without_s.[f])
  /\ country with_s = country without_s
  /\ tariffRevenue with_s = tariffRevenue without_s
  /\ consumerWelfare with_s = consumerWelfare without_s.
Proof.
  cbv zeta. split; [|apply insert_labels].
  intros f Hf. unfold PolicySimulator.applyPolicyEffects.
  apply finish_agree.
  assert (H : offset f 0
                (PolicySimulator.preJitter currentStats decisions (before ++ after) eventEffects)
                (PolicySimulator.preJitter currentStats decisions (before ++ s :: after) eventEffects)).
  { apply preJitter_insert. intros x. unfold offset.
    rewrite applySpillover_footprint by exact Hf. ring. }
  unfold offset in H. rewrite H. ring.
Qed.

Lemma spillover_footprint_witness :
  (PolicySimulator.applyPolicyEffects sample_stats [] [acid_rain] [] 0.5).[gdp_growth]
  == (PolicySimulator.applyPolicyEffects sample_stats [] [] [] 0.5).[gdp_growth].
Proof.
  apply (proj1 (spillover_footprint sample_stats [] [] [] acid_rain [] 0.5) gdp_growth).
  simpl. intros [H|[]]. discriminate H.
Defined.

(** ** The shape of the score *)

Lemma improvements_no_worse (a b initialStats : CountryStats) :
  no_worse a b ->
  Forall2 Qle (PolicySimulator.improvements a initialStats)
              (PolicySimulator.improvements b initialStats).
Proof.
  intros (H1 & H2 & H3 & H4 & H5 & H6 & H7). unfold PolicySimulator.improvements.
  repeat constructor; lra.
Qed.

Lemma sum_monotone (l l' : list Q) (acc acc' : Q) :
  Forall2 Qle l l' -> acc <= acc' ->
  fold_left (fun sum val => sum + val) l acc
  <= fold_left (fun sum val => sum + val) l' acc'.
Proof.
  intros H. revert acc acc'.
  induction H as [|x y l l' Hxy _ IH]; intros acc acc' Hacc; simpl; [exact Hacc|].
  apply IH. lra.
Qed.

Lemma balance_monotone (l l' : list Q) :
  Forall2 Qle l l' ->
  forallb (fun val => JS.gt val (-50)) l = true ->
  forallb (fun val => JS.gt val (-50)) l' = true.
Proof.
  intros H. induction H as [|x y l l' Hxy _ IH]; simpl; [trivial|].
  rewrite !andb_true_iff. intros [Hx Hl]. split; [|now apply IH].
  apply JS_gt_true in Hx. apply JS_gt_true. lra.
Qed.

Lemma extreme_antitone (l l' : list Q) :
  Forall2 Qle l l' ->
  existsb (fun val => JS.lt val (-100)) l' = true ->
  existsb (fun val => JS.lt val (-100)) l = true.
Proof.
  intros H. induction H as [|x y l l' Hxy _ IH]; simpl; [trivial|].
  rewrite !orb_true_iff. intros [Hy|Hl]; [left|right; now apply IH].
  apply JS_lt_true in Hy. apply JS_lt_true. lra.
Qed.

(** The score never falls when the final state gets better: a final state
    that is no worse on each of the seven indicators scores no less against
    the same initial state. *)
Theorem calculateScore_monotone (a b initialStats : CountryStats) :
  no_worse a b ->
  PolicySimulator.calculateScore a initialStats
  <= PolicySimulator.calculateScore b initialStats.
Proof.
  intros H. pose proof (improvements_no_worse a b initialStats H) as Hi.
  unfold PolicySimulator.calculateScore.
  pose proof (sum_monotone _ _ 0 0 Hi ltac:(lra)) as Hs.
  pose proof (balance_monotone _ _ Hi) as Hb.
  pose proof (extreme_antitone _ _ Hi) as He.
  apply clamp_monotone.
  destruct (forallb _ (PolicySimulator.improvements a initialStats));
    [rewrite (Hb eq_refl)|destruct (forallb _ (PolicySimulator.improvements b initialStats))];
    (destruct (existsb _ (PolicySimulator.improvements b initialStats));
      [rewrite (He eq_refl)|destruct (existsb _ (PolicySimulator.improvements a initialStats))]);
    lra.
Qed.

Lemma calculateScore_monotone_witness :
  PolicySimulator.calculateScore sample_stats sample_stats
  <= PolicySimulator.calculateScore better_stats sample_stats.
Proof.
  apply (calculateScore_monotone sample_stats better_stats sample_stats).
  unfold no_worse, better_stats. cbn. repeat split; discriminate.
Defined.

Lemma improvements_gain (finalStats initialStats : CountryStats) :
  no_worse initialStats finalStats ->
  Forall (fun val => 0 <= val) (PolicySimulator.improvements finalStats initialStats).
Proof.
  intros (H1 & H2 & H3 & H4 & H5 & H6 & H7). unfold PolicySimulator.improvements.
  repeat constructor; lra.
Qed.

Lemma improvements_loss (finalStats initialStats : CountryStats) :
  no_worse finalStats initialStats ->
  Forall (fun val => val <= 0) (PolicySimulator.improvements finalStats initialStats).
Proof.
  intros (H1 & H2 & H3 & H4 & H5 & H6 & H7). unfold PolicySimulator.improvements.
  repeat constructor; lra.
Qed.

Lemma sum_of_gains (l : list Q) (acc : Q) :
  Forall (fun val => 0 <= val) l ->
  acc <= fold_left (fun sum val => sum + val) l acc.
Proof.
  intros H. revert acc. induction H as [|x l Hx _ IH]; intros acc; simpl; [lra|].
  specialize (IH (acc + x)). lra.
Qed.

Lemma sum_of_losses (l : list Q) (acc : Q) :
  Forall (fun val => val <= 0) l ->
  fold_left (fun sum val => sum + val) l acc <= acc
  /\ (Exists (fun val => val <= -101) l ->
      fold_left (fun sum val => sum + val) l acc <= acc - 101).
Proof.
  intros H. revert acc. induction H as [|x l Hx Hl IH]; intros acc; simpl.
  - split; [lra|]. intros He. inversion He.
  - destruct (IH (acc + x)) as [IH1 IH2]. split; [lra|].
    intros He. inversion He as [? ? Hhd|? ? Htl]; subst; [lra|].
    specialize (IH2 Htl). lra.
Qed.

Lemma gains_are_balanced (l : list Q) :
  Forall (fun val => 0 <= val) l ->
  forallb (fun val => JS.gt val (-50)) l = true
  /\ existsb (fun val => JS.lt val (-100)) l = false.
Proof.
  intros H. induction H as [|x l Hx _ [IH1 IH2]]; simpl; [now split|].
  rewrite IH1, IH2. split.
  - rewrite andb_true_r. apply JS_gt_true. lra.
  - rewrite orb_false_r. apply JS_lt_false. lra.
Qed.

Lemma collapse_is_extreme (l : list Q) :
  Exists (fun val => val <= -101) l ->
  forallb (fun val => JS.gt val (-50)) l = false
  /\ existsb (fun val => JS.lt val (-100)) l = true.
Proof.
  intros H. induction H as [x l Hx|x l _ [IH1 IH2]]; simpl.
  - split.
    + apply andb_false_iff. left. apply not_true_is_false. intros G.
      apply JS_gt_true in G. lra.
    + apply orb_true_iff. left. apply JS_lt_true. lra.
  - rewrite IH1, IH2. split; [apply andb_false_r | apply orb_true_r].
Qed.

Lemma clamp_at_least (lo hi x c : Q) :
  c <= hi -> c <= x -> c <= JS.Math_max lo (JS.Math_min hi x).
Proof.
  intros Hh Hx.
  destruct (Math_min_cases hi x) as [[H1 E1]|[H1 E1]]; rewrite E1;
    [destruct (Math_max_cases lo hi) as [[H2 E2]|[H2 E2]]
    |destruct (Math_max_cases lo x) as [[H2 E2]|[H2 E2]]]; rewrite E2; lra.
Qed.

Lemma clamp_at_most (lo hi x c : Q) :
  lo <= c -> x <= c -> JS.Math_max lo (JS.Math_min hi x) <= c.
Proof.
  intros Hl Hx.
  destruct (Math_min_cases hi x) as [[H1 E1]|[H1 E1]]; rewrite E1;
    [destruct (Math_max_cases lo hi) as [[H2 E2]|[H2 E2]]
    |destruct (Math_max_cases lo x) as [[H2 E2]|[H2 E2]]]; rewrite E2; lra.
Qed.

(** 500 is the break-even score.  A final state that is no worse than the
    initial one on any of the seven indicators scores at least 500; one
    that is no better on any of them scores at most 500, and at most 100
    when, besides, the weighted loss on some indicator reaches 101 points:
    the extreme penalty then applies and the balance bonus does not. *)
Theorem calculateScore_break_even (finalStats initialStats : CountryStats) :
  (no_worse initialStats finalStats ->
   500 <= PolicySimulator.calculateScore finalStats initialStats)
  /\ (no_worse finalStats initialStats ->
      PolicySimulator.calculateScore finalStats initialStats <= 500)
  /\ (no_worse finalStats initialStats ->
      Exists (fun val => val <= -101)
        (PolicySimulator.improvements finalStats initialStats) ->
      PolicySimulator.calculateScore finalStats initialStats <= 100).
Proof.
  unfold PolicySimulator.calculateScore. split; [|split].
  - intros H. apply improvements_gain in H.
    destruct (gains_are_balanced _ H) as [-> ->].
    pose proof (sum_of_gains _ 0 H).
    apply clamp_at_least; lra.
  - intros H. apply improvements_loss in H.
    destruct (sum_of_losses _ 0 H) as [Hs _].
    apply clamp_at_most; [lra|].
    destruct (forallb _ _), (existsb _ _); lra.
  - intros H He. apply improvements_loss in H.
    destruct (sum_of_losses _ 0 H) as [_ Hs]. specialize (Hs He).
    destruct (collapse_is_extreme _ He) as [-> ->].
    apply clamp_at_most; lra.
Qed.

Lemma calculateScore_break_even_witness :
  PolicySimulator.calculateScore collapsed_stats sample_stats <= 100.
Proof.
  apply (proj2 (proj2 (calculateScore_break_even collapsed_stats sample_stats))).
  - unfold no_worse, collapsed_stats. cbn. repeat split; discriminate.
  - apply Exists_cons_hd. vm_compute. discriminate.
Defined.

(** ** Extracting and filing *)

Lemma extractPolicyChanges_snoc (ds : list PolicyDecision.t) (d : PolicyDecision.t) :
  PolicySimulator.extractPolicyChanges (ds ++ [d])
  = PolicySimulator.extractPolicyChange (PolicySimulator.extractPolicyChanges ds) d.
Proof. unfold PolicySimulator.extractPolicyChanges. now rewrite fold_left_app. Qed.

(** [extractPolicyChanges] keeps, for each of the thirteen recognised ids,
    the value of the last decision with that id, and nothing under any other
    key; [applyPolicyEffects], in contrast, reads the first. *)
Theorem extractPolicyChanges_last_wins
    (decisions : list PolicyDecision.t) (key : string) :
  (In key PolicySimulator.policyChangeKeys ->
   PolicySimulator.extractPolicyChanges decisions !! key
   = lastDecisionValue key decisions)
  /\ (~ In key PolicySimulator.policyChangeKeys ->
      PolicySimulator.extractPolicyChanges decisions !! key = None).
Proof.
  split; [|apply extractPolicyChanges_other].
  intros Hk. unfold lastDecisionValue, findDecision.
  induction decisions as [|d ds IH] using rev_ind; [apply lookup_empty|].
  rewrite extractPolicyChanges_snoc, rev_app_distr. simpl.
  unfold PolicySimulator.extractPolicyChange.
  destruct (String.eqb (PolicyDecision.id d) key) eqn:E.
  - apply String.eqb_eq in E. subst key.
    assert (Hex : existsb (String.eqb (PolicyDecision.id d))
                    PolicySimulator.policyChangeKeys = true).
    { apply existsb_exists. exists (PolicyDecision.id d).
      split; [exact Hk | apply String.eqb_refl]. }
    rewrite Hex. simpl. apply lookup_insert_eq.
  - apply String.eqb_neq in E.
    destruct (existsb _ _); [rewrite lookup_insert_ne by exact E|]; exact IH.
Qed.

Lemma extractPolicyChanges_last_wins_witness :
  PolicySimulator.extractPolicyChanges two_trades !! "trade" = Some 70
  /\ PolicySimulator.extractPolicyChanges two_trades !! "tariffs" = None.
Proof.
  split.
  - apply (proj1 (extractPolicyChanges_last_wins two_trades "trade")).
    simpl. auto 20.
  - apply (proj2 (extractPolicyChanges_last_wins two_trades "tariffs")).
    simpl. intros H. repeat (destruct H as [H|H]; [discriminate H|]). exact H.
Defined.

Lemma fileSpillover_lookup (m : gmap string (list PolicySpillover.t))
    (s : PolicySpillover.t) (target : string) :
  PolicySimulator.fileSpillover m s !! target
  = if String.eqb (PolicySpillover.targetCountry s) target
    then Some (default [] (m !! target) ++ [s])%list
    else m !! target.
Proof.
  unfold PolicySimulator.fileSpillover.
  destruct (String.eqb _ target) eqn:E.
  - apply String.eqb_eq in E. subst target. apply lookup_insert_eq.
  - apply String.eqb_neq in E. now apply lookup_insert_ne.
Qed.

Lemma fold_fileSpillover_lookup (l : list PolicySpillover.t)
    (m : gmap string (list PolicySpillover.t)) (target : string) :
  fold_left PolicySimulator.fileSpillover l m !! target
  = match aimedAt target l with
    | [] => m !! target
    | aimed => Some (default [] (m !! target) ++ aimed)%list
    end.
Proof.
  revert m. induction l as [|s l IH]; intros m; simpl; [reflexivity|].
  rewrite IH, fileSpillover_lookup. unfold aimedAt. simpl.
  destruct (String.eqb _ target); simpl; [|reflexivity].
  destruct (List.filter _ l); simpl; [reflexivity|].
  now rewrite <- app_assoc.
Qed.

(** Filing groups by target and keeps the order: the entry of a country
    holds exactly the spillovers aimed at it, in the order they came, and a
    country that nothing is aimed at has no entry (not an empty list). *)
Theorem filing_groups_by_target (l : list PolicySpillover.t) (target : string) :
  fold_left PolicySimulator.fileSpillover l ∅ !! target
  = match aimedAt target l with
    | [] => None
    | aimed => Some aimed
    end.
Proof.
  rewrite fold_fileSpillover_lookup, lookup_empty. reflexivity.
Qed.

(** ** The shape of the aggregate spillovers *)

(** [hasEnergyTrade] does not depend on the order of its arguments, and no
    country trades energy with itself. *)
Theorem hasEnergyTrade_symmetric (country1 country2 : string) :
  RegionalEconomySimulator.hasEnergyTrade country1 country2
  = RegionalEconomySimulator.hasEnergyTrade country2 country1
  /\ RegionalEconomySimulator.hasEnergyTrade country1 country1 = false.
Proof.
  unfold RegionalEconomySimulator.hasEnergyTrade,
    RegionalEconomySimulator.energyTradePairs.
  cbn [existsb fst snd]. split.
  - repeat match goal with
           | |- context [String.eqb ?a ?b] =>
               let v := fresh "b" in generalize (String.eqb a b) as v; intros v
           end.
    repeat match goal with b : bool |- _ => destruct b end; reflexivity.
  - destruct (String.eqb "India" country1) eqn:E1;
      [apply String.eqb_eq in E1; subst; reflexivity|].
    destruct (String.eqb "Pakistan" country1) eqn:E2;
      [apply String.eqb_eq in E2; subst; reflexivity|].
    reflexivity.
Qed.

Lemma Math_abs_cases (x : Q) :
  (0 <= x /\ JS.Math_abs x = x) \/ (x < 0 /\ JS.Math_abs x = - x).
Proof.
  unfold JS.Math_abs. destruct (Qle_bool 0 x) eqn:E.
  - left. split; [now apply Qle_bool_iff | reflexivity].
  - right. split; [|reflexivity].
    apply Qnot_le_lt. intros H. apply Qle_bool_iff in H. congruence.
Qed.

Lemma bucket_low (x hi mid : Q) :
  x <= mid -> mid <= hi -> RegionalEconomySimulator.bucket x hi mid = low.
Proof.
  intros H1 H2. unfold RegionalEconomySimulator.bucket, JS.gt.
  rewrite (proj2 (JS_lt_false hi x)) by lra.
  now rewrite (proj2 (JS_lt_false mid x)) by lra.
Qed.

Lemma bucket_high (x hi mid : Q) :
  RegionalEconomySimulator.bucket x hi mid = high <-> hi < x.
Proof.
  unfold RegionalEconomySimulator.bucket.
  destruct (JS.gt x hi) eqn:E.
  - apply JS_gt_true in E. tauto.
  - split.
    + destruct (JS.gt x mid); discriminate.
    + intros H. apply JS_gt_true in H. congruence.
Qed.

Lemma length_whenTruthy {A : Type} (o : option Q) (k : Q -> A) :
  (length (RegionalEconomySimulator.whenTruthy o k) <= 1)%nat.
Proof.
  unfold RegionalEconomySimulator.whenTruthy.
  destruct o as [v|]; [destruct (JS.truthy v)|]; simpl; lia.
Qed.

Lemma edgeSpillovers_shape (src : string) (pc : gmap string Q)
    (t : TradeRelationship.t) (s : PolicySpillover.t) :
  In s (RegionalEconomySimulator.edgeSpillovers src pc t) ->
  PolicySpillover.sourceCountry s = src
  /\ PolicySpillover.targetCountry s = partnerOf src t
  /\ (PolicySpillover.policyType s = energy ->
      RegionalEconomySimulator.hasEnergyTrade src (partnerOf src t) = true)
  /\ (PolicySpillover.policyType s = trade_gdp ->
      PolicySpillover.effect s <= 0.05 -> PolicySpillover.magnitude s = low)
  /\ (PolicySpillover.magnitude s = high -> ~ PolicySpillover.effect s == 0).
Proof.
  intros Hin. unfold RegionalEconomySimulator.edgeSpillovers in Hin.
  fold (partnerOf src t) in Hin.
  repeat (apply in_app_or in Hin as [Hin|Hin]).
  6: destruct (RegionalEconomySimulator.hasEnergyTrade src (partnerOf src t)) eqn:He;
       [|destruct Hin].
  all: apply In_whenTruthy in Hin as (v & _ & _ & ->).
  all: cbn [PolicySpillover.sourceCountry PolicySpillover.targetCountry
            PolicySpillover.policyType PolicySpillover.effect
            PolicySpillover.magnitude].
  all: repeat split; try discriminate; try (intros _; exact He).
  all: try (intros _ H; apply bucket_low; lra).
  all: intros H E; apply bucket_high in H.
  1: lra.
  all: match type of H with
       | _ < JS.Math_abs ?x => destruct (Math_abs_cases x) as [[? Ha]|[? Ha]];
                               rewrite Ha in H; lra
       end.
Qed.

(** Every spillover that [calculateTradeSpillovers] returns comes from the
    source country and goes to the other end of one of its trade edges; an
    energy spillover only goes to a partner on the energy whitelist; a
    [trade_gdp] spillover with effect at most 0.05, and so every negative
    one however large, is labelled [low]; at most six spillovers come from
    an edge, and a country on no edge produces none. *)
Theorem calculateTradeSpillovers_shape
    (sourceCountry : string) (policyChanges : gmap string Q)
    (tradeMatrix : list TradeRelationship.t) :
  (forall s : PolicySpillover.t,
     In s (RegionalEconomySimulator.calculateTradeSpillovers
             sourceCountry policyChanges tradeMatrix) ->
     PolicySpillover.sourceCountry s = sourceCountry
     /\ (exists trade : TradeRelationship.t,
           In trade tradeMatrix
           /\ (TradeRelationship.from trade = sourceCountry
               \/ TradeRelationship.to trade = sourceCountry)
           /\ PolicySpillover.targetCountry s = partnerOf sourceCountry trade)
     /\ (PolicySpillover.policyType s = energy ->
         RegionalEconomySimulator.hasEnergyTrade sourceCountry
           (PolicySpillover.targetCountry s) = true)
     /\ (PolicySpillover.policyType s = trade_gdp ->
         PolicySpillover.effect s <= 0.05 -> PolicySpillover.magnitude s = low)
     /\ (PolicySpillover.magnitude s = high -> ~ PolicySpillover.effect s == 0))
  /\ (length (RegionalEconomySimulator.calculateTradeSpillovers
                sourceCountry policyChanges tradeMatrix)
      <= 6 * length (RegionalEconomySimulator.tradingPartners sourceCountry tradeMatrix))%nat
  /\ (RegionalEconomySimulator.tradingPartners sourceCountry tradeMatrix = [] ->
      RegionalEconomySimulator.calculateTradeSpillovers
        sourceCountry policyChanges tradeMatrix = []).
Proof.
  unfold RegionalEconomySimulator.calculateTradeSpillovers. split; [|split].
  - intros s Hin. apply in_flat_map in Hin as (t & Ht & Hs).
    apply edgeSpillovers_shape in Hs as (H1 & H2 & H3 & H4 & H5).
    unfold RegionalEconomySimulator.tradingPartners in Ht.
    apply filter_In in Ht as [Ht Hends].
    split; [exact H1|]. split.
    { exists t. split; [exact Ht|]. split; [|exact H2].
      apply orb_true_iff in Hends as [H|H]; apply String.eqb_eq in H; auto. }
    rewrite H2. auto.
  - induction (RegionalEconomySimulator.tradingPartners sourceCountry tradeMatrix)
      as [|t l IH]; simpl; [lia|].
    rewrite length_app.
    assert (length (RegionalEconomySimulator.edgeSpillovers sourceCountry policyChanges t)
            <= 6)%nat; [|lia].
    unfold RegionalEconomySimulator.edgeSpillovers.
    rewrite !length_app.
    destruct (RegionalEconomySimulator.hasEnergyTrade _ _);
      repeat match goal with
             | |- context [length (RegionalEconomySimulator.whenTruthy ?o ?k)] =>
                 let n := fresh "n" in
                 pose proof (length_whenTruthy o k);
                 set (n := length (RegionalEconomySimulator.whenTruthy o k)) in *;
                 clearbody n
             end; simpl; lia.
  - now intros ->.
Qed.

Example india_spillovers :
  List.map (fun s => (PolicySpillover.targetCountry s, PolicySpillover.policyType s,
                      PolicySpillover.magnitude s))
    (RegionalEconomySimulator.calculateTradeSpillovers "India"
       growth_and_energy india_edges)
  = [ ("Bhutan", trade_gdp, low); ("Bhutan", energy, high);
      ("Sri Lanka", trade_gdp, low) ].
Proof. vm_compute. reflexivity. Qed.

Lemma calculateTradeSpillovers_shape_witness :
  Forall (fun s =>
            PolicySpillover.sourceCountry s = "India"
            /\ (PolicySpillover.policyType s = energy ->
                RegionalEconomySimulator.hasEnergyTrade "India"
                  (PolicySpillover.targetCountry s) = true))
    (RegionalEconomySimulator.calculateTradeSpillovers "India"
       growth_and_energy india_edges)
  /\ RegionalEconomySimulator.calculateTradeSpillovers "Nepal"
       growth_and_energy india_edges = [].
Proof.
  destruct (calculateTradeSpillovers_shape "India" growth_and_energy india_edges)
    as (H & _ & _).
  destruct (calculateTradeSpillovers_shape "Nepal" growth_and_energy india_edges)
    as (_ & _ & H').
  split; [|apply H'; reflexivity].
  apply List.Forall_forall. intros s Hs. destruct (H s Hs) as (H1 & _ & H3 & _).
  split; [exact H1 | exact H3].
Defined.

(** ** The shape of a year's events *)

Lemma firstTriggered_draw (random : RegionalEconomySimulator.Draws) (coop : Q)
    (l : list PoolEvent.t) (c c' : nat) (event : PoolEvent.t) :
  RegionalEconomySimulator.firstTriggered random coop l c = (Some event, c') ->
  exists k : nat, random k < RegionalEconomySimulator.eventProbability coop event.
Proof.
  revert c. induction l as [|x rest IH]; intros c; simpl; [discriminate|].
  destruct (JS.lt _ _) eqn:E.
  - intros [= <- _]. exists c. now apply JS_lt_true.
  - apply IH.
Qed.

Lemma generateRegionalEvents_cases
    (roster : list string) (Array_sort : RegionalEconomySimulator.Sorter)
    (random : RegionalEconomySimulator.Draws) (cursor : nat)
    (year : Z) (coop : Q) (history : list RegionalEvent.t) :
  let events := fst (RegionalEconomySimulator.generateRegionalEvents roster Array_sort
                       random cursor year coop history) in
  events = []
  \/ (events = [RegionalEconomySimulator.stabilityEvent roster year]
      /\ Z.rem year 3 = 0%Z)
  \/ (exists (event : PoolEvent.t) (k : nat),
        events = [eventOf roster year event]
        /\ random k < RegionalEconomySimulator.eventProbability coop event
        /\ In event (fst (Array_sort _ (RegionalEconomySimulator.randomComparator random)
                            (RegionalEconomySimulator.potentialEvents history)
                            (S cursor)))).
Proof.
  unfold RegionalEconomySimulator.generateRegionalEvents.
  destruct (RegionalEconomySimulator.gateClosed _); [now left|].
  unfold RegionalEconomySimulator.eventCheck.
  destruct (Array_sort _ _ _ _) as [shuffled c1].
  destruct (RegionalEconomySimulator.firstTriggered random coop shuffled c1)
    as [[event|] c2] eqn:E; simpl.
  - right. right.
    destruct (firstTriggered_draw _ _ _ _ _ _ E) as [k Hk].
    exists event, k. split; [reflexivity|]. split; [exact Hk|].
    eapply firstTriggered_In, E.
  - destruct (Z.eqb (Z.rem year 3) 0) eqn:Ez; simpl; [|now left].
    right. left. split; [reflexivity|]. now apply Z.eqb_eq.
Qed.

Lemma over_fifty (x : Q) : x / 50 == (1 # 50) * x.
Proof. field. Qed.

Lemma eventProbability_range (coop : Q) (event : PoolEvent.t) :
  0 <= coop <= 100 ->
  In event RegionalEconomySimulator.eventPool ->
  0 <= RegionalEconomySimulator.eventProbability coop event <= 0.3.
Proof.
  intros Hc Hin. simpl in Hin.
  repeat (destruct Hin as [<-|Hin];
          [unfold RegionalEconomySimulator.eventProbability;
           cbn [PoolEvent.id PoolEvent.probability String.eqb Ascii.eqb Bool.eqb];
           rewrite ?over_fifty; lra|]).
  destruct Hin.
Qed.

Section RegionalEventShape.

Variable roster : list string.
Variable Array_sort : RegionalEconomySimulator.Sorter.

Hypothesis Array_sort_keeps :
  forall (A : Type) (cmp : RegionalEconomySimulator.Comparator A) (l : list A)
         (c : nat) (x : A),
    In x (fst (Array_sort A cmp l c)) -> In x l.

(** A call returns at most one event, stamped with the year of the call: the
    stability event, in a year divisible by 3 only, or a catalog entry
    copied with its name, description and effects and aimed at the whole
    roster when it is region-wide and at its own targets otherwise. *)
Theorem generateRegionalEvents_shape
    (random : RegionalEconomySimulator.Draws) (cursor : nat)
    (year : Z) (cooperationIndex : Q) (history : list RegionalEvent.t) :
  let events := fst (RegionalEconomySimulator.generateRegionalEvents roster Array_sort
                       random cursor year cooperationIndex history) in
  (length events <= 1)%nat
  /\ (forall e : RegionalEvent.t, In e events ->
        RegionalEvent.year e = year
        /\ ((e = RegionalEconomySimulator.stabilityEvent roster year
             /\ Z.rem year 3 = 0%Z)
            \/ (exists event : PoolEvent.t,
                  In event RegionalEconomySimulator.eventPool
                  /\ e = eventOf roster year event))).
Proof.
  intros events. subst events.
  pose proof (generateRegionalEvents_cases roster Array_sort random cursor year
                cooperationIndex history) as Hcases.
  cbv zeta in Hcases.
  destruct Hcases as [-> | [[-> Hy] | (event & k & -> & _ & Hin)]].
  - split; [simpl; lia | intros e []].
  - split; [simpl; lia|]. intros e [<-|[]]. split; [reflexivity|]. now left.
  - split; [simpl; lia|]. intros e [<-|[]]. split; [reflexivity|]. right.
    exists event. split; [|reflexivity].
    apply Array_sort_keeps in Hin.
    unfold RegionalEconomySimulator.potentialEvents in Hin.
    now apply filter_In in Hin as [Hin _].
Qed.

End RegionalEventShape.

Lemma generateRegionalEvents_shape_witness :
  (length (fst (RegionalEconomySimulator.generateRegionalEvents south_asia
                  RegionalEconomySimulator.insertionSort eager_draws 0 2025 65
                  [past_boom])) <= 1)%nat.
Proof.
  apply (generateRegionalEvents_shape south_asia
           RegionalEconomySimulator.insertionSort insertionSort_keeps
           eager_draws 0 2025 65 [past_boom]).
Defined.

(** The effective probability of every catalog event is a probability (it
    lies in [[0, 0.3]]) when the cooperation index lies in [[0, 100]].  With
    draws in [[0, 1)], a call at cooperation index 0 never returns the
    summit, and a call at cooperation index 100 never returns border
    tensions. *)
Theorem cooperation_shapes_events
    (roster : list string) (Array_sort : RegionalEconomySimulator.Sorter)
    (random : RegionalEconomySimulator.Draws) (cursor : nat)
    (year : Z) (cooperationIndex : Q) (history : list RegionalEvent.t) :
  (0 <= cooperationIndex <= 100 ->
   forall event : PoolEvent.t, In event RegionalEconomySimulator.eventPool ->
     0 <= RegionalEconomySimulator.eventProbability cooperationIndex event <= 0.3)
  /\ ((forall k : nat, 0 <= random k) ->
      forall e : RegionalEvent.t,
        In e (fst (RegionalEconomySimulator.generateRegionalEvents roster Array_sort
                     random cursor year cooperationIndex history)) ->
        (cooperationIndex == 0 -> RegionalEvent.id e <> "regional_cooperation_summit")
        /\ (cooperationIndex == 100 -> RegionalEvent.id e <> "border_tensions")).
Proof.
  split; [intros Hc event; now apply eventProbability_range|].
  intros Hpos e He.
  pose proof (generateRegionalEvents_cases roster Array_sort random cursor year
                cooperationIndex history) as Hcases.
  cbv zeta in Hcases.
  destruct Hcases as [H | [[H _] | (event & k & H & Hk & _)]]; rewrite H in He.
  - destruct He.
  - destruct He as [<-|[]]. split; intros _; discriminate.
  - destruct He as [<-|[]]. specialize (Hpos k). unfold eventOf. cbn [RegionalEvent.id].
    unfold RegionalEconomySimulator.eventProbability in Hk.
    split; intros Hc Hid; rewrite Hid in Hk;
      cbn [String.eqb Ascii.eqb Bool.eqb] in Hk; rewrite Hc in Hk;
      revert Hk; generalize (PoolEvent.probability event); intros p Hk;
      assert (Hz : random k < 0)
        by (eapply Qlt_le_trans; [exact Hk|]; apply Qle_lteq; right; field);
      lra.
Qed.

Lemma cooperation_shapes_events_witness :
  Forall (fun e => RegionalEvent.id e <> "regional_cooperation_summit")
    (fst (RegionalEconomySimulator.generateRegionalEvents south_asia
            RegionalEconomySimulator.insertionSort eager_draws 0 2025 0 [])).
Proof.
  apply List.Forall_forall. intros e He.
  apply (proj2 (cooperation_shapes_events south_asia
                  RegionalEconomySimulator.insertionSort eager_draws 0 2025 0 [])
           (fun k => match k with O => ltac:(discriminate) | S _ => ltac:(discriminate) end)
           e He).
  reflexivity.
Defined.

(** ** The trade matrix over the years *)

Lemma updateTrade_ends (pc : gmap string (gmap string Q)) (t : TradeRelationship.t) :
  TradeRelationship.from (RegionalEconomySimulator.updateTrade pc t)
  = TradeRelationship.from t
  /\ TradeRelationship.to (RegionalEconomySimulator.updateTrade pc t)
     = TradeRelationship.to t.
Proof.
  unfold RegionalEconomySimulator.updateTrade.
  destruct (JS.opt_truthy _); split; reflexivity.
Qed.

(** Without [trade_openness] from the exporting side, the tariff rate of an
    edge is only clamped. *)
Lemma updateTrade_tariff (pc : gmap string (gmap string Q)) (t : TradeRelationship.t) :
  default ∅ (pc !! TradeRelationship.from t) !! "trade_openness" = None ->
  TradeRelationship.tariffRate (RegionalEconomySimulator.updateTrade pc t)
  = JS.Math_max 0 (JS.Math_min 50 (TradeRelationship.tariffRate t)).
Proof.
  intros H. unfold RegionalEconomySimulator.updateTrade. rewrite H. reflexivity.
Qed.

Lemma updateTrade_untouched (pc : gmap string (gmap string Q)) (t : TradeRelationship.t) :
  pc !! TradeRelationship.from t = None ->
  pc !! TradeRelationship.to t = None ->
  TradeRelationship.tradeVolume (RegionalEconomySimulator.updateTrade pc t)
  = JS.Math_max 0 (TradeRelationship.tradeVolume t)
  /\ TradeRelationship.cooperation (RegionalEconomySimulator.updateTrade pc t)
     = TradeRelationship.cooperation t.
Proof.
  intros Hf Ht. unfold RegionalEconomySimulator.updateTrade.
  rewrite Hf, Ht. simpl. rewrite !lookup_empty. split; reflexivity.
Qed.

(** [updateTradeMatrix] keeps the edges in place: as many edges, each with
    the endpoints it had.  An edge neither of whose countries has policy
    changes keeps its cooperation, and keeps its volume and tariff rate when
    they are in range (a negative volume is raised to 0, a tariff rate
    outside [[0, 50]] is clamped). *)
Theorem updateTradeMatrix_shape
    (currentMatrix : list TradeRelationship.t)
    (policyChanges : gmap string (gmap string Q)) :
  length (RegionalEconomySimulator.updateTradeMatrix currentMatrix policyChanges)
  = length currentMatrix
  /\ Forall2 (fun trade updated =>
                TradeRelationship.from updated = TradeRelationship.from trade
                /\ TradeRelationship.to updated = TradeRelationship.to trade
                /\ (policyChanges !! TradeRelationship.from trade = None ->
                    policyChanges !! TradeRelationship.to trade = None ->
                    TradeRelationship.cooperation updated
                    = TradeRelationship.cooperation trade
                    /\ (0 <= TradeRelationship.tradeVolume trade ->
                        TradeRelationship.tradeVolume updated
                        == TradeRelationship.tradeVolume trade)
                    /\ (0 <= TradeRelationship.tariffRate trade <= 50 ->
                        TradeRelationship.tariffRate updated
                        == TradeRelationship.tariffRate trade)))
       currentMatrix
       (RegionalEconomySimulator.updateTradeMatrix currentMatrix policyChanges).
Proof.
  unfold RegionalEconomySimulator.updateTradeMatrix. split; [apply length_map|].
  induction currentMatrix as [|t l IH]; simpl; constructor; [|exact IH].
  destruct (updateTrade_ends policyChanges t) as [Hf Ht].
  split; [exact Hf|]. split; [exact Ht|].
  intros Hsrc Htgt.
  destruct (updateTrade_untouched policyChanges t Hsrc Htgt) as [Hv Hc].
  split; [exact Hc|]. split.
  - intros H. rewrite Hv. now apply Math_max_floor_inside.
  - intros H. rewrite updateTrade_tariff.
    + now apply clamp_inside.
    + rewrite Hsrc. apply lookup_empty.
Qed.

Lemma updateTradeMatrix_shape_witness :
  Forall2 (fun trade updated =>
             TradeRelationship.tariffRate updated == TradeRelationship.tariffRate trade)
    [hostile_edge]
    (RegionalEconomySimulator.updateTradeMatrix [hostile_edge] ∅).
Proof.
  destruct (updateTradeMatrix_shape [hostile_edge] ∅) as [_ H].
  apply Forall2_cons_1 in H as [(_ & _ & Hu) _].
  constructor; [|constructor].
  destruct (Hu (lookup_empty _) (lookup_empty _)) as (_ & _ & Ht).
  apply Ht. split; discriminate.
Defined.

Lemma notePolicyChange_other (changes : gmap string Q) (d : PolicyDecision.t)
    (key : string) :
  key <> "infrastructure_investment" -> key <> "cooperation_policy" ->
  App.notePolicyChange changes d !! key = changes !! key.
Proof.
  intros H1 H2. unfold App.notePolicyChange.
  destruct (String.eqb _ "connectivity"); [now rewrite lookup_insert_ne|].
  destruct (String.eqb _ "trust"); [now rewrite lookup_insert_ne|].
  reflexivity.
Qed.

Lemma fold_notePolicyChange_other (ds : list PolicyDecision.t)
    (changes : gmap string Q) (key : string) :
  key <> "infrastructure_investment" -> key <> "cooperation_policy" ->
  fold_left App.notePolicyChange ds changes !! key = changes !! key.
Proof.
  intros H1 H2. revert changes.
  induction ds as [|d ds IH]; intros changes; simpl; [reflexivity|].
  now rewrite IH, notePolicyChange_other.
Qed.

(** The policy changes that step 7 builds hold nothing but
    [infrastructure_investment] and [cooperation_policy]. *)
Lemma buildPolicyChanges_keys (ud : JSObject.t (list PolicyDecision.t))
    (country key : string) :
  key <> "infrastructure_investment" -> key <> "cooperation_policy" ->
  default ∅ (App.buildPolicyChanges ud !! country) !! key = None.
Proof.
  intros H1 H2. unfold App.buildPolicyChanges.
  assert (G : forall acc : gmap string (gmap string Q),
            default ∅ (acc !! country) !! key = None ->
            default ∅ (fold_left (fun policyChanges entry =>
                <[fst entry := fold_left App.notePolicyChange (snd entry) ∅]> policyChanges)
              ud acc !! country) !! key = None).
  { induction ud as [|[c ds] ud IH]; intros acc Hacc; simpl; [exact Hacc|].
    apply IH. destruct (decide (c = country)) as [->|Hne].
    - rewrite lookup_insert_eq. simpl.
      rewrite fold_notePolicyChange_other by assumption. apply lookup_empty.
    - now rewrite lookup_insert_ne. }
  apply G. rewrite lookup_empty. apply lookup_empty.
Qed.

Lemma yearly_update_same_tariff (ud : JSObject.t (list PolicyDecision.t))
    (m : list TradeRelationship.t) :
  Forall tariff_in_range m ->
  Forall2 same_tariff m
    (RegionalEconomySimulator.updateTradeMatrix m (App.buildPolicyChanges ud)).
Proof.
  unfold RegionalEconomySimulator.updateTradeMatrix.
  induction 1 as [|t l Ht _ IH]; simpl; constructor; [|exact IH].
  destruct (updateTrade_ends (App.buildPolicyChanges ud) t) as [Hf Hto].
  split; [exact Hf|]. split; [exact Hto|].
  rewrite updateTrade_tariff by (apply buildPolicyChanges_keys; discriminate).
  now apply clamp_inside.
Qed.

Lemma same_tariff_in_range (m m' : list TradeRelationship.t) :
  Forall2 same_tariff m m' -> Forall tariff_in_range m -> Forall tariff_in_range m'.
Proof.
  induction 1 as [|t t' l l' (_ & _ & H) _ IH]; intros Hm; [constructor|].
  apply Forall_cons_1 in Hm as [Ht Hl]. constructor; [|now apply IH].
  unfold tariff_in_range in *. rewrite H. exact Ht.
Qed.

Lemma same_tariff_trans (a b c : list TradeRelationship.t) :
  Forall2 same_tariff a b -> Forall2 same_tariff b c -> Forall2 same_tariff a c.
Proof.
  intros H. revert c. induction H as [|x y l l' (H1 & H2 & H3) _ IH]; intros c Hc.
  - inversion Hc. constructor.
  - inversion Hc as [|y' z m m' (G1 & G2 & G3) Hrest]; subst.
    constructor; [|now apply IH].
    repeat split; try congruence. now rewrite G3.
Qed.

Lemma same_tariff_refl (m : list TradeRelationship.t) : Forall2 same_tariff m m.
Proof. induction m; constructor; [repeat split; reflexivity | assumption]. Qed.

(** The orchestrator never changes a tariff rate: the policy changes it
    builds carry no [trade_openness], so whatever the decisions of however
    many years, every edge of the matrix keeps its endpoints and its tariff
    rate, provided the rates start within [[0, 50]] as those of the initial
    matrix do. *)
Theorem orchestrator_keeps_tariff_rates
    (years : list (JSObject.t (list PolicyDecision.t)))
    (tradeMatrix : list TradeRelationship.t) :
  Forall tariff_in_range tradeMatrix ->
  Forall2 same_tariff tradeMatrix (matrixAfter years tradeMatrix).
Proof.
  unfold matrixAfter. revert tradeMatrix.
  induction years as [|ud years IH]; intros m Hm; simpl; [apply same_tariff_refl|].
  pose proof (yearly_update_same_tariff ud m Hm) as H1.
  eapply same_tariff_trans; [exact H1|].
  apply IH. eapply same_tariff_in_range; [exact H1 | exact Hm].
Qed.

Lemma orchestrator_keeps_tariff_rates_witness :
  Forall2 same_tariff RegionalEconomySimulator.INITIAL_TRADE_MATRIX
    (matrixAfter [open_year; open_year] RegionalEconomySimulator.INITIAL_TRADE_MATRIX).
Proof.
  apply (orchestrator_keeps_tariff_rates [open_year; open_year]
           RegionalEconomySimulator.INITIAL_TRADE_MATRIX).
  unfold RegionalEconomySimulator.INITIAL_TRADE_MATRIX, tariff_in_range.
  repeat constructor; discriminate.
Defined.

Example tariffs_decision_leaves_matrix :
  List.map (fun t => Qeq_bool (TradeRelationship.tariffRate t) 25.0)
    (List.filter (fun t => String.eqb (TradeRelationship.from t) "India"
                           && String.eqb (TradeRelationship.to t) "Pakistan")
       (matrixAfter [open_year] RegionalEconomySimulator.INITIAL_TRADE_MATRIX))
  = [true].
Proof. vm_compute. reflexivity. Qed.

(** ** Objects *)

Lemma JSObject_get_set {A : Type} (obj : JSObject.t A) (key key' : string) (v : A) :
  JSObject.get (JSObject.set obj key v) key'
  = if String.eqb key key' then Some v else JSObject.get obj key'.
Proof.
  unfold JSObject.get. induction obj as [|[k x] rest IH]; simpl.
  - destruct (String.eqb key key'); reflexivity.
  - destruct (String.eqb k key) eqn:E; simpl.
    + apply String.eqb_eq in E. subst k.
      destruct (String.eqb key key'); reflexivity.
    + destruct (String.eqb k key') eqn:E'; simpl; [|exact IH].
      apply String.eqb_eq in E'. subst k. now rewrite String.eqb_sym, E.
Qed.

Lemma JSObject_has_set {A : Type} (obj : JSObject.t A) (key key' : string) (v : A) :
  JSObject.has (JSObject.set obj key v) key'
  = String.eqb key key' || JSObject.has obj key'.
Proof.
  unfold JSObject.has. induction obj as [|[k x] rest IH]; simpl.
  - reflexivity.
  - destruct (String.eqb k key) eqn:E; simpl.
    + apply String.eqb_eq in E. subst k.
      destruct (String.eqb key key'); reflexivity.
    + rewrite IH. destruct (String.eqb k key'), (String.eqb key key'); reflexivity.
Qed.

(** ** The decisions of the AI countries *)

Lemma adjustDecision_ranged (stats : CountryStats) (random : Q) (d : PolicyDecision.t) :
  well_ranged (App.adjustDecision stats random d)
  /\ PolicyDecision.id (App.adjustDecision stats random d) = PolicyDecision.id d
  /\ PolicyDecision.min (App.adjustDecision stats random d) = PolicyDecision.min d
  /\ PolicyDecision.max (App.adjustDecision stats random d) = PolicyDecision.max d.
Proof.
  unfold App.adjustDecision, well_ranged. cbn [PolicyDecision.id PolicyDecision.value
    PolicyDecision.min PolicyDecision.max].
  split; [|repeat split]. apply clamp_bounds.
Qed.

Lemma adjustDecisions_ranged (stats : option CountryStats)
    (random : RegionalEconomySimulator.Draws) (cursor : nat)
    (ds adjusted : list PolicyDecision.t) (cursor' : nat) :
  App.adjustDecisions stats random cursor ds = Return (adjusted, cursor') ->
  Forall well_ranged adjusted
  /\ List.map PolicyDecision.id adjusted = List.map PolicyDecision.id ds
  /\ cursor' = (cursor + length ds)%nat.
Proof.
  revert cursor adjusted cursor'.
  induction ds as [|d ds IH]; intros cursor adjusted cursor'; simpl.
  - intros [= <- <-]. repeat split; [constructor | lia].
  - destruct stats as [st|]; [|discriminate].
    destruct (App.adjustDecisions (Some st) random (S cursor) ds) as [[a c]|] eqn:E;
      [|discriminate].
    simpl. intros [= <- <-].
    destruct (IH _ _ _ E) as (H1 & H2 & H3).
    destruct (adjustDecision_ranged st (random cursor) d) as (G1 & G2 & _).
    repeat split; [now constructor | simpl; congruence | lia].
Qed.

Lemma adjustDecisions_returns (st : CountryStats)
    (random : RegionalEconomySimulator.Draws) (cursor : nat)
    (ds : list PolicyDecision.t) :
  exists adjusted cursor',
    App.adjustDecisions (Some st) random cursor ds = Return (adjusted, cursor').
Proof.
  revert cursor. induction ds as [|d ds IH]; intros cursor; simpl; [eauto|].
  destruct (IH (S cursor)) as (a & c & ->). simpl. eauto.
Qed.

Lemma simulateFrom_keys (defaults : list PolicyDecision.t) (countries : list string)
    (player : string) (states : JSObject.t CountryStats)
    (acd : JSObject.t (list PolicyDecision.t)) (decisions : list PolicyDecision.t)
    (random : RegionalEconomySimulator.Draws) (cursor : nat)
    (acc upd : JSObject.t (list PolicyDecision.t)) (cursor' : nat) :
  App.simulateFrom defaults countries player states acd decisions random cursor acc
  = Return (upd, cursor') ->
  forall name, JSObject.has upd name
               = existsb (String.eqb name) countries || JSObject.has acc name.
Proof.
  revert cursor acc.
  induction countries as [|name rest IH]; intros cursor acc; simpl.
  - intros [= <- <-]. reflexivity.
  - destruct (String.eqb name player) eqn:Ep; simpl.
    + intros H n. rewrite (IH _ _ H), JSObject_has_set, (String.eqb_sym n name).
      destruct (existsb _ rest), (String.eqb name n); reflexivity.
    + destruct (App.adjustDecisions _ _ _ _) as [[ad c1]|] eqn:Ea; [|discriminate].
      simpl. intros H n.
      rewrite (IH _ _ H), JSObject_has_set, (String.eqb_sym n name).
      destruct (existsb _ rest), (String.eqb name n); reflexivity.
Qed.

Lemma simulateFrom_player (defaults : list PolicyDecision.t) (countries : list string)
    (player : string) (states : JSObject.t CountryStats)
    (acd : JSObject.t (list PolicyDecision.t)) (decisions : list PolicyDecision.t)
    (random : RegionalEconomySimulator.Draws) (cursor : nat)
    (acc upd : JSObject.t (list PolicyDecision.t)) (cursor' : nat) :
  App.simulateFrom defaults countries player states acd decisions random cursor acc
  = Return (upd, cursor') ->
  In player countries \/ JSObject.get acc player = Some decisions ->
  JSObject.get upd player = Some decisions.
Proof.
  revert cursor acc.
  induction countries as [|name rest IH]; intros cursor acc; simpl.
  - intros [= <- <-] [[]|H]. exact H.
  - destruct (String.eqb name player) eqn:Ep; simpl.
    + apply String.eqb_eq in Ep. subst name. intros H _.
      apply IH in H; [exact H|]. right.
      now rewrite JSObject_get_set, String.eqb_refl.
    + destruct (App.adjustDecisions _ _ _ _) as [[ad c1]|] eqn:Ea; [|discriminate].
      simpl. intros H Hor. apply IH in H; [exact H|].
      destruct Hor as [[Heq|Hin]|Hacc].
      * subst name. now rewrite String.eqb_refl in Ep.
      * now left.
      * right. now rewrite JSObject_get_set, Ep.
Qed.

Lemma simulateFrom_others (defaults : list PolicyDecision.t) (countries : list string)
    (player : string) (states : JSObject.t CountryStats)
    (acd : JSObject.t (list PolicyDecision.t)) (decisions : list PolicyDecision.t)
    (random : RegionalEconomySimulator.Draws) (cursor : nat)
    (acc upd : JSObject.t (list PolicyDecision.t)) (cursor' : nat) :
  App.simulateFrom defaults countries player states acd decisions random cursor acc
  = Return (upd, cursor') ->
  (forall name ds, JSObject.get acc name = Some ds -> name <> player ->
                   Forall well_ranged ds) ->
  forall name ds, JSObject.get upd name = Some ds -> name <> player ->
                  Forall well_ranged ds.
Proof.
  revert cursor acc.
  induction countries as [|n0 cs IH]; intros cursor acc; simpl.
  - intros [= <- <-] Hacc. exact Hacc.
  - destruct (String.eqb n0 player) eqn:Ep; simpl.
    + apply String.eqb_eq in Ep. subst n0. intros H Hacc. eapply IH; [exact H|].
      intros n l. rewrite JSObject_get_set.
      destruct (String.eqb player n) eqn:E; [|apply Hacc].
      apply String.eqb_eq in E. subst n. intros _ Hc. now contradiction Hc.
    + destruct (App.adjustDecisions _ _ _ _) as [[ad c1]|] eqn:Ea; [|discriminate].
      simpl. intros H Hacc. eapply IH; [exact H|].
      apply adjustDecisions_ranged in Ea as (Hr & _ & _).
      intros n l. rewrite JSObject_get_set.
      destruct (String.eqb n0 n); [now intros [= <-] | apply Hacc].
Qed.

Lemma simulateFrom_returns (defaults : list PolicyDecision.t) (countries : list string)
    (player : string) (states : JSObject.t CountryStats)
    (acd : JSObject.t (list PolicyDecision.t)) (decisions : list PolicyDecision.t)
    (random : RegionalEconomySimulator.Draws) (cursor : nat)
    (acc : JSObject.t (list PolicyDecision.t)) :
  (forall name, In name countries -> name <> player ->
                JSObject.get states name <> None) ->
  exists upd cursor',
    App.simulateFrom defaults countries player states acd decisions random cursor acc
    = Return (upd, cursor').
Proof.
  revert cursor acc.
  induction countries as [|name rest IH]; intros cursor acc Hst; simpl; [eauto|].
  destruct (String.eqb name player) eqn:Ep; simpl.
  - apply IH. intros n Hn. apply Hst. now right.
  - destruct (JSObject.get states name) as [st|] eqn:Es.
    + destruct (adjustDecisions_returns st random cursor
                  (default defaults (JSObject.get acd name))) as (a & c & ->).
      simpl. apply IH. intros n Hn. apply Hst. now right.
    + exfalso. apply (Hst name); [now left | | exact Es].
      intros ->. now rewrite String.eqb_refl in Ep.
Qed.

(** [simulateAIDecisions]: when every other country of the roster than the
    player's has a state, the call returns; the object it returns has the
    countries of the roster as its keys and no other, holds the decisions of
    the player as they are, and for every other country decisions whose
    values lie within their bounds (for bounds that are in order). *)
Theorem simulateAIDecisions_in_range
    (roster : list string) (defaultPolicyDecisions : list PolicyDecision.t)
    (playerCountry : string) (states : JSObject.t CountryStats)
    (allCountriesDecisions : JSObject.t (list PolicyDecision.t))
    (decisions : list PolicyDecision.t)
    (random : RegionalEconomySimulator.Draws) (cursor : nat) :
  (forall name, In name roster -> name <> playerCountry ->
                JSObject.get states name <> None) ->
  exists updatedDecisions cursor',
    App.simulateAIDecisions roster defaultPolicyDecisions playerCountry states
      allCountriesDecisions decisions random cursor
    = Return (updatedDecisions, cursor')
    /\ (forall name,
          JSObject.has updatedDecisions name = existsb (String.eqb name) roster)
    /\ (In playerCountry roster ->
        JSObject.get updatedDecisions playerCountry = Some decisions)
    /\ (forall name ds, JSObject.get updatedDecisions name = Some ds ->
          name <> playerCountry -> Forall well_ranged ds).
Proof.
  unfold App.simulateAIDecisions. intros Hst.
  destruct (simulateFrom_returns defaultPolicyDecisions roster playerCountry states
              allCountriesDecisions decisions random cursor [] Hst) as (upd & c & H).
  exists upd, c. split; [exact H|]. split; [|split].
  - intros name. rewrite (simulateFrom_keys _ _ _ _ _ _ _ _ _ _ _ H). apply orb_false_r.
  - intros Hin. eapply simulateFrom_player; [exact H | now left].
  - eapply simulateFrom_others; [exact H|]. intros n l Hn. discriminate Hn.
Qed.

Lemma simulateAIDecisions_in_range_witness :
  exists updatedDecisions cursor',
    App.simulateAIDecisions ["India"; "Nepal"] two_tariffs "India" nepal_only []
      two_tariffs even_draws 0
    = Return (updatedDecisions, cursor')
    /\ (forall name,
          JSObject.has updatedDecisions name
          = existsb (String.eqb name) ["India"; "Nepal"])
    /\ (In "India" ["India"; "Nepal"] ->
        JSObject.get updatedDecisions "India" = Some two_tariffs)
    /\ (forall name ds, JSObject.get updatedDecisions name = Some ds ->
          name <> "India" -> Forall well_ranged ds).
Proof.
  apply (simulateAIDecisions_in_range ["India"; "Nepal"] two_tariffs "India"
           nepal_only [] two_tariffs even_draws 0).
  intros name [<-|[<-|[]]] Hne; [now contradiction Hne | discriminate].
Defined.

(** ** A year of the game *)

Lemma countryEventEffects_untargeted (regionalEvents : list RegionalEvent.t)
    (countryName : string) (acc : JSObject.t Q) :
  Forall (fun event => ~ In countryName (RegionalEvent.targetCountries event))
    regionalEvents ->
  fold_left (fun countryEventEffects event =>
      if existsb (String.eqb countryName) (RegionalEvent.targetCountries event) then
        fold_left (fun countryEventEffects entry =>
            JSObject.set countryEventEffects (fst entry)
              (JS.opt_or_else (JSObject.get countryEventEffects (fst entry)) 0
               + snd entry))
          (RegionalEvent.effects event) countryEventEffects
      else countryEventEffects)
    regionalEvents acc = acc.
Proof.
  intros H. revert acc. induction H as [|event rest Hev _ IH]; intros acc; simpl.
  - reflexivity.
  - destruct (existsb _ _) eqn:E; [|apply IH].
    exfalso. apply Hev. apply existsb_exists in E as (x & Hx & Hxe).
    apply String.eqb_eq in Hxe. now subst x.
Qed.

(** An event touches only the countries it targets: a country that no event
    of the year targets gets no event effect, and its next state is the one
    of a year without events. *)
Theorem events_spare_other_countries
    (gameYear : Z) (currentStats : CountryStats)
    (updatedDecisions : JSObject.t (list PolicyDecision.t))
    (spilloversByCountry : gmap string (list PolicySpillover.t))
    (regionalEvents : list RegionalEvent.t) (countryName : string) (random : Q) :
  Forall (fun event => ~ In countryName (RegionalEvent.targetCountries event))
    regionalEvents ->
  App.countryEventEffects regionalEvents countryName = []
  /\ App.updateCountry gameYear currentStats updatedDecisions spilloversByCountry
       regionalEvents countryName random
     = App.updateCountry gameYear currentStats updatedDecisions spilloversByCountry
         [] countryName random.
Proof.
  intros H.
  assert (E : App.countryEventEffects regionalEvents countryName = [])
    by (apply countryEventEffects_untargeted, H).
  split; [exact E|]. unfold App.updateCountry. now rewrite E.
Qed.

Lemma events_spare_other_countries_witness :
  App.countryEventEffects [border_flare] "Nepal" = []
  /\ App.updateCountry 2023 sample_stats [] ∅ [border_flare] "Nepal" 0.5
     = App.updateCountry 2023 sample_stats [] ∅ [] "Nepal" 0.5.
Proof.
  apply (events_spare_other_countries 2023 sample_stats [] ∅ [border_flare] "Nepal" 0.5).
  constructor; [|constructor].
  simpl. intros [H|[H|[]]]; discriminate H.
Defined.

Lemma within_bounds_year (s : CountryStats) (y : Q) :
  within_bounds s -> within_bounds (s |> assign year y).
Proof. unfold within_bounds. cbn. tauto. Qed.

Lemma updateCountry_within (gameYear : Z) (currentStats : CountryStats)
    (updatedDecisions : JSObject.t (list PolicyDecision.t))
    (spilloversByCountry : gmap string (list PolicySpillover.t))
    (regionalEvents : list RegionalEvent.t) (countryName : string) (random : Q) :
  let newStats := App.updateCountry gameYear currentStats updatedDecisions
                    spilloversByCountry regionalEvents countryName random in
  within_bounds newStats
  /\ newStats.[year] = inject_Z (gameYear + 1).
Proof.
  unfold App.updateCountry. cbv zeta. split.
  - unfold PolicySimulator.applyPolicyEffects.
    apply within_bounds_year, persistDecisions_outcomes, applyBounds_within.
  - reflexivity.
Qed.

Lemma updateCountries_spec (gameYear : Z) (countries : JSObject.t CountryStats)
    (updatedDecisions : JSObject.t (list PolicyDecision.t))
    (spilloversByCountry : gmap string (list PolicySpillover.t))
    (regionalEvents : list RegionalEvent.t)
    (random : RegionalEconomySimulator.Draws) (cursor : nat)
    (acc : JSObject.t CountryStats) (P : CountryStats -> Prop) :
  (forall currentStats countryName r,
     P (App.updateCountry gameYear currentStats updatedDecisions
          spilloversByCountry regionalEvents countryName r)) ->
  let result := App.updateCountries gameYear countries updatedDecisions
                  spilloversByCountry regionalEvents random cursor acc in
  (forall name st, JSObject.get acc name = Some st -> P st) ->
  (forall name st, JSObject.get (fst result) name = Some st -> P st)
  /\ (forall name, JSObject.has (fst result) name
                   = JSObject.has countries name || JSObject.has acc name)
  /\ snd result = (cursor + length countries)%nat.
Proof.
  intros HP. cbv zeta. revert cursor acc.
  induction countries as [|[n0 s0] rest IH]; intros cursor acc Hacc; simpl.
  - repeat split; [exact Hacc | lia].
  - match goal with |- context [JSObject.set acc n0 ?v] => set (new := v) end.
    destruct (IH (S cursor) (JSObject.set acc n0 new)) as (H1 & H2 & H3).
    { intros name st. rewrite JSObject_get_set.
      destruct (String.eqb n0 name); [|apply Hacc].
      intros [= <-]. apply HP. }
    split; [exact H1|]. split; [|rewrite H3; lia].
    intros name. rewrite H2, JSObject_has_set. unfold JSObject.has. simpl.
    destruct (String.eqb n0 name), (existsb _ rest); reflexivity.
Qed.

(** Step 6 of a year: the new [countries] object has the same countries as
    the old one; every state in it has its bounded indicators inside
    their intervals and carries the next year; the step draws once per
    country. *)
Theorem updateCountries_year
    (gameYear : Z) (countries : JSObject.t CountryStats)
    (updatedDecisions : JSObject.t (list PolicyDecision.t))
    (spilloversByCountry : gmap string (list PolicySpillover.t))
    (regionalEvents : list RegionalEvent.t)
    (random : RegionalEconomySimulator.Draws) (cursor : nat) :
  let result := App.updateCountries gameYear countries updatedDecisions
                  spilloversByCountry regionalEvents random cursor [] in
  (forall name, JSObject.has (fst result) name = JSObject.has countries name)
  /\ (forall name newStats, JSObject.get (fst result) name = Some newStats ->
        within_bounds newStats /\ newStats.[year] = inject_Z (gameYear + 1))
  /\ snd result = (cursor + length countries)%nat.
Proof.
  cbv zeta.
  destruct (updateCountries_spec gameYear countries updatedDecisions
              spilloversByCountry regionalEvents random cursor []
              (fun s => within_bounds s /\ s.[year] = inject_Z (gameYear + 1)))
    as (H1 & H2 & H3).
  - intros st n r.
    destruct (updateCountry_within gameYear st updatedDecisions spilloversByCountry
                regionalEvents n r) as (Ha & Hb).
    split; assumption.
  - intros name st H. discriminate H.
  - split; [|split; [exact H1 | exact H3]].
    intros name. rewrite H2. apply orb_false_r.
Qed.

(** ** The events of a game *)

Lemma generateRegionalEvents_fresh (roster : list string)
    (Array_sort : RegionalEconomySimulator.Sorter)
    (random : RegionalEconomySimulator.Draws) (cursor : nat)
    (year : Z) (coop : Q) (history : list RegionalEvent.t) (e : RegionalEvent.t) :
  (forall (A : Type) (cmp : RegionalEconomySimulator.Comparator A) (l : list A)
          (c : nat) (x : A),
     In x (fst (Array_sort A cmp l c)) -> In x l) ->
  In e (fst (RegionalEconomySimulator.generateRegionalEvents roster Array_sort
               random cursor year coop history)) ->
  In (RegionalEvent.id e) uniqueIds ->
  ~ In (RegionalEvent.id e) (List.map RegionalEvent.id history).
Proof.
  intros Hkeep. unfold RegionalEconomySimulator.generateRegionalEvents.
  destruct (RegionalEconomySimulator.gateClosed _); [intros []|].
  now apply eventCheck_fresh.
Qed.

Lemma generateRegionalEvents_short (roster : list string)
    (Array_sort : RegionalEconomySimulator.Sorter)
    (random : RegionalEconomySimulator.Draws) (cursor : nat)
    (year : Z) (coop : Q) (history : list RegionalEvent.t) :
  (length (fst (RegionalEconomySimulator.generateRegionalEvents roster Array_sort
                  random cursor year coop history)) <= 1)%nat.
Proof.
  pose proof (generateRegionalEvents_cases roster Array_sort random cursor year
                coop history) as Hcases.
  cbv zeta in Hcases.
  destruct Hcases as [-> | [[-> _] | (event & k & -> & _)]]; simpl; lia.
Qed.

Lemma onceOnly_year (roster : list string)
    (Array_sort : RegionalEconomySimulator.Sorter)
    (random : RegionalEconomySimulator.Draws) (cursor : nat)
    (year : Z) (coop : Q) (history : list RegionalEvent.t) :
  (forall (A : Type) (cmp : RegionalEconomySimulator.Comparator A) (l : list A)
          (c : nat) (x : A),
     In x (fst (Array_sort A cmp l c)) -> In x l) ->
  onceOnly history ->
  onceOnly (history ++ fst (RegionalEconomySimulator.generateRegionalEvents roster
                              Array_sort random cursor year coop history)).
Proof.
  intros Hkeep Hh.
  pose proof (generateRegionalEvents_short roster Array_sort random cursor year
                coop history) as Hlen.
  pose proof (fun e => generateRegionalEvents_fresh roster Array_sort random cursor
                         year coop history e Hkeep) as Hfresh.
  destruct (fst (RegionalEconomySimulator.generateRegionalEvents _ _ _ _ _ _ _))
    as [|e [|e' rest]]; [now rewrite app_nil_r | | simpl in Hlen; lia].
  unfold onceOnly in *. rewrite List.map_app, List.filter_app.
  cbn [List.map List.filter].
  destruct (existsb (String.eqb (RegionalEvent.id e)) uniqueIds) eqn:E;
    [|now rewrite app_nil_r].
  assert (Hu : In (RegionalEvent.id e) uniqueIds).
  { apply existsb_exists in E as (x & Hx & Hxe).
    apply String.eqb_eq in Hxe. now subst x. }
  specialize (Hfresh e (or_introl eq_refl) Hu).
  apply NoDup_ListNoDup. apply NoDup_ListNoDup in Hh.
  apply List.NoDup_app; [exact Hh | repeat constructor; intros [] |].
  intros id Hid [<-|[]]. apply Hfresh. now apply filter_In in Hid as [Hid _].
Qed.

(** Over a whole game an event flagged unique occurs at most once: the
    history that [handleNextYear] builds year after year, whatever the
    years, the cooperation averages and the draws, never holds a unique
    event twice if it did not at the start. *)
Theorem unique_events_once_per_game
    (roster : list string) (Array_sort : RegionalEconomySimulator.Sorter)
    (years : list (Z * Q * RegionalEconomySimulator.Draws * nat))
    (history : list RegionalEvent.t) :
  (forall (A : Type) (cmp : RegionalEconomySimulator.Comparator A) (l : list A)
          (c : nat) (x : A),
     In x (fst (Array_sort A cmp l c)) -> In x l) ->
  onceOnly history ->
  onceOnly (App.regionalEventsAfter roster Array_sort years history).
Proof.
  intros Hkeep. unfold App.regionalEventsAfter. revert history.
  induction years as [|[[[y coop] random] cursor] rest IH]; intros history Hh; simpl.
  - exact Hh.
  - apply IH. now apply onceOnly_year.
Qed.

Lemma unique_events_once_per_game_witness :
  onceOnly (App.regionalEventsAfter south_asia RegionalEconomySimulator.insertionSort
              boom_years [past_boom]).
Proof.
  apply (unique_events_once_per_game south_asia RegionalEconomySimulator.insertionSort
           boom_years [past_boom] insertionSort_keeps).
  unfold onceOnly. vm_compute. repeat constructor. intros H. inversion H.
Defined.

Lemma updateCountries_year_witness :
  match JSObject.get
          (fst (App.updateCountries 2023 nepal_only [] ∅ [border_flare] even_draws 0 []))
          "Nepal" with
  | Some newStats => within_bounds newStats /\ newStats.[year] = inject_Z 2024
  | None => False
  end.
Proof.
  pose proof (updateCountries_year 2023 nepal_only [] ∅ [border_flare] even_draws 0)
    as H.
  cbv zeta in H. destruct H as (_ & H & _). specialize (H "Nepal").
  destruct (JSObject.get _ "Nepal") as [newStats|] eqn:E.
  - exact (H newStats eq_refl).
  - vm_compute in E. discriminate E.
Defined.

(** ** Detailed spillovers *)

Lemma prefix_app (sub rest : string) : String.prefix sub (sub ++ rest) = true.
Proof.
  induction sub as [|c sub IH]; simpl; [now destruct rest|].
  destruct (Ascii.ascii_dec c c) as [_|Hne]; [exact IH | now contradiction Hne].
Qed.

Lemma includes_here (sub rest : string) : JSString.includes (sub ++ rest) sub = true.
Proof.
  assert (U : forall s, JSString.includes s sub
                        = String.prefix sub s
                          || match s with
                             | EmptyString => false
                             | String _ rest => JSString.includes rest sub
                             end) by (intros []; reflexivity).
  now rewrite U, prefix_app.
Qed.

Lemma includes_skip (before s sub : string) :
  JSString.includes s sub = true -> JSString.includes (before ++ s) sub = true.
Proof.
  intros H. induction before as [|c before IH]; simpl; [exact H|].
  rewrite IH. apply orb_true_r.
Qed.

Ltac find_name :=
  repeat first [ apply includes_here | apply includes_skip ].

(** Whatever the category, the product and the sign, the description that
    [generateSpilloverDescription] writes names the source country and the
    target country. *)
Theorem description_names_both_countries
    (sourceCountry targetCountry policyCategory : string)
    (product : option string) (isPositive : bool) :
  let description :=
    RegionalEconomySimulator.generateSpilloverDescription sourceCountry targetCountry
      policyCategory product isPositive in
  JSString.includes description sourceCountry = true
  /\ JSString.includes description targetCountry = true.
Proof.
  cbv zeta.
  assert (Hc : forall cat,
    JSString.includes
      (RegionalEconomySimulator.categoryDescription sourceCountry targetCountry
         cat isPositive) sourceCountry = true
    /\ JSString.includes
         (RegionalEconomySimulator.categoryDescription sourceCountry targetCountry
            cat isPositive) targetCountry = true).
  { intros cat. unfold RegionalEconomySimulator.categoryDescription.
    repeat match goal with |- context [if String.eqb cat ?k then _ else _] =>
      destruct (String.eqb cat k) end;
    (split; find_name). }
  unfold RegionalEconomySimulator.generateSpilloverDescription.
  destruct product as [product|]; [|apply Hc].
  destruct (negb (String.eqb product "")); [|apply Hc].
  unfold RegionalEconomySimulator.productDescription. cbv zeta.
  repeat match goal with
    | |- context [if RegionalEconomySimulator.includesAny ?t ?w then _ else _] =>
        destruct (RegionalEconomySimulator.includesAny t w)
    | |- context [if JSString.includes ?t ?w then _ else _] =>
        destruct (JSString.includes t w)
    end;
  (split; find_name).
Qed.

Lemma significant_true (m : Q) :
  JS.gt (JS.Math_abs m) 0.01 = true -> m < -0.01 \/ 0.01 < m.
Proof.
  intros H. apply JS_gt_true in H.
  destruct (Math_abs_cases m) as [[Hm E]|[Hm E]]; rewrite E in H; [right|left]; lra.
Qed.

Lemma significant_zero (m : Q) : m == 0 -> JS.gt (JS.Math_abs m) 0.01 = false.
Proof.
  intros H. unfold JS.gt. apply JS_lt_false.
  destruct (Math_abs_cases m) as [[Hm E]|[Hm E]]; rewrite E; lra.
Qed.

Ltac read_detailed :=
  cbn [DetailedSpillover.sourceCountry DetailedSpillover.targetCountry
       DetailedSpillover.magnitude DetailedSpillover.tradeProducts
       DetailedSpillover.sector DetailedSpillover.confidence
       DetailedSpillover.policyCategory].

Lemma productSpillover_shape (src : string) (pc : JSObject.t Q)
    (trade : TradeRelationship.t) (stats : CountryStats) (product : string) :
  Forall (detailed_shape src pc trade)
    (RegionalEconomySimulator.productSpillover src (partnerOf src trade) pc
       (TradeRelationship.tradeVolume trade) stats product).
Proof.
  unfold RegionalEconomySimulator.productSpillover.
  destruct (RegionalEconomySimulator.isPolicyRelevantToProduct pc product) eqn:Er;
    [|constructor].
  cbv zeta. destruct (JS.gt _ 0.01) eqn:Es; [|constructor].
  constructor; [|constructor]. unfold detailed_shape. read_detailed.
  split; [reflexivity|]. split; [reflexivity|].
  split; [now apply significant_true|].
  left. exists product. repeat split. exact Er.
Qed.

Lemma calculateGeneralSpillover_types (policyType : string) (newValue tradeVolume : Q)
    (stats : CountryStats) :
  In policyType generalPolicyTypes
  \/ RegionalEconomySimulator.calculateGeneralSpillover policyType newValue
       tradeVolume stats = 0.
Proof.
  unfold RegionalEconomySimulator.calculateGeneralSpillover, generalPolicyTypes.
  cbv zeta.
  repeat match goal with |- context [if String.eqb policyType ?k then _ else _] =>
    let E := fresh "E" in
    destruct (String.eqb policyType k) eqn:E;
    [apply String.eqb_eq in E; left; rewrite E; simpl; tauto|] end.
  now right.
Qed.

Lemma generalSpillover_shape (src : string) (pc : JSObject.t Q)
    (trade : TradeRelationship.t) (stats : CountryStats) (entry : string * Q) :
  In entry pc ->
  Forall (detailed_shape src pc trade)
    (RegionalEconomySimulator.generalSpillover src (partnerOf src trade)
       (TradeRelationship.tradeVolume trade) stats entry).
Proof.
  intros Hin. unfold RegionalEconomySimulator.generalSpillover.
  destruct entry as [policyType change].
  destruct (JS.gt (JS.Math_abs change) 0.1) eqn:Ec; [|constructor].
  cbv zeta. destruct (JS.gt _ 0.01) eqn:Es; [|constructor].
  constructor; [|constructor]. unfold detailed_shape. read_detailed.
  split; [reflexivity|]. split; [reflexivity|].
  split; [now apply significant_true|].
  right. split; [reflexivity|]. split; [reflexivity|]. split.
  - destruct (calculateGeneralSpillover_types policyType change
                (TradeRelationship.tradeVolume trade) stats) as [H|H]; [exact H|].
    rewrite H in Es. discriminate Es.
  - split; [|reflexivity]. exists change. split; [exact Hin|].
    apply JS_gt_true in Ec.
    destruct (Math_abs_cases change) as [[Hm E]|[Hm E]]; rewrite E in Ec;
      [right|left]; lra.
Qed.

Lemma edgeDetailedSpillovers_shape (data : TradeProductsLoader.State) (src : string)
    (pc : JSObject.t Q) (stats : CountryStats) (trade : TradeRelationship.t)
    (pushed : list DetailedSpillover.t) :
  RegionalEconomySimulator.edgeDetailedSpillovers data src pc stats trade
  = Return pushed ->
  Forall (detailed_shape src pc trade) pushed.
Proof.
  unfold RegionalEconomySimulator.edgeDetailedSpillovers. cbv zeta.
  fold (partnerOf src trade).
  destruct (TradeProductsLoader.getMainTradeProducts data src (partnerOf src trade))
    as [products|]; [|discriminate].
  simpl. intros [= <-]. apply List.Forall_app. split.
  - apply List.Forall_flat_map, List.Forall_forall. intros product _.
    apply productSpillover_shape.
  - apply List.Forall_flat_map, List.Forall_forall. intros entry Hin.
    now apply generalSpillover_shape.
Qed.

Lemma collectDetailed_shape (data : TradeProductsLoader.State) (src : string)
    (pc : JSObject.t Q) (stats : CountryStats) (edges : list TradeRelationship.t)
    (l : list DetailedSpillover.t) :
  RegionalEconomySimulator.collectDetailed data src pc stats edges = Return l ->
  Forall (fun s => exists trade, In trade edges /\ detailed_shape src pc trade s) l.
Proof.
  revert l. induction edges as [|trade rest IH]; intros l; simpl.
  - intros [= <-]. constructor.
  - destruct (RegionalEconomySimulator.edgeDetailedSpillovers data src pc stats trade)
      as [pushed|] eqn:Ee; [|discriminate]. simpl.
    destruct (RegionalEconomySimulator.collectDetailed data src pc stats rest)
      as [others|]; [|discriminate]. simpl.
    intros [= <-]. apply List.Forall_app. split.
    + apply edgeDetailedSpillovers_shape in Ee.
      eapply List.Forall_impl; [|exact Ee].
      intros s Hs. exists trade. split; [now left | exact Hs].
    + eapply List.Forall_impl; [|exact (IH others eq_refl)].
      intros s (t & Ht & Hs). exists t. split; [now right | exact Hs].
Qed.

(** Every detailed spillover that [calculateDetailedSpillovers] returns
    comes from the source country, goes to the other end of one of its
    trade edges, and has a magnitude beyond 0.01 in absolute value.  It is
    either a product spillover (one product that a changed policy is
    relevant to, with its sector, confidence 0.8) or a general one (no
    product and no sector, confidence 0.7), and a general one only arises
    for a policy of type infrastructure, education, health, trade or
    environment whose value is beyond 0.1 in absolute value. *)
Theorem calculateDetailedSpillovers_shape
    (tradeProductsData : TradeProductsLoader.State) (sourceCountry : string)
    (policyChanges : JSObject.t Q) (tradeMatrix : list TradeRelationship.t)
    (sourceCountryStats : CountryStats) (detailedSpillovers : list DetailedSpillover.t) :
  RegionalEconomySimulator.calculateDetailedSpillovers tradeProductsData
    sourceCountry policyChanges tradeMatrix sourceCountryStats
  = Return detailedSpillovers ->
  forall s : DetailedSpillover.t, In s detailedSpillovers ->
    exists trade : TradeRelationship.t,
      In trade tradeMatrix
      /\ (TradeRelationship.from trade = sourceCountry
          \/ TradeRelationship.to trade = sourceCountry)
      /\ detailed_shape sourceCountry policyChanges trade s.
Proof.
  unfold RegionalEconomySimulator.calculateDetailedSpillovers. intros H s Hs.
  apply collectDetailed_shape in H.
  apply (proj1 (List.Forall_forall _ _) H) in Hs as (trade & Ht & Hshape).
  exists trade. unfold RegionalEconomySimulator.tradingPartners in Ht.
  apply filter_In in Ht as [Ht Hends]. split; [exact Ht|]. split; [|exact Hshape].
  apply orb_true_iff in Hends as [E|E]; apply String.eqb_eq in E; tauto.
Qed.

Lemma calculateDetailedSpillovers_shape_witness :
  (0 < length delta_spillovers)%nat
  /\ Forall (fun s => exists trade : TradeRelationship.t,
               In trade [padma_edge]
               /\ (TradeRelationship.from trade = "India"
                   \/ TradeRelationship.to trade = "India")
               /\ detailed_shape "India" reform_package trade s)
       delta_spillovers.
Proof.
  split; [vm_compute; lia|].
  apply List.Forall_forall. intros s Hs.
  apply (calculateDetailedSpillovers_shape (Some delta_products) "India"
           reform_package [padma_edge] sample_stats delta_spillovers);
    [vm_compute; reflexivity | exact Hs].
Defined.

Lemma calculateProductSpillover_no_volume (pc : JSObject.t Q) (product : string)
    (tradeVolume : Q) (stats : CountryStats) :
  tradeVolume == 0 ->
  RegionalEconomySimulator.calculateProductSpillover pc product tradeVolume stats == 0.
Proof.
  intros Hv. unfold RegionalEconomySimulator.calculateProductSpillover. cbv zeta.
  assert (Hb : tradeVolume / 100 == 0) by (rewrite Hv; reflexivity).
  repeat match goal with
    | |- context [if RegionalEconomySimulator.includesAny ?t ?w then _ else _] =>
        destruct (RegionalEconomySimulator.includesAny t w)
    end;
  rewrite Hb; ring.
Qed.

Lemma calculateGeneralSpillover_no_volume (policyType : string)
    (newValue tradeVolume : Q) (stats : CountryStats) :
  tradeVolume == 0 ->
  RegionalEconomySimulator.calculateGeneralSpillover policyType newValue
    tradeVolume stats == 0.
Proof.
  intros Hv. unfold RegionalEconomySimulator.calculateGeneralSpillover. cbv zeta.
  assert (Hb : tradeVolume / 100 == 0) by (rewrite Hv; reflexivity).
  repeat match goal with |- context [if String.eqb policyType ?k then _ else _] =>
    destruct (String.eqb policyType k) end;
  try rewrite Hb; ring.
Qed.

Lemma flat_map_nil {A B : Type} (f : A -> list B) (l : list A) :
  (forall x, f x = []) -> flat_map f l = [].
Proof. intros H. induction l as [|x l IH]; simpl; [reflexivity|]. now rewrite H, IH. Qed.

Lemma edgeDetailedSpillovers_no_volume (data : TradeProductsLoader.TradeProductsData.t)
    (src : string) (pc : JSObject.t Q) (stats : CountryStats)
    (trade : TradeRelationship.t) :
  TradeRelationship.tradeVolume trade == 0 ->
  RegionalEconomySimulator.edgeDetailedSpillovers (Some data) src pc stats trade
  = Return [].
Proof.
  intros Hv. unfold RegionalEconomySimulator.edgeDetailedSpillovers. cbv zeta.
  cbn [TradeProductsLoader.getMainTradeProducts TradeProductsLoader.getImportProducts
       TradeProductsLoader.getExportProducts
       TradeProductsLoader.getBilateralTradeProducts andThen
       TradeProductsLoader.MainTradeProducts.total].
  f_equal. rewrite !flat_map_nil; [reflexivity | |].
  - intros [policyType change]. unfold RegionalEconomySimulator.generalSpillover.
    destruct (JS.gt (JS.Math_abs change) 0.1); [|reflexivity]. cbv zeta.
    now rewrite significant_zero by now apply calculateGeneralSpillover_no_volume.
  - intros product. unfold RegionalEconomySimulator.productSpillover.
    destruct (RegionalEconomySimulator.isPolicyRelevantToProduct pc product);
      [|reflexivity]. cbv zeta.
    now rewrite significant_zero by now apply calculateProductSpillover_no_volume.
Qed.

Lemma collectDetailed_no_volume (data : TradeProductsLoader.TradeProductsData.t)
    (src : string) (pc : JSObject.t Q) (stats : CountryStats)
    (edges : list TradeRelationship.t) :
  Forall (fun t => TradeRelationship.tradeVolume t == 0) edges ->
  RegionalEconomySimulator.collectDetailed (Some data) src pc stats edges = Return [].
Proof.
  intros H. induction H as [|t rest Ht _ IH]; [reflexivity|].
  cbn [RegionalEconomySimulator.collectDetailed].
  rewrite edgeDetailedSpillovers_no_volume by exact Ht.
  cbn [andThen]. now rewrite IH.
Qed.

Lemma collectDetailed_not_loaded (src : string) (pc : JSObject.t Q)
    (stats : CountryStats) (edges : list TradeRelationship.t) :
  RegionalEconomySimulator.collectDetailed None src pc stats edges
  = match edges with
    | [] => Return []
    | _ :: _ =>
        Throw "Trade products data not loaded. Call loadTradeProductsData() first."
    end.
Proof. destruct edges; reflexivity. Qed.

(** [calculateDetailedSpillovers] needs the trade-products table only for
    a country that trades: before the table is loaded the call throws the
    loader's error as soon as the source country is on an edge of the
    matrix, and returns no spillover for a country on no edge.  Once the
    table is loaded, edges of volume 0 yield no spillover at all. *)
Theorem calculateDetailedSpillovers_edge_cases
    (sourceCountry : string) (policyChanges : JSObject.t Q)
    (tradeMatrix : list TradeRelationship.t) (sourceCountryStats : CountryStats) :
  RegionalEconomySimulator.calculateDetailedSpillovers None sourceCountry
    policyChanges tradeMatrix sourceCountryStats
  = (if existsb (fun t => String.eqb (TradeRelationship.from t) sourceCountry
                          || String.eqb (TradeRelationship.to t) sourceCountry)
          tradeMatrix
     then Throw "Trade products data not loaded. Call loadTradeProductsData() first."
     else Return [])
  /\ forall data : TradeProductsLoader.TradeProductsData.t,
       Forall (fun t => TradeRelationship.tradeVolume t == 0) tradeMatrix ->
       RegionalEconomySimulator.calculateDetailedSpillovers (Some data) sourceCountry
         policyChanges tradeMatrix sourceCountryStats
       = Return [].
Proof.
  unfold RegionalEconomySimulator.calculateDetailedSpillovers,
    RegionalEconomySimulator.tradingPartners. split.
  - rewrite collectDetailed_not_loaded.
    induction tradeMatrix as [|t rest IH]; simpl; [reflexivity|].
    destruct (String.eqb (TradeRelationship.from t) sourceCountry
              || String.eqb (TradeRelationship.to t) sourceCountry); simpl;
      [reflexivity | exact IH].
  - intros data H. apply collectDetailed_no_volume.
    apply List.Forall_forall. intros t Ht. apply filter_In in Ht as [Ht _].
    exact (proj1 (List.Forall_forall _ _) H t Ht).
Qed.

Lemma calculateDetailedSpillovers_edge_cases_witness :
  RegionalEconomySimulator.calculateDetailedSpillovers (Some delta_products) "India"
    reform_package [idle_edge] sample_stats
  = Return [].
Proof.
  apply (proj2 (calculateDetailedSpillovers_edge_cases "India" reform_package
                  [idle_edge] sample_stats) delta_products).
  repeat constructor.
Defined.

(** Without a policy change there is no detailed spillover: on a loaded
    table and an empty [policyChanges], whatever the matrix and the
    products, [calculateDetailedSpillovers] returns the empty list. *)
Theorem calculateDetailedSpillovers_no_policy
    (data : TradeProductsLoader.TradeProductsData.t) (sourceCountry : string)
    (tradeMatrix : list TradeRelationship.t) (sourceCountryStats : CountryStats) :
  RegionalEconomySimulator.calculateDetailedSpillovers (Some data) sourceCountry
    [] tradeMatrix sourceCountryStats
  = Return [].
Proof.
  unfold RegionalEconomySimulator.calculateDetailedSpillovers.
  induction (RegionalEconomySimulator.tradingPartners sourceCountry tradeMatrix)
    as [|trade rest IH]; [reflexivity|].
  cbn [RegionalEconomySimulator.collectDetailed]. rewrite IH.
  assert (E : RegionalEconomySimulator.edgeDetailedSpillovers (Some data) sourceCountry
                [] sourceCountryStats trade = Return []).
  { unfold RegionalEconomySimulator.edgeDetailedSpillovers. cbv zeta.
    cbn [TradeProductsLoader.getMainTradeProducts TradeProductsLoader.getImportProducts
         TradeProductsLoader.getExportProducts
         TradeProductsLoader.getBilateralTradeProducts andThen
         TradeProductsLoader.MainTradeProducts.total flat_map].
    f_equal. rewrite app_nil_r. apply flat_map_nil. intros product.
    unfold RegionalEconomySimulator.productSpillover.
    assert (R : RegionalEconomySimulator.isPolicyRelevantToProduct [] product = false).
    { unfold RegionalEconomySimulator.isPolicyRelevantToProduct. cbv zeta.
      generalize (fold_left
                    (fun relevantPolicies (entry : string * list string) =>
                       if JSString.includes (JSString.toLowerCase product) (fst entry)
                       then (relevantPolicies ++ snd entry)%list else relevantPolicies)
                    RegionalEconomySimulator.productPolicyMap []).
      intros l. induction l as [|x l IHl]; [reflexivity | exact IHl]. }
    now rewrite R. }
  now rewrite E.
Qed.

(** ** The trade-products loader *)

Lemma SetFrom_from (l acc : list string) :
  let result :=
    fold_left (fun set x => if existsb (String.eqb x) set then set else (set ++ [x])%list)
      l acc in
  (List.NoDup acc -> List.NoDup result)
  /\ (forall x, In x result <-> In x acc \/ In x l).
Proof.
  cbv zeta. revert acc. induction l as [|y l IH]; intros acc; simpl.
  - split; [tauto|]. intros x. tauto.
  - destruct (existsb (String.eqb y) acc) eqn:E.
    + destruct (IH acc) as [H1 H2]. split; [exact H1|].
      intros x. rewrite H2. split; [tauto|].
      intros [H|[<-|H]]; [tauto | left | tauto].
      apply existsb_exists in E as (z & Hz & Hyz).
      apply String.eqb_eq in Hyz. now subst z.
    + destruct (IH (acc ++ [y])%list) as [H1 H2]. split.
      * intros Hnd. apply H1. apply List.NoDup_app; [exact Hnd | repeat constructor; intros [] |].
        intros z Hz [<-|[]].
        assert (Hc : existsb (String.eqb y) acc = true)
          by (apply existsb_exists; exists y; split; [exact Hz | apply String.eqb_refl]).
        congruence.
      * intros x. rewrite H2, in_app_iff. simpl. tauto.
Qed.

Lemma SetFrom_spec (l : list string) :
  List.NoDup (SetFrom l) /\ (forall x, In x (SetFrom l) <-> In x l).
Proof.
  unfold SetFrom. destruct (SetFrom_from l []) as [H1 H2].
  split; [apply H1; constructor|]. intros x. rewrite H2. simpl. tauto.
Qed.

(** Once the table is loaded, [getMainTradeProducts] and
    [getAllTradingPartners] return: the [total] of the former lists every
    product that the first country imports from or exports to the second,
    each once; the latter lists every import or export partner of the
    country, each once. *)
Theorem loader_lists_without_repetition
    (data : TradeProductsLoader.TradeProductsData.t) (country1 country2 : string) :
  (exists products : TradeProductsLoader.MainTradeProducts.t,
     TradeProductsLoader.getMainTradeProducts (Some data) country1 country2
     = Return products
     /\ List.NoDup (TradeProductsLoader.MainTradeProducts.total products)
     /\ forall product : string,
          In product (TradeProductsLoader.MainTradeProducts.total products)
          <-> In product (TradeProductsLoader.MainTradeProducts.imports products)
              \/ In product (TradeProductsLoader.MainTradeProducts.exports products))
  /\ (exists partners : list string,
        TradeProductsLoader.getAllTradingPartners (Some data) country1
        = Return partners
        /\ List.NoDup partners
        /\ forall partner : string,
             In partner partners
             <-> (exists table, JSObject.get (TradeProductsLoader.TradeProductsData.imports data)
                                  country1 = Some table
                                /\ JSObject.has table partner = true)
                 \/ (exists table, JSObject.get (TradeProductsLoader.TradeProductsData.exports data)
                                     country1 = Some table
                                   /\ JSObject.has table partner = true)).
Proof.
  assert (Hkeys : forall (table : JSObject.t (list string)) (p : string),
            In p (JSObject.keys table) <-> JSObject.has table p = true).
  { intros table p. unfold JSObject.keys, JSObject.has. rewrite in_map_iff, existsb_exists.
    split.
    - intros (e & <- & He). exists e. split; [exact He | apply String.eqb_refl].
    - intros (e & He & Hp). apply String.eqb_eq in Hp. now exists e. }
  split.
  - eexists. split; [reflexivity|].
    cbn [TradeProductsLoader.MainTradeProducts.total
         TradeProductsLoader.MainTradeProducts.imports
         TradeProductsLoader.MainTradeProducts.exports].
    destruct (SetFrom_spec
                (TradeProductsLoader.productsOf
                   (TradeProductsLoader.TradeProductsData.imports data) country1 country2
                 ++ TradeProductsLoader.productsOf
                      (TradeProductsLoader.TradeProductsData.exports data)
                      country1 country2)) as [H1 H2].
    split; [exact H1|]. intros product. rewrite H2. apply in_app_iff.
  - eexists. split; [reflexivity|].
    match goal with |- List.NoDup (SetFrom ?l) /\ _ =>
      destruct (SetFrom_spec l) as [H1 H2] end.
    split; [exact H1|]. intros partner. rewrite H2, in_app_iff.
    assert (Hopt : forall o : option (JSObject.t (list string)),
              In partner match o with Some t => JSObject.keys t | None => [] end
              <-> exists table, o = Some table /\ JSObject.has table partner = true).
    { intros [t|]; split.
      - intros H. exists t. split; [reflexivity | now apply Hkeys].
      - intros (table & [= <-] & H). now apply Hkeys.
      - intros [].
      - intros (table & H & _). discriminate H. }
    now rewrite !Hopt.
Qed.

(** [getTradeIntensity] on a loaded table: five points per listed product
    (imports and exports of the first country with the second, counted
    with repetition), capped at 100; so it lies in [[0, 100]] and reaches
    100 exactly from twenty listed products on. *)
Theorem getTradeIntensity_scale
    (data : TradeProductsLoader.TradeProductsData.t) (country1 country2 : string) :
  let listed :=
    (length (TradeProductsLoader.productsOf
               (TradeProductsLoader.TradeProductsData.imports data) country1 country2)
     + length (TradeProductsLoader.productsOf
                 (TradeProductsLoader.TradeProductsData.exports data) country1 country2))%nat in
  exists intensity : Q,
    TradeProductsLoader.getTradeIntensity (Some data) country1 country2
    = Return intensity
    /\ 0 <= intensity <= 100
    /\ ((listed < 20)%nat -> intensity == inject_Z (Z.of_nat listed) * 5)
    /\ ((20 <= listed)%nat -> intensity == 100).
Proof.
  cbv zeta. eexists. split; [reflexivity|].
  set (n := (_ + _)%nat).
  assert (Hn : 0 <= inject_Z (Z.of_nat n))
    by (change 0 with (inject_Z 0); rewrite <- Zle_Qle; lia).
  destruct (Math_min_cases 100 (inject_Z (Z.of_nat n) * 5)) as [[H E]|[H E]];
    rewrite E.
  - split; [lra|]. split.
    + intros Hlt. exfalso.
      assert (inject_Z (Z.of_nat n) <= inject_Z 19) by (rewrite <- Zle_Qle; lia).
      change (inject_Z 19) with 19 in *. lra.
    + reflexivity.
  - split; [lra|]. split; [reflexivity|].
    intros Hge.
    assert (inject_Z 20 <= inject_Z (Z.of_nat n)) by (rewrite <- Zle_Qle; lia).
    change (inject_Z 20) with 20 in *. lra.
Qed.

Lemma getTradeIntensity_scale_witness :
  exists intensity : Q,
    TradeProductsLoader.getTradeIntensity (Some delta_products) "India" "Bangladesh"
    = Return intensity
    /\ intensity == 25.
Proof.
  pose proof (getTradeIntensity_scale delta_products "India" "Bangladesh") as H.
  cbv zeta in H. destruct H as (intensity & E & _ & Hlt & _).
  exists intensity. split; [exact E|].
  rewrite Hlt; [vm_compute; reflexivity | vm_compute; lia].
Defined.

(** ** Averages *)

Lemma sum_between {A : Type} (f : A -> Q) (lo hi : Q) (l : list A) (start : Q) :
  Forall (fun x => lo <= f x <= hi) l ->
  start + lo * inject_Z (Z.of_nat (length l))
  <= fold_left (fun sum x => sum + f x) l start
  <= start + hi * inject_Z (Z.of_nat (length l)).
Proof.
  intros H. revert start. induction H as [|x l Hx _ IH]; intros start.
  - cbn [fold_left length]. change (inject_Z (Z.of_nat 0)) with 0. lra.
  - cbn [fold_left length]. specialize (IH (start + f x)).
    rewrite Nat2Z.inj_succ, <- Z.add_1_r, inject_Z_plus.
    change (inject_Z 1) with 1. nra.
Qed.

Lemma average_between {A : Type} (f : A -> Q) (lo hi : Q) (l : list A) :
  l <> [] ->
  Forall (fun x => lo <= f x <= hi) l ->
  lo <= fold_left (fun sum x => sum + f x) l 0 / inject_Z (Z.of_nat (length l)) <= hi.
Proof.
  intros Hne H. pose proof (sum_between f lo hi l 0 H) as [H1 H2].
  assert (Hn : 0 < inject_Z (Z.of_nat (length l))).
  { change 0 with (inject_Z 0). rewrite <- Zlt_Qlt. destruct l; [congruence|simpl; lia]. }
  split.
  - apply Qle_shift_div_l; [exact Hn | lra].
  - apply Qle_shift_div_r; [exact Hn | lra].
Qed.

Lemma average_nonneg {A : Type} (f : A -> Q) (l : list A) :
  l <> [] -> Forall (fun x => 0 <= f x) l ->
  0 <= fold_left (fun sum x => sum + f x) l 0 / inject_Z (Z.of_nat (length l)).
Proof.
  intros Hne H.
  assert (Hsum : forall start, 0 <= start ->
                   0 <= fold_left (fun sum x => sum + f x) l start).
  { clear Hne. induction H as [|x l Hx _ IH]; intros start Hs; [exact Hs|].
    cbn [fold_left]. apply IH. lra. }
  apply Qle_shift_div_l.
  - change 0 with (inject_Z 0). rewrite <- Zlt_Qlt. destruct l; [congruence|simpl; lia].
  - rewrite Qmult_0_l. apply Hsum. lra.
Qed.

Ltac read_tariff :=
  cbn [RegionalEconomySimulator.TariffEffects.poverty_rate
       RegionalEconomySimulator.TariffEffects.gdp_growth
       RegionalEconomySimulator.TariffEffects.unemployment].

Lemma over_hundred (x : Q) : x / 100 == (1 # 100) * x.
Proof. field. Qed.

(** [calculateTariffEffects]: the poverty effect is always 0; a tariff
    above 50 raises unemployment and, for a country whose edges have no
    negative volume, never raises growth; a tariff of at most 50 never
    raises unemployment and never lowers growth.  The growth effect is
    [NaN] exactly for a country on no edge. *)
Theorem calculateTariffEffects_signs
    (country : string) (tariffPolicy : Q) (tradeMatrix : list TradeRelationship.t) :
  Forall (fun t => 0 <= TradeRelationship.tradeVolume t) tradeMatrix ->
  let effects :=
    RegionalEconomySimulator.calculateTariffEffects country tariffPolicy tradeMatrix in
  RegionalEconomySimulator.TariffEffects.poverty_rate effects = 0
  /\ (RegionalEconomySimulator.TariffEffects.gdp_growth effects = None
      <-> RegionalEconomySimulator.tradingPartners country tradeMatrix = [])
  /\ (50 < tariffPolicy ->
      0 < RegionalEconomySimulator.TariffEffects.unemployment effects
      /\ forall g, RegionalEconomySimulator.TariffEffects.gdp_growth effects = Some g ->
                   g <= 0)
  /\ (tariffPolicy <= 50 ->
      RegionalEconomySimulator.TariffEffects.unemployment effects <= 0
      /\ forall g, RegionalEconomySimulator.TariffEffects.gdp_growth effects = Some g ->
                   0 <= g).
Proof.
  intros Hvol. cbv zeta. unfold RegionalEconomySimulator.calculateTariffEffects.
  cbv zeta.
  assert (Hvol' : Forall (fun t => 0 <= TradeRelationship.tradeVolume t)
                    (RegionalEconomySimulator.tradingPartners country tradeMatrix)).
  { apply List.Forall_forall. intros t Ht.
    apply filter_In in Ht as [Ht _].
    exact (proj1 (List.Forall_forall _ _) Hvol t Ht). }
  destruct (RegionalEconomySimulator.tradingPartners country tradeMatrix)
    as [|t rest] eqn:Et.
  - destruct (JS.gt tariffPolicy 50) eqn:Eg; read_tariff; cbn [fmap option_fmap option_map].
    + apply JS_gt_true in Eg.
      repeat split; try discriminate; intros; lra.
    + unfold JS.gt in Eg. apply JS_lt_false in Eg.
      repeat split; try discriminate; intros; lra.
  - pose proof (average_nonneg _ (t :: rest) ltac:(discriminate) Hvol') as Havg.
    revert Havg.
    generalize (fold_left (fun sum t0 => sum + TradeRelationship.tradeVolume t0)
                  (t :: rest) 0 / inject_Z (Z.of_nat (length (t :: rest)))).
    intros avg Havg.
    destruct (JS.gt tariffPolicy 50) eqn:Eg; read_tariff; cbn [fmap option_fmap option_map].
    + apply JS_gt_true in Eg.
      split; [reflexivity|]. split; [split; discriminate|].
      split; [|intros; lra]. intros _. split; [lra|].
      intros g [= <-]. rewrite over_hundred. nra.
    + unfold JS.gt in Eg. apply JS_lt_false in Eg.
      split; [reflexivity|]. split; [split; discriminate|].
      split; [intros; lra|]. intros _. split; [lra|].
      intros g [= <-]. rewrite over_hundred. nra.
Qed.

Lemma calculateTariffEffects_signs_witness :
  0 < RegionalEconomySimulator.TariffEffects.unemployment
        (RegionalEconomySimulator.calculateTariffEffects "India" 60
           RegionalEconomySimulator.INITIAL_TRADE_MATRIX).
Proof.
  assert (Hvol : Forall (fun t => 0 <= TradeRelationship.tradeVolume t)
                   RegionalEconomySimulator.INITIAL_TRADE_MATRIX)
    by (unfold RegionalEconomySimulator.INITIAL_TRADE_MATRIX;
        repeat constructor; discriminate).
  pose proof (calculateTariffEffects_signs "India" 60
                RegionalEconomySimulator.INITIAL_TRADE_MATRIX Hvol) as H.
  cbv zeta in H. destruct H as (_ & _ & H & _).
  apply H. reflexivity.
Defined.

Lemma trust_lever_range (decisions : list PolicyDecision.t) :
  Forall (fun d => PolicyDecision.id d = "trust" ->
                   0 <= PolicyDecision.value d <= 100) decisions ->
  0 <= PolicySimulator.lever "trust" 50 decisions <= 100.
Proof.
  intros H. unfold PolicySimulator.lever, PolicySimulator.decisionValue.
  destruct (List.find _ decisions) as [d|] eqn:E; simpl; [|lra].
  apply find_some in E as [Hin Hid]. apply String.eqb_eq in Hid.
  pose proof (proj1 (List.Forall_forall _ _) H d Hin Hid) as Hd.
  unfold JS.or_else. destruct (JS.truthy _); lra.
Qed.

(** The cooperation average of a year stays on the scale: when at least one
    country decides and every trust decision has a value in [[0, 100]],
    [avgCooperation] lies in [[0, 100]]; a country without a trust decision,
    or with a trust decision of 0, counts as 50. *)
Theorem avgCooperation_on_scale
    (updatedDecisions : JSObject.t (list PolicyDecision.t)) :
  updatedDecisions <> [] ->
  Forall (fun entry =>
            Forall (fun d => PolicyDecision.id d = "trust" ->
                             0 <= PolicyDecision.value d <= 100) (snd entry))
    updatedDecisions ->
  0 <= App.avgCooperation updatedDecisions <= 100.
Proof.
  intros Hne H. unfold App.avgCooperation, JSObject.values, JSObject.keys.
  rewrite !length_map.
  assert (E : forall l start,
            fold_left (fun sum decisions =>
                         sum + PolicySimulator.lever "trust" 50 decisions)
              (List.map snd l) start
            = fold_left (fun sum (entry : string * list PolicyDecision.t) =>
                           sum + PolicySimulator.lever "trust" 50 (snd entry))
                l start).
  { induction l as [|x l IH]; intros start; simpl; [reflexivity | apply IH]. }
  rewrite E.
  apply (average_between
           (fun entry : string * list PolicyDecision.t =>
              PolicySimulator.lever "trust" 50 (snd entry)) 0 100
           updatedDecisions Hne).
  eapply List.Forall_impl; [|exact H].
  intros entry He. now apply trust_lever_range.
Qed.

Lemma avgCooperation_on_scale_witness :
  0 <= App.avgCooperation open_year <= 100.
Proof.
  apply (avgCooperation_on_scale open_year); [discriminate|].
  apply List.Forall_forall. intros entry He.
  apply List.Forall_forall. intros d Hd Hid.
  destruct He as [<-|[<-|[]]]; simpl in Hd;
    repeat (destruct Hd as [<-|Hd]; [try discriminate Hid; simpl; lra|]);
    destruct Hd.
Defined.

(** ** The three-parameter copy of the simulator *)

Lemma fold_applySpillover_footprint (spillovers : list PolicySpillover.t)
    (st : CountryStats) (f : Field) :
  (forall p, ~ In f (spilloverTargets p)) ->
  (fold_left PolicySimulator.applySpillover spillovers st).[f] = st.[f].
Proof.
  intros Hf. revert st. induction spillovers as [|s rest IH]; intros st; simpl.
  - reflexivity.
  - rewrite IH. apply applySpillover_footprint, Hf.
Qed.

Lemma legacy_persist_outcomes (ds : list PolicyDecision.t) (s : CountryStats) :
  within_bounds s -> within_bounds (PolicySimulator3.persistDecisions ds s).
Proof. unfold within_bounds, PolicySimulator3.persistDecisions. cbn. tauto. Qed.

Lemma legacy_finish_keeps (ds : list PolicyDecision.t) (s : CountryStats)
    (jitter : Q) (f : Field) :
  f = education_spending \/ f = health_expenditure ->
  (s |> add_to gdp_growth jitter |> PolicySimulator.applyBounds
     |> PolicySimulator3.persistDecisions ds).[f] = s.[f].
Proof.
  intros [->| ->];
    unfold PolicySimulator3.persistDecisions, PolicySimulator.applyBounds;
    read_fields; reflexivity.
Qed.

Lemma legacy_policyDeltas_education (st : CountryStats) (ds : list PolicyDecision.t) :
  (PolicySimulator3.policyDeltas st ds).[education_spending]
  = PolicySimulator.lever "education" (st.[education_spending]) ds.
Proof. unfold PolicySimulator3.policyDeltas. cbv zeta. read_fields. reflexivity. Qed.

Lemma legacy_policyDeltas_health (st : CountryStats) (ds : list PolicyDecision.t) :
  (PolicySimulator3.policyDeltas st ds).[health_expenditure]
  = PolicySimulator.lever "health" (st.[health_expenditure]) ds.
Proof. unfold PolicySimulator3.policyDeltas. cbv zeta. read_fields. reflexivity. Qed.

(** The three-parameter copy of [applyPolicyEffects] keeps every bounded
    indicator inside its interval as well, and, unlike the four-parameter
    one, it remembers the education and health decisions: the returned
    [education_spending] and [health_expenditure] are the values of the
    decisions, or the current values when the decision is missing or 0,
    whatever the spillovers and the draw. *)
Theorem legacy_applyPolicyEffects_memory
    (currentStats : CountryStats) (decisions : list PolicyDecision.t)
    (spilloverEffects : list PolicySpillover.t) (random : Q) :
  let newStats :=
    PolicySimulator3.applyPolicyEffects currentStats decisions spilloverEffects random in
  within_bounds newStats
  /\ newStats.[education_spending]
     = PolicySimulator.lever "education" (currentStats.[education_spending]) decisions
  /\ newStats.[health_expenditure]
     = PolicySimulator.lever "health" (currentStats.[health_expenditure]) decisions
  /\ newStats.[environment_spending] = PolicySimulator.lever "environment" 2.0 decisions
  /\ newStats.[trade_liberalization] = PolicySimulator.lever "trade" 50 decisions
  /\ newStats.[tariff_rate] = PolicySimulator.lever "tariff" 15 decisions.
Proof.
  cbv zeta. unfold PolicySimulator3.applyPolicyEffects. split.
  { apply legacy_persist_outcomes, applyBounds_within. }
  split; [|split; [|repeat split]].
  - rewrite legacy_finish_keeps by (now left).
    rewrite fold_applySpillover_footprint
      by (intros p; destruct p; simpl; intuition discriminate).
    apply legacy_policyDeltas_education.
  - rewrite legacy_finish_keeps by (now right).
    rewrite fold_applySpillover_footprint
      by (intros p; destruct p; simpl; intuition discriminate).
    apply legacy_policyDeltas_health.
Qed.

(** ** Binary64: the increase of the literacy rate *)

Section Binary64Increase.

Import PrimFloat.

#[local] Open Scope float_scope.

#[local] Set Warnings "-inexact-float".

Example literacy_increase_from_zero :
  (Binary64.literacy_increase 0 0.2 =? 0.06) = true.
Proof. vm_compute. reflexivity. Qed.

Example literacy_increase_from_74 :
  (Binary64.literacy_increase 74 0.2 =? 0.060000000000002274) = true.
Proof. vm_compute. reflexivity. Qed.


End Binary64Increase.

(** ** The routing of a technology spillover *)





